(** * Traffic-Management-System backend: prediction and route endpoints

    A shallow embedding of [backend/routers/predictions.py],
    [backend/routers/routes.py] and the helpers of [backend/app/utils.py],
    followed by the properties of the specification that concern them.

    Conventions of the embedding:
    - a Python function that may raise returns a [result]; [try/except] is
      [try_except];
    - module-level globals that are assigned at run time ([_model]) are
      threaded explicitly as a state, together with a log of the calls that
      leave the process (artifact loads, provider requests);
    - Python [float] arithmetic is reached through the interface [Float64],
      so that every statement that does not depend on rounding is proved for
      any implementation of it.  Two implementations are given: IEEE 754
      binary64, with the primitive operations of the kernel for Python's own
      operators and numpy's ufuncs supplied by the environment, and the real
      numbers. *)

From Stdlib Require Import ZArith List String Ascii Bool Lia Reals Lra.
From Stdlib Require Import Floats.
From Stdlib Require Import DecimalString.
Import ListNotations.

Local Open Scope string_scope.
Local Open Scope Z_scope.

(* ================================================================= *)
(** ** Python runtime: exceptions and results *)

Module Py.

(** Subscript of [obj[i]]: a string key or an integer position. *)
Inductive index :=
| Key (k : string)
| Idx (i : Z).

(** The exception classes that the embedded code can meet. *)
Inductive exn :=
| NameError (name : string)
| KeyError (key : index)
| IndexError
| TypeError
| AttributeError
| ValueError (msg : string)
| ValidationError (model : string)
| LibraryError (msg : string)
| HTTPException (status_code : Z) (detail : string).

Inductive result (A : Type) :=
| Ok (a : A)
| Raise (e : exn).
Arguments Ok {A} a.
Arguments Raise {A} e.

Definition bind {A B} (m : result A) (k : A -> result B) : result B :=
  match m with
  | Ok a => k a
  | Raise e => Raise e
  end.

(** [try: body  except Exception as e: handler e].  Every class of [exn]
    derives from [Exception], [HTTPException] included. *)
Definition try_except {A} (body : result A) (handler : exn -> result A)
  : result A :=
  match body with
  | Ok a => Ok a
  | Raise e => handler e
  end.

(** [for x in xs: acc.append(f x)], stopping at the first exception. *)
Fixpoint for_append {A B} (f : A -> result B) (xs : list A)
  : result (list B) :=
  match xs with
  | [] => Ok []
  | x :: xs' =>
      bind (f x) (fun y =>
      bind (for_append f xs') (fun ys => Ok (y :: ys)))
  end.

(** Classes of HTTP status codes. *)
Definition client_error (status : Z) : bool :=
  (400 <=? status) && (status <? 500).
Definition server_error (status : Z) : bool :=
  (500 <=? status) && (status <? 600).

End Py.
Export Py.

Declare Scope py_scope.
Delimit Scope py_scope with py.
Notation "x <- m ;; k" := (Py.bind m (fun x => k))
  (at level 61, m at next level, right associativity) : py_scope.
Local Open Scope py_scope.

(* ================================================================= *)
(** ** Python floats *)

(** The operations on [float] / [numpy.float64] that the code uses.
    [np_radians], [np_sin], [np_cos], [np_arcsin] and [np_sqrt] are numpy's
    ufuncs applied to a scalar. *)
Class Float64 (F : Type) := {
  of_Z : Z -> F;
  fadd : F -> F -> F;
  fsub : F -> F -> F;
  fmul : F -> F -> F;
  fdiv : F -> F -> F;
  fle  : F -> F -> bool;
  np_radians : F -> F;
  np_sin : F -> F;
  np_cos : F -> F;
  np_arcsin : F -> F;
  np_sqrt : F -> F
}.

(** [x ** 2]: the product of [x] with itself. *)
Definition fsq {F} `{Float64 F} (x : F) : F := fmul x x.

(** An integer literal as a binary64 value. *)
Definition float_of_Z (z : Z) : float :=
  match z with
  | Z0 => PrimFloat.zero
  | Zpos _ => PrimFloat.of_uint63 (Uint63Axioms.of_Z z)
  | Zneg p => PrimFloat.opp (PrimFloat.of_uint63 (Uint63Axioms.of_Z (Zpos p)))
  end.

(** IEEE 754 binary64 reading of the interface.  [+], [-], [*], [/], [<=]
    and the square root are the correctly rounded operations of the
    format; the other ufuncs of numpy are whatever the installed numpy
    computes. *)
Definition Float64_ieee (radians sin cos arcsin : float -> float)
  : Float64 float := {|
  of_Z := float_of_Z;
  fadd := PrimFloat.add;
  fsub := PrimFloat.sub;
  fmul := PrimFloat.mul;
  fdiv := PrimFloat.div;
  fle  := PrimFloat.leb;
  np_radians := radians;
  np_sin := sin;
  np_cos := cos;
  np_arcsin := arcsin;
  np_sqrt := PrimFloat.sqrt
|}.

(** Real-number reading of the interface: no rounding, no infinities, no
    NaN. *)
#[export] Instance Float64_R : Float64 R := {
  of_Z := IZR;
  fadd := Rplus;
  fsub := Rminus;
  fmul := Rmult;
  fdiv := Rdiv;
  fle  := fun x y => if Rle_dec x y then true else false;
  np_radians := fun x => (x * (PI / 180))%R;
  np_sin := sin;
  np_cos := cos;
  np_arcsin := asin;
  np_sqrt := R_sqrt.sqrt
}.

(* ================================================================= *)
(** ** [datetime.datetime]: the part that the feature builder reads *)

Module Datetime.

Record t := mk {
  year : Z;
  month : Z;
  day : Z;
  hour : Z;
  minute : Z;
  second : Z
}.

Definition _is_leap (y : Z) : bool :=
  (y mod 4 =? 0) && (negb (y mod 100 =? 0) || (y mod 400 =? 0)).

Definition _days_before_year (y : Z) : Z :=
  let y := y - 1 in
  y * 365 + y / 4 - y / 100 + y / 400.

Definition _DAYS_BEFORE_MONTH : list Z :=
  [-1; 0; 31; 59; 90; 120; 151; 181; 212; 243; 273; 304; 334].

Definition _days_before_month (y m : Z) : Z :=
  nth (Z.to_nat m) _DAYS_BEFORE_MONTH (-1)
  + (if (2 <? m) && _is_leap y then 1 else 0).

Definition _ymd2ord (y m d : Z) : Z :=
  _days_before_year y + _days_before_month y m + d.

Definition toordinal (dt : t) : Z :=
  _ymd2ord (year dt) (month dt) (day dt).

(** 0 = Monday ... 6 = Sunday *)
Definition weekday (dt : t) : Z :=
  (toordinal dt + 6) mod 7.

End Datetime.

(* ================================================================= *)
(** ** [backend/routers/predictions.py]

    The endpoint is embedded from the point where the framework has built
    the [TripFeatures] and resolved the authenticated user. *)

Module Predictions.

Module TripFeatures.
Record t (F : Type) := mk {
  pickup_longitude : F;
  pickup_latitude : F;
  dropoff_longitude : F;
  dropoff_latitude : F;
  passenger_count : Z;
  pickup_datetime : string;
  vendor_id : Z;
  store_and_fwd_flag : string
}.
Arguments mk {F}.
Arguments pickup_longitude {F}.
Arguments pickup_latitude {F}.
Arguments dropoff_longitude {F}.
Arguments dropoff_latitude {F}.
Arguments passenger_count {F}.
Arguments pickup_datetime {F}.
Arguments vendor_id {F}.
Arguments store_and_fwd_flag {F}.

(** [re.match("^[YN]$", s)]: [$] also matches before a final newline. *)
Definition regex_YN (s : string) : bool :=
  (s =? "Y")%string || (s =? "N")%string
  || (s =? String "Y" (String "010" ""))%string
  || (s =? String "N" (String "010" ""))%string.

(** What the declared [Field] constraints check on a request body:
    [ge]/[le] on [passenger_count] and [vendor_id], [regex] on the flag.
    The four coordinates are declared [float] with no bound. *)
Definition field_constraints {F} (trip : t F) : bool :=
  (1 <=? passenger_count trip) && (passenger_count trip <=? 8)
  && (1 <=? vendor_id trip) && (vendor_id trip <=? 2)
  && regex_YN (store_and_fwd_flag trip).
End TripFeatures.

(** The dictionary built by [prepare_features], key by key. *)
Module FeatureVector.
Record t (F : Type) := mk {
  vendor_id : Z;
  passenger_count : Z;
  pickup_longitude : F;
  pickup_latitude : F;
  dropoff_longitude : F;
  dropoff_latitude : F;
  store_and_fwd_flag : Z;
  distance_km : F;
  hour : Z;
  day_of_week : Z;
  month : Z;
  is_weekend : Z;
  is_night : Z;
  is_rush_hour : Z
}.
Arguments mk {F}.
Arguments vendor_id {F}.
Arguments passenger_count {F}.
Arguments pickup_longitude {F}.
Arguments pickup_latitude {F}.
Arguments dropoff_longitude {F}.
Arguments dropoff_latitude {F}.
Arguments store_and_fwd_flag {F}.
Arguments distance_km {F}.
Arguments hour {F}.
Arguments day_of_week {F}.
Arguments month {F}.
Arguments is_weekend {F}.
Arguments is_night {F}.
Arguments is_rush_hour {F}.
End FeatureVector.

Module TripPrediction.
Record t (F : Type) := mk {
  trip_duration_seconds : F;
  trip_duration_minutes : F;
  confidence : F
}.
Arguments mk {F}.
Arguments trip_duration_seconds {F}.
Arguments trip_duration_minutes {F}.
Arguments confidence {F}.
End TripPrediction.

(** Module state: the global [_model], and the log of [joblib.load]
    calls made so far (the paths read), oldest first. *)
Record state (Handle : Type) := mk_state {
  _model : option Handle;
  joblib_loads : list string
}.
Arguments mk_state {Handle}.
Arguments _model {Handle}.
Arguments joblib_loads {Handle}.

(** State of a freshly imported module: [_model = None]. *)
Definition initial {Handle} : state Handle := mk_state None [].

Section Operations.
Context {F : Type} `{Float64 F}.

(** The fitted regressor behind the artifact, [datetime.strptime],
    [str] on exceptions and the artifact's location are the
    environment of the module. *)
Variable Handle : Type.
Variable model_predict : Handle -> FeatureVector.t F -> result F.
Variable strptime : string -> string -> result Datetime.t.
Variable str : exn -> string.
Variable MODEL_PATH : string.

(** [joblib.load] as the file system answers it at the time of a call. *)
Definition disk := string -> result Handle.

(** [load_model].  The message printed when the load fails goes to the
    standard output and is not part of the state. *)

Definition load_model (joblib_load : disk) (s : state Handle)
  : option Handle * state Handle :=
  match _model s with
  | None =>
      let log := (joblib_loads s ++ [MODEL_PATH])%list in
      match joblib_load MODEL_PATH with
      | Ok m => (Some m, mk_state (Some m) log)
      | Raise e => (None, mk_state None log)
      end
  | Some m => (Some m, s)
  end.

Definition haversine_distance (lat1 lon1 lat2 lon2 : F) : F :=
  let lat1 := np_radians lat1 in
  let lon1 := np_radians lon1 in
  let lat2 := np_radians lat2 in
  let lon2 := np_radians lon2 in
  let dlat := fsub lat2 lat1 in
  let dlon := fsub lon2 lon1 in
  let a :=
    fadd (fsq (np_sin (fdiv dlat (of_Z 2))))
         (fmul (fmul (np_cos lat1) (np_cos lat2))
               (fsq (np_sin (fdiv dlon (of_Z 2))))) in
  let c := fmul (of_Z 2) (np_arcsin (np_sqrt a)) in
  let r := of_Z 6371 in
  fmul c r.

Definition prepare_features (trip : TripFeatures.t F)
  : result (FeatureVector.t F) :=
  pickup_dt <- strptime (TripFeatures.pickup_datetime trip)
                        "%Y-%m-%d %H:%M:%S" ;;
  let distance_km :=
    haversine_distance
      (TripFeatures.pickup_latitude trip)
      (TripFeatures.pickup_longitude trip)
      (TripFeatures.dropoff_latitude trip)
      (TripFeatures.dropoff_longitude trip) in
  let hour := Datetime.hour pickup_dt in
  let day_of_week := Datetime.weekday pickup_dt in
  let month := Datetime.month pickup_dt in
  Ok {|
    FeatureVector.vendor_id := TripFeatures.vendor_id trip;
    FeatureVector.passenger_count := TripFeatures.passenger_count trip;
    FeatureVector.pickup_longitude := TripFeatures.pickup_longitude trip;
    FeatureVector.pickup_latitude := TripFeatures.pickup_latitude trip;
    FeatureVector.dropoff_longitude :=
      TripFeatures.dropoff_longitude trip;
    FeatureVector.dropoff_latitude := TripFeatures.dropoff_latitude trip;
    FeatureVector.store_and_fwd_flag :=
      if (TripFeatures.store_and_fwd_flag trip =? "Y")%string
      then 1 else 0;
    FeatureVector.distance_km := distance_km;
    FeatureVector.hour := hour;
    FeatureVector.day_of_week := day_of_week;
    FeatureVector.month := month;
    FeatureVector.is_weekend := if 5 <=? day_of_week then 1 else 0;
    FeatureVector.is_night :=
      if ((20 <=? hour) && (hour <=? 23)) || ((0 <=? hour) && (hour <? 6))
      then 1 else 0;
    FeatureVector.is_rush_hour :=
      if ((7 <=? hour) && (hour <=? 10))
         || ((16 <=? hour) && (hour <=? 19))
      then 1 else 0
  |}.

(** Body of the [try] block of [predict_trip_duration].
    [model.predict(X)[0]] is [model_predict]; [float(...)] leaves a
    float64 as it is; [0.9] is the double nearest to 9/10. *)
Definition predict_body (model : Handle) (trip : TripFeatures.t F)
  : result (TripPrediction.t F) :=
  features <- prepare_features trip ;;
  prediction_seconds <- model_predict model features ;;
  let confidence := fdiv (of_Z 9) (of_Z 10) in
  Ok {|
    TripPrediction.trip_duration_seconds := prediction_seconds;
    TripPrediction.trip_duration_minutes :=
      fdiv prediction_seconds (of_Z 60);
    TripPrediction.confidence := confidence
  |}.

Definition predict_trip_duration
    (joblib_load : disk) (trip : TripFeatures.t F) (s : state Handle)
  : result (TripPrediction.t F) * state Handle :=
  let (model, s) := load_model joblib_load s in
  match model with
  | None =>
      (Raise (HTTPException 503 "Prediction model is not available"), s)
  | Some model =>
      (try_except (predict_body model trip)
         (fun e =>
            Raise (HTTPException 422
                     ("Error processing prediction: " ++ str e))),
       s)
  end.

(** The [try/except] statement of [predict_trip_duration], run with a
    given handle. *)
Definition answer_with (model : Handle) (trip : TripFeatures.t F)
  : result (TripPrediction.t F) :=
  try_except (predict_body model trip)
    (fun e =>
       Raise (HTTPException 422 ("Error processing prediction: " ++ str e))).

(** A sequence of requests served by one process; each request comes
    with the file system of its time. *)
Fixpoint serve (reqs : list (disk * TripFeatures.t F)) (s : state Handle)
  : list (result (TripPrediction.t F)) * state Handle :=
  match reqs with
  | [] => ([], s)
  | (fs, trip) :: reqs' =>
      let (r, s1) := predict_trip_duration fs trip s in
      let (rs, s2) := serve reqs' s1 in
      (r :: rs, s2)
  end.

End Operations.

End Predictions.

(* ================================================================= *)
(** ** [backend/app/utils.py] *)

Module Utils.

(** Names bound at the top level of the module, in the order of the file:
    the imports, the constants, the functions and the classes. *)
Definition module_globals : list string :=
  [ "os"; "logging"; "Any"; "Dict"; "Optional"; "datetime"; "timedelta";
    "jwt"; "CryptContext"; "HTTPException"; "status"; "load_dotenv";
    "SECRET_KEY"; "ALGORITHM"; "ACCESS_TOKEN_EXPIRE_MINUTES"; "pwd_context";
    "setup_logging"; "verify_password"; "get_password_hash";
    "create_access_token"; "decode_token"; "haversine_distance";
    "format_duration"; "format_distance"; "AppException";
    "NotFoundException"; "UnauthorizedException"; "ForbiddenException";
    "validate_coordinates"; "RateLimiter"; "logger" ].

(** Python's built-in functions. *)
Definition builtins : list string :=
  [ "abs"; "aiter"; "all"; "anext"; "any"; "ascii"; "bin"; "bool";
    "breakpoint"; "bytearray"; "bytes"; "callable"; "chr"; "classmethod";
    "compile"; "complex"; "delattr"; "dict"; "dir"; "divmod"; "enumerate";
    "eval"; "exec"; "filter"; "float"; "format"; "frozenset"; "getattr";
    "globals"; "hasattr"; "hash"; "help"; "hex"; "id"; "input"; "int";
    "isinstance"; "issubclass"; "iter"; "len"; "list"; "locals"; "map";
    "max"; "memoryview"; "min"; "next"; "object"; "oct"; "open"; "ord";
    "pow"; "print"; "property"; "range"; "repr"; "reversed"; "round";
    "set"; "setattr"; "slice"; "sorted"; "staticmethod"; "str"; "sum";
    "super"; "tuple"; "type"; "vars"; "zip"; "__import__" ].

Definition bound (name : string) (names : list string) : bool :=
  existsb (String.eqb name) names.

(** Reading a name that is not local to the function: the module's
    globals, then the built-ins, else [NameError]. *)
Definition load_global (name : string) : result unit :=
  if bound name module_globals || bound name builtins
  then Ok tt
  else Raise (NameError name).

Section Operations.
Context {F : Type} `{Float64 F}.

(** Formatting of a float inside an f-string. *)
Variable format_float : F -> string.

(** [map(math.radians, [...])] reads [map], then [math]; the rest of
    the body is the formula of the copy in the predictions module,
    with the functions of [math] in place of numpy's. *)
Definition haversine_distance (lat1 lon1 lat2 lon2 : F) : result F :=
  _ <- load_global "map" ;;
  _ <- load_global "math" ;;
  let lat1 := np_radians lat1 in
  let lon1 := np_radians lon1 in
  let lat2 := np_radians lat2 in
  let lon2 := np_radians lon2 in
  let dlat := fsub lat2 lat1 in
  let dlon := fsub lon2 lon1 in
  let a :=
    fadd (fsq (np_sin (fdiv dlat (of_Z 2))))
         (fmul (fmul (np_cos lat1) (np_cos lat2))
               (fsq (np_sin (fdiv dlon (of_Z 2))))) in
  let c := fmul (of_Z 2) (np_arcsin (np_sqrt a)) in
  let r := of_Z 6371 in
  Ok (fmul c r).

Definition validate_coordinates (lat lng : F) : result unit :=
  if negb (fle (of_Z (-90)) lat && fle lat (of_Z 90)) then
    Raise (HTTPException 400
             ("Latitude must be between -90 and 90, got "
              ++ format_float lat))
  else if negb (fle (of_Z (-180)) lng && fle lng (of_Z 180)) then
    Raise (HTTPException 400
             ("Longitude must be between -180 and 180, got "
              ++ format_float lng))
  else Ok tt.

(** Both tests of [validate_coordinates] pass: latitude in [-90, 90] and
    longitude in [-180, 180]. *)
Definition in_range (lat lng : F) : bool :=
  (fle (of_Z (-90)) lat && fle lat (of_Z 90))
  && (fle (of_Z (-180)) lng && fle lng (of_Z 180)).

End Operations.

End Utils.

(* ================================================================= *)
(** ** Values decoded from JSON *)

Module Json.

Unset Elimination Schemes.
Inductive pyval (F : Type) :=
| PNone
| PBool (b : bool)
| PInt (z : Z)
| PFloat (x : F)
| PStr (s : string)
| PList (l : list (pyval F))
| PDict (d : list (string * pyval F)).
Set Elimination Schemes.
Arguments PNone {F}.
Arguments PBool {F} b.
Arguments PInt {F} z.
Arguments PFloat {F} x.
Arguments PStr {F} s.
Arguments PList {F} l.
Arguments PDict {F} d.

Section Operations.
Context {F : Type} `{Float64 F}.

(** [d[k]] on the entries of a dict. *)
Fixpoint lookup (k : string) (d : list (string * pyval F))
  : option (pyval F) :=
  match d with
  | [] => None
  | (k', v) :: d' => if (k =? k')%string then Some v else lookup k d'
  end.

(** [l[i]] with Python's negative positions. *)
Definition list_index {A} (l : list A) (i : Z) : option A :=
  let n := Z.of_nat (List.length l) in
  let j := if i <? 0 then i + n else i in
  if (0 <=? j) && (j <? n) then nth_error l (Z.to_nat j) else None.

Definition chars (s : string) : list (pyval F) :=
  map (fun c => PStr (String c "")) (list_ascii_of_string s).

(** [bool(v)] *)
Definition truthy (v : pyval F) : bool :=
  match v with
  | PNone => false
  | PBool b => b
  | PInt z => negb (z =? 0)
  | PFloat x => negb (fle x (of_Z 0) && fle (of_Z 0) x)
  | PStr s => negb (s =? "")%string
  | PList l => match l with [] => false | _ => true end
  | PDict d => match d with [] => false | _ => true end
  end.

(** [v[i]] *)
Definition getitem (v : pyval F) (i : index) : result (pyval F) :=
  match v, i with
  | PDict d, Key k =>
      match lookup k d with
      | Some x => Ok x
      | None => Raise (KeyError i)
      end
  | PDict d, Idx _ => Raise (KeyError i)
  | PList l, Idx z =>
      match list_index l z with
      | Some x => Ok x
      | None => Raise IndexError
      end
  | PStr s, Idx z =>
      match list_index (chars s) z with
      | Some x => Ok x
      | None => Raise IndexError
      end
  | _, _ => Raise TypeError
  end.

(** [v.get(k, default)]: only a dict has the method. *)
Definition get (v : pyval F) (k : string) (default : pyval F)
  : result (pyval F) :=
  match v with
  | PDict d =>
      match lookup k d with
      | Some x => Ok x
      | None => Ok default
      end
  | _ => Raise AttributeError
  end.

(** The items visited by [for x in v]. *)
Definition iter (v : pyval F) : result (list (pyval F)) :=
  match v with
  | PList l => Ok l
  | PDict d => Ok (map (fun kv => PStr (fst kv)) d)
  | PStr s => Ok (chars s)
  | _ => Raise TypeError
  end.

End Operations.

End Json.

(* ================================================================= *)
(** ** [backend/routers/routes.py]

    The endpoint is embedded from the point where the framework has built
    the [RouteRequest] and resolved the authenticated user. *)

Module Routes.
Import Json.

Module Coordinate.
Record t (F : Type) := mk { lng : F; lat : F }.
Arguments mk {F}.
Arguments lng {F}.
Arguments lat {F}.
End Coordinate.

Module RouteRequest.
Record t (F : Type) := mk {
  start : Coordinate.t F;
  end_ : Coordinate.t F;
  profile : string;
  alternatives : bool;
  optimize_waypoints : bool
}.
Arguments mk {F}.
Arguments start {F}.
Arguments end_ {F}.
Arguments profile {F}.
Arguments alternatives {F}.
Arguments optimize_waypoints {F}.
End RouteRequest.

Module RouteLegStep.
Record t (F : Type) := mk {
  distance : F;
  duration : F;
  instruction : string;
  name : string;
  way_points : list Z
}.
Arguments mk {F}.
Arguments distance {F}.
Arguments duration {F}.
Arguments instruction {F}.
Arguments name {F}.
Arguments way_points {F}.
End RouteLegStep.

Module RouteLeg.
Record t (F : Type) := mk {
  steps : list (RouteLegStep.t F);
  summary : list (string * pyval F);
  way_points : list Z
}.
Arguments mk {F}.
Arguments steps {F}.
Arguments summary {F}.
Arguments way_points {F}.
End RouteLeg.

Module Route.
Record t (F : Type) := mk {
  distance : F;
  duration : F;
  geometry : list (string * pyval F);
  segments : list (RouteLeg.t F)
}.
Arguments mk {F}.
Arguments distance {F}.
Arguments duration {F}.
Arguments geometry {F}.
Arguments segments {F}.
End Route.

(** The keyword arguments of one [client.directions(...)] call. *)
Module DirectionsCall.
Record t (F : Type) := mk {
  coordinates : list (list F);
  profile : string;
  format : string;
  alternatives : bool;
  optimize_waypoints : bool
}.
Arguments mk {F}.
Arguments coordinates {F}.
Arguments profile {F}.
Arguments format {F}.
Arguments alternatives {F}.
Arguments optimize_waypoints {F}.
End DirectionsCall.

(** [not ORS_API_KEY] for the value of [os.getenv]: unset, or empty. *)
Definition key_missing (ORS_API_KEY : option string) : bool :=
  match ORS_API_KEY with
  | None => true
  | Some k => (k =? "")%string
  end.

Section Operations.
Context {F : Type} `{Float64 F}.

(** Environment of the module: the provider behind
    [client.directions], [str] on exceptions, and the coercions that
    pydantic applies to a field of each declared type ([None] when the
    value is refused). *)
Variable directions : DirectionsCall.t F -> result (pyval F).
Variable str : exn -> string.
Variable float_validator : pyval F -> option F.
Variable str_validator : pyval F -> option string.
Variable list_int_validator : pyval F -> option (list Z).
Variable dict_validator : pyval F -> option (list (string * pyval F)).

(** [RouteLegStep(distance=..., duration=..., ...)] *)
Definition RouteLegStep_init
    (distance duration instruction name way_points : pyval F)
  : result (RouteLegStep.t F) :=
  match float_validator distance, float_validator duration,
        str_validator instruction, str_validator name,
        list_int_validator way_points with
  | Some d, Some t, Some i, Some n, Some w =>
      Ok (RouteLegStep.mk d t i n w)
  | _, _, _, _, _ => Raise (ValidationError "RouteLegStep")
  end.

(** [RouteLeg(steps=..., summary=..., way_points=...)] *)
Definition RouteLeg_init
    (steps : list (RouteLegStep.t F)) (summary way_points : pyval F)
  : result (RouteLeg.t F) :=
  match dict_validator summary, list_int_validator way_points with
  | Some s, Some w => Ok (RouteLeg.mk steps s w)
  | _, _ => Raise (ValidationError "RouteLeg")
  end.

(** [Route(distance=..., duration=..., geometry=..., segments=...)] *)
Definition Route_init
    (distance duration geometry : pyval F)
    (segments : list (RouteLeg.t F))
  : result (Route.t F) :=
  match float_validator distance, float_validator duration,
        dict_validator geometry with
  | Some d, Some t, Some g => Ok (Route.mk d t g segments)
  | _, _, _ => Raise (ValidationError "Route")
  end.

(** Body of the inner loop: one provider step to one [RouteLegStep]. *)
Definition reshape_step (step : pyval F) : result (RouteLegStep.t F) :=
  distance <- getitem step (Key "distance") ;;
  duration <- getitem step (Key "duration") ;;
  instruction <- get step "instruction" (PStr "") ;;
  name <- get step "name" (PStr "") ;;
  way_points <- get step "way_points" (PList []) ;;
  RouteLegStep_init distance duration instruction name way_points.

(** Body of the outer loop: one provider segment to one [RouteLeg]. *)
Definition reshape_leg (leg : pyval F) : result (RouteLeg.t F) :=
  leg_steps <- getitem leg (Key "steps") ;;
  items <- iter leg_steps ;;
  steps <- for_append reshape_step items ;;
  summary <- get leg "summary" (PDict []) ;;
  way_points <- get leg "way_points" (PList []) ;;
  RouteLeg_init steps summary way_points.

(** The provider steps that the inner loop visits for one segment. *)
Definition leg_steps (leg : pyval F) : result (list (pyval F)) :=
  leg_steps <- getitem leg (Key "steps") ;;
  iter leg_steps.

(** The provider segments that the outer loop visits: those of the first
    feature. *)
Definition route_legs (route : pyval F) : result (list (pyval F)) :=
  features <- getitem route (Key "features") ;;
  feature <- getitem features (Idx 0) ;;
  properties <- getitem feature (Key "properties") ;;
  legs <- getitem properties (Key "segments") ;;
  iter legs.

(** A reshaped step carries the default of each optional key that the
    provider step lacks. *)
Definition defaults_applied (step : pyval F) (out : RouteLegStep.t F) : Prop :=
  exists d,
    step = PDict d
    /\ (lookup "instruction" d = None -> RouteLegStep.instruction out = "")
    /\ (lookup "name" d = None -> RouteLegStep.name out = "")
    /\ (lookup "way_points" d = None -> RouteLegStep.way_points out = []).

(** The [if route['features']: ... else: raise 404] statement. *)
Definition format_response (route : pyval F) : result (Route.t F) :=
  features <- getitem route (Key "features") ;;
  if truthy features then
    features <- getitem route (Key "features") ;;
    feature <- getitem features (Idx 0) ;;
    properties <- getitem feature (Key "properties") ;;
    legs <- getitem properties (Key "segments") ;;
    items <- iter legs ;;
    segments <- for_append reshape_leg items ;;
    properties <- getitem feature (Key "properties") ;;
    summary <- getitem properties (Key "summary") ;;
    distance <- getitem summary (Key "distance") ;;
    properties <- getitem feature (Key "properties") ;;
    summary <- getitem properties (Key "summary") ;;
    duration <- getitem summary (Key "duration") ;;
    geometry <- getitem feature (Key "geometry") ;;
    Route_init distance duration geometry segments
  else
    Raise (HTTPException 404
             "No route found between the specified points").

(** Provider payloads that the adapter reshapes without error.  A value
    is accepted by a validator when pydantic coerces it; a required key
    must be present with an accepted value, an optional key may be
    absent. *)
Definition accepted {B} (validator : pyval F -> option B) (v : pyval F)
  : bool :=
  match validator v with
  | Some _ => true
  | None => false
  end.

Definition required {B} (validator : pyval F -> option B)
    (d : list (string * pyval F)) (k : string) : bool :=
  match lookup k d with
  | Some v => accepted validator v
  | None => false
  end.

Definition optional {B} (validator : pyval F -> option B)
    (d : list (string * pyval F)) (k : string) : bool :=
  match lookup k d with
  | Some v => accepted validator v
  | None => true
  end.

(** A step: a dict with a distance and a duration; [instruction], [name]
    and [way_points] may be missing. *)
Definition step_well_formed (step : pyval F) : bool :=
  match step with
  | PDict d =>
      required float_validator d "distance"
      && required float_validator d "duration"
      && optional str_validator d "instruction"
      && optional str_validator d "name"
      && optional list_int_validator d "way_points"
  | _ => false
  end.

(** A segment: a dict whose [steps] is a list of such steps. *)
Definition leg_well_formed (leg : pyval F) : bool :=
  match leg with
  | PDict d =>
      match lookup "steps" d with
      | Some (PList items) => forallb step_well_formed items
      | _ => false
      end
      && optional dict_validator d "summary"
      && optional list_int_validator d "way_points"
  | _ => false
  end.

(** A provider answer: a dict whose [features] is a list that starts with
    a feature carrying its segments, its summary and its geometry.  The
    features after the first are not constrained. *)
Definition route_well_formed (route : pyval F) : bool :=
  match route with
  | PDict top =>
      match lookup "features" top with
      | Some (PList (PDict feature :: _)) =>
          match lookup "properties" feature, lookup "geometry" feature with
          | Some (PDict properties), Some geometry =>
              match lookup "segments" properties,
                    lookup "summary" properties with
              | Some (PList legs), Some (PDict summary) =>
                  forallb leg_well_formed legs
                  && required float_validator summary "distance"
                  && required float_validator summary "duration"
                  && accepted dict_validator geometry
              | _, _ => false
              end
          | _, _ => false
          end
      | _ => false
      end
  | _ => false
  end.

Definition directions_call (route_request : RouteRequest.t F)
  : DirectionsCall.t F :=
  let coordinates :=
    [ [ Coordinate.lng (RouteRequest.start route_request);
        Coordinate.lat (RouteRequest.start route_request) ];
      [ Coordinate.lng (RouteRequest.end_ route_request);
        Coordinate.lat (RouteRequest.end_ route_request) ] ] in
  {| DirectionsCall.coordinates := coordinates;
     DirectionsCall.profile := RouteRequest.profile route_request;
     DirectionsCall.format := "geojson";
     DirectionsCall.alternatives :=
       RouteRequest.alternatives route_request;
     DirectionsCall.optimize_waypoints :=
       RouteRequest.optimize_waypoints route_request |}.

(** The endpoint.  [outbound] is the log of the calls already made to
    the directions provider, oldest first; the result carries the log
    after this request. *)
Definition get_optimized_route
    (ORS_API_KEY : option string)
    (route_request : RouteRequest.t F)
    (outbound : list (DirectionsCall.t F))
  : result (Route.t F) * list (DirectionsCall.t F) :=
  if key_missing ORS_API_KEY then
    (Raise (HTTPException 500 "OpenRouteService API key not configured"),
     outbound)
  else
    let call := directions_call route_request in
    (try_except
       (route <- directions call ;; format_response route)
       (fun e =>
          Raise (HTTPException 500
                   ("Error calculating route: " ++ str e))),
     (outbound ++ [call])%list).

End Operations.

End Routes.

(* ================================================================= *)
(** ** A concrete environment

    One admissible choice for each piece of the environment, used to run
    the operations on concrete requests. *)

Module Sample.
Import Json.

(** Decimal literals denote the nearest binary64 value, as in Python. *)
#[local] Set Warnings "-inexact-float".

(** [repr(s)] for a [str]: single quotes unless the text has a single and
    no double quote; the backslash, the quote and the control characters
    escaped.  Bytes above 127 belong to the UTF-8 form of printable
    characters and stay as they are. *)
Definition backslash : ascii := ascii_of_nat 92.
Definition double_quote : ascii := ascii_of_nat 34.
Definition single_quote : ascii := ascii_of_nat 39.

Definition hex_digit (n : nat) : ascii :=
  nth n (list_ascii_of_string "0123456789abcdef") "0"%char.

Definition repr_char (quote c : ascii) : list ascii :=
  let n := nat_of_ascii c in
  if Ascii.eqb c backslash then [backslash; backslash]
  else if Ascii.eqb c quote then [backslash; c]
  else if Nat.eqb n 9 then [backslash; "t"%char]
  else if Nat.eqb n 10 then [backslash; "n"%char]
  else if Nat.eqb n 13 then [backslash; "r"%char]
  else if Nat.ltb n 32 || Nat.eqb n 127 then
    [backslash; "x"%char; hex_digit (Nat.div n 16); hex_digit (Nat.modulo n 16)]
  else [c].

Definition repr_str (s : string) : string :=
  let cs := list_ascii_of_string s in
  let quote :=
    if existsb (Ascii.eqb single_quote) cs
       && negb (existsb (Ascii.eqb double_quote) cs)
    then double_quote else single_quote in
  string_of_list_ascii
    ([quote] ++ flat_map (repr_char quote) cs ++ [quote])%list.

(** [int(s)] for the text of a group: decimal digits after optional
    blanks. *)
Definition int_of (cs : list ascii) : Z :=
  fold_left (fun acc c =>
               let n := Z.of_nat (nat_of_ascii c) in
               if (48 <=? n) && (n <=? 57) then 10 * acc + (n - 48) else acc)
            cs 0.

(** The regular expression that [_strptime] compiles for the format
    ["%Y-%m-%d %H:%M:%S"], on ASCII text:
    [(\d\d\d\d)-(1[0-2]|0[1-9]|[1-9])-(3[0-1]|[1-2]\d|0[1-9]|[1-9]| [1-9])\s+(2[0-3]|[0-1]\d|\d):([0-5]\d|\d):(6[0-1]|[0-5]\d|\d)]. *)
Inductive cls :=
| Digit
| Range (lo hi : ascii)
| Char (c : ascii)
| Whitespace.

Inductive item :=
| Group (alternatives : list (list cls))
| Spaces.

Definition in_class (k : cls) (c : ascii) : bool :=
  let n := nat_of_ascii c in
  match k with
  | Digit => Nat.leb 48 n && Nat.leb n 57
  | Range lo hi => Nat.leb (nat_of_ascii lo) n && Nat.leb n (nat_of_ascii hi)
  | Char c' => Ascii.eqb c c'
  | Whitespace =>
      (Nat.leb 9 n && Nat.leb n 13) || (Nat.leb 28 n && Nat.leb n 32)
  end.

(** One alternative at the head of the text: what it matched and what is
    left. *)
Fixpoint take (alternative : list cls) (text : list ascii)
  : option (list ascii * list ascii) :=
  match alternative with
  | [] => Some ([], text)
  | k :: alternative' =>
      match text with
      | c :: text' =>
          if in_class k c then
            match take alternative' text' with
            | Some (matched, rest) => Some (c :: matched, rest)
            | None => None
            end
          else None
      | [] => None
      end
  end.

(** The first of the attempts that succeeds, in order. *)
Fixpoint first_success {A B} (attempt : A -> option B) (xs : list A)
  : option B :=
  match xs with
  | [] => None
  | x :: xs' =>
      match attempt x with
      | Some b => Some b
      | None => first_success attempt xs'
      end
  end.

Fixpoint leading_whitespace (text : list ascii) : nat :=
  match text with
  | c :: text' =>
      if in_class Whitespace c then S (leading_whitespace text') else O
  | [] => O
  end.

(** Backtracking match at the start of the text: the texts of the groups
    and the text left.  A group tries its alternatives from left to right,
    [\s+] the longest run first. *)
Fixpoint regex_match (pattern : list item) (text : list ascii)
    (groups : list (list ascii))
  : option (list (list ascii) * list ascii) :=
  match pattern with
  | [] => Some (groups, text)
  | Group alternatives :: pattern' =>
      first_success
        (fun alternative =>
           match take alternative text with
           | Some (matched, rest) =>
               regex_match pattern' rest (groups ++ [matched])%list
           | None => None
           end)
        alternatives
  | Spaces :: pattern' =>
      first_success
        (fun k => regex_match pattern' (skipn k text) groups)
        (rev (seq 1 (leading_whitespace text)))
  end.

Definition FORMAT : string := "%Y-%m-%d %H:%M:%S".

Definition format_regex : list item :=
  [ Group [[Digit; Digit; Digit; Digit]];
    Group [[Char "-"]];
    Group [[Char "1"; Range "0" "2"]; [Char "0"; Range "1" "9"];
           [Range "1" "9"]];
    Group [[Char "-"]];
    Group [[Char "3"; Range "0" "1"]; [Range "1" "2"; Digit];
           [Char "0"; Range "1" "9"]; [Range "1" "9"];
           [Char " "; Range "1" "9"]];
    Spaces;
    Group [[Char "2"; Range "0" "3"]; [Range "0" "1"; Digit]; [Digit]];
    Group [[Char ":"]];
    Group [[Range "0" "5"; Digit]; [Digit]];
    Group [[Char ":"]];
    Group [[Char "6"; Range "0" "1"]; [Range "0" "5"; Digit]; [Digit]] ]%char.

Definition days_in_month (y m : Z) : Z :=
  if m =? 2 then (if Datetime._is_leap y then 29 else 28)
  else if (m =? 4) || (m =? 6) || (m =? 9) || (m =? 11) then 30
  else 31.

(** [datetime.strptime(s, fmt)] of CPython 3.11 for the one format that
    the code passes, on ASCII text: the match, the check that nothing is
    left, the date built by [_strptime] and the [datetime] built from the
    fields, each with the message of its [ValueError].  No other format
    is modelled. *)
Definition strptime (s fmt : string) : result Datetime.t :=
  if negb (fmt =? FORMAT)%string then
    Raise (LibraryError "strptime: format not modelled")
  else
    match regex_match format_regex (list_ascii_of_string s) [] with
    | Some ([year; _; month; _; day; hour; _; minute; _; second], rest) =>
        match rest with
        | _ :: _ =>
            Raise (ValueError ("unconverted data remains: "
                               ++ string_of_list_ascii rest))
        | [] =>
            let y := int_of year in
            let m := int_of month in
            let d := int_of day in
            if y =? 0 then Raise (ValueError "year 0 is out of range")
            else if days_in_month y m <? d then
              Raise (ValueError "day is out of range for month")
            else if 59 <? int_of second then
              Raise (ValueError "second must be in 0..59")
            else
              Ok (Datetime.mk y m d (int_of hour) (int_of minute)
                    (int_of second))
        end
    | _ =>
        Raise (ValueError ("time data " ++ repr_str s
                           ++ " does not match format " ++ repr_str fmt))
    end.

(** [str(e)].  An exception raised with one argument shows it, a
    [KeyError] the [repr] of its key; [HTTPException] is raised by the
    code with keyword arguments only, which leaves [args] empty (Starlette
    0.27 defines no [__str__]).  [IndexError] has the message of a list
    index.  The classes kept without their operands ([TypeError],
    [AttributeError], [ValidationError]) have messages that the model
    cannot rebuild; the empty string stands for them. *)
Definition str (e : exn) : string :=
  match e with
  | NameError name => "name '" ++ name ++ "' is not defined"
  | KeyError (Key k) => repr_str k
  | KeyError (Idx i) => NilZero.string_of_int (Z.to_int i)
  | IndexError => "list index out of range"
  | ValueError msg => msg
  | LibraryError msg => msg
  | HTTPException _ _ => ""
  | TypeError | AttributeError | ValidationError _ => ""
  end.

Definition MODEL_PATH : string := "backend/models/trip_duration_model.joblib".

(** A fitted model: base duration plus a duration per kilometre. *)
Record linear_model (F : Type) := mk_linear { intercept : F; per_km : F }.
Arguments mk_linear {F}.
Arguments intercept {F}.
Arguments per_km {F}.

Definition model_predict {F} `{Float64 F}
    (m : linear_model F) (fv : Predictions.FeatureVector.t F) : result F :=
  Ok (fadd (intercept m)
           (fmul (per_km m) (Predictions.FeatureVector.distance_km fv))).

(** A file system that holds the artifact, and one that does not. *)
Definition disk_with {F} (m : linear_model F)
  : string -> result (linear_model F) :=
  fun path =>
    if (path =? MODEL_PATH)%string then Ok m
    else Raise (LibraryError "No such file or directory").

Definition empty_disk {F} : string -> result (linear_model F) :=
  fun _ => Raise (LibraryError "No such file or directory").

Definition format_float {F} (x : F) : string := "<float>".

(** Validators that accept the values already of the declared type (and
    an [int] for a [float]). *)
Definition float_validator {F} `{Float64 F} (v : pyval F) : option F :=
  match v with
  | PFloat x => Some x
  | PInt z => Some (of_Z z)
  | _ => None
  end.

Definition str_validator {F} (v : pyval F) : option string :=
  match v with
  | PStr s => Some s
  | _ => None
  end.

Fixpoint ints {F} (l : list (pyval F)) : option (list Z) :=
  match l with
  | [] => Some []
  | PInt z :: l' =>
      match ints l' with
      | Some zs => Some (z :: zs)
      | None => None
      end
  | _ :: _ => None
  end.

Definition list_int_validator {F} (v : pyval F) : option (list Z) :=
  match v with
  | PList l => ints l
  | _ => None
  end.

Definition dict_validator {F} (v : pyval F)
  : option (list (string * pyval F)) :=
  match v with
  | PDict d => Some d
  | _ => None
  end.

(** Stand-ins for numpy's ufuncs: the conversion factor of degrees to
    radians, and the first terms of the series of each function, written so
    that the sign of the argument is carried by one multiplication. *)
Definition radians (x : float) : float :=
  (x * 0.017453292519943295)%float.

Definition sin (x : float) : float :=
  (x * (1 - x * x / 6))%float.

Definition cos (x : float) : float :=
  (1 - x * x / 2)%float.

Definition arcsin (x : float) : float :=
  (x * (1 + x * x / 6))%float.

Definition numpy : Float64 float :=
  Float64_ieee radians sin cos arcsin.

(** Requests and payloads. *)
Definition model : linear_model float := mk_linear 180%float 150%float.

Definition trip (pickup_datetime : string)
  : Predictions.TripFeatures.t float :=
  Predictions.TripFeatures.mk
    (-73.9857)%float 40.7484%float (-73.9881)%float 40.7517%float
    1 pickup_datetime 1 "N".

(** The same trip with a pickup latitude of 100 degrees. *)
Definition trip_lat_100 : Predictions.TripFeatures.t float :=
  Predictions.TripFeatures.mk
    (-73.9857)%float 100%float (-73.9881)%float 40.7517%float
    1 "2023-01-01 12:00:00" 1 "N".

Definition route_request : Routes.RouteRequest.t float :=
  Routes.RouteRequest.mk
    (Routes.Coordinate.mk (-73.9857)%float 40.7484%float)
    (Routes.Coordinate.mk (-73.9881)%float 40.7517%float)
    "driving-car" false false.

(** A provider answer with no route. *)
Definition no_route : pyval float :=
  PDict [("type", PStr "FeatureCollection"); ("features", PList [])].

(** A provider answer with one route of one segment and two steps; the
    second step carries only its distance and duration. *)
Definition full_step : pyval float :=
  PDict [("distance", PFloat 312.4%float); ("duration", PFloat 58.1%float);
         ("type", PInt 11); ("instruction", PStr "Head north");
         ("name", PStr "5th Avenue"); ("way_points", PList [PInt 0; PInt 4])].

Definition bare_step : pyval float :=
  PDict [("distance", PFloat 120.5%float); ("duration", PInt 30)].

Definition one_route : pyval float :=
  PDict [("type", PStr "FeatureCollection");
         ("features",
          PList [PDict
            [("type", PStr "Feature");
             ("properties",
              PDict [("segments",
                      PList [PDict [("distance", PFloat 432.9%float);
                                    ("duration", PFloat 88.1%float);
                                    ("steps", PList [full_step; bare_step])]]);
                     ("summary",
                      PDict [("distance", PFloat 432.9%float);
                             ("duration", PFloat 88.1%float)])]);
             ("geometry",
              PDict [("type", PStr "LineString");
                     ("coordinates", PList [])])]])].

Definition directions (answer : pyval float)
  : Routes.DirectionsCall.t float -> result (pyval float) :=
  fun _ => Ok answer.

End Sample.

(* ================================================================= *)
(** ** Executing the top level of a module

    The part of an import that decides whether it completes: the names
    each top-level statement reads when it runs, and the names it binds.
    The body of a [def] is not run by the [def] statement; its decorators,
    default values and annotations are. *)

Module PyModule.

Inductive stmt :=
| FromImport (module : string) (names : list string)
| Run (reads binds : list string).

(** Names present in the globals of a module before its first statement. *)
Definition initial_globals : list string :=
  [ "__name__"; "__doc__"; "__package__"; "__loader__"; "__spec__";
    "__file__"; "__cached__"; "__builtins__" ].

(** The first of [names] that is neither a global nor a built-in. *)
Fixpoint first_unbound (globals names : list string) : option string :=
  match names with
  | [] => None
  | n :: names' =>
      if Utils.bound n globals || Utils.bound n Utils.builtins
      then first_unbound globals names'
      else Some n
  end.

(** One statement: the globals after it, or the exception it raises.
    [importing] is the outcome of importing another module. *)
Definition exec_stmt (importing : string -> result unit)
    (globals : list string) (s : stmt) : result (list string) :=
  match s with
  | FromImport module names =>
      _ <- importing module ;;
      Ok (globals ++ names)%list
  | Run reads binds =>
      match first_unbound globals reads with
      | Some n => Raise (NameError n)
      | None => Ok (globals ++ binds)%list
      end
  end.

Fixpoint exec (importing : string -> result unit)
    (globals : list string) (body : list stmt) : result (list string) :=
  match body with
  | [] => Ok globals
  | s :: body' =>
      globals' <- exec_stmt importing globals s ;;
      exec importing globals' body'
  end.

(** [import m]: run the body of [m] in fresh globals. *)
Definition import_module (importing : string -> result unit)
    (body : list stmt) : result unit :=
  _ <- exec importing initial_globals body ;;
  Ok tt.

End PyModule.

(* ================================================================= *)
(** ** [backend/routers/admin.py] and [backend/app/main.py]: top level *)

Module AdminModule.
Import PyModule.

(** The top-level statements of [routers/admin.py] up to the endpoint
    [get_timeseries_analytics], in the order of the file. *)
Definition prologue : list stmt :=
  [ FromImport "fastapi" ["APIRouter"; "HTTPException"; "Depends"; "status"];
    FromImport "fastapi.responses" ["JSONResponse"];
    FromImport "typing" ["List"; "Dict"; "Optional"];
    FromImport "datetime" ["datetime"; "timedelta"];
    FromImport "pandas" ["pd"];
    FromImport "numpy" ["np"];
    FromImport "json" ["json"];
    FromImport "os" ["os"];
    FromImport "pathlib" ["Path"];
    FromImport "..routers.auth" ["get_current_active_user"];
    FromImport "pydantic" ["BaseModel"; "Field"];
    FromImport "dotenv" ["load_dotenv"];
    Run ["load_dotenv"] [];
    Run ["APIRouter"] ["router"];
    Run ["os"; "__file__"] ["MOCK_DATA_PATH"];
    Run ["BaseModel"; "Optional"; "datetime"; "Field"] ["TimeRange"];
    Run ["BaseModel"; "int"; "str"; "float"] ["ZoneAnalytics"];
    Run ["BaseModel"; "datetime"; "float"] ["TimeSeriesPoint"];
    Run ["BaseModel"; "int"; "float"; "List"; "ZoneAnalytics";
         "TimeSeriesPoint"] ["AnalyticsResponse"];
    Run [] ["load_mock_data"];
    Run ["router"; "AnalyticsResponse"; "Depends"; "get_current_active_user";
         "TimeRange"; "dict"] ["get_analytics_summary"];
    Run ["router"; "Depends"; "get_current_active_user"; "TimeRange"; "int";
         "dict"] ["get_zone_analytics"];
    Run ["router"; "Depends"; "get_current_active_user"; "TimeRange"; "str";
         "dict"] ["get_timeseries_analytics"] ].

(** [@router.get("/system/status") async def get_system_status(
      current_user: dict = Depends(get_active_admin_user))] *)
Definition def_get_system_status : stmt :=
  Run ["router"; "Depends"; "get_active_admin_user"; "dict"]
      ["get_system_status"].

(** [def get_active_admin_user(
      current_user: dict = Depends(get_current_active_user))] *)
Definition def_get_active_admin_user : stmt :=
  Run ["Depends"; "get_current_active_user"; "dict"]
      ["get_active_admin_user"].

(** The module as written: the endpoint comes before the helper. *)
Definition body : list stmt :=
  prologue ++ [def_get_system_status; def_get_active_admin_user].

(** The same statements with the helper before the endpoint. *)
Definition body_helper_first : list stmt :=
  prologue ++ [def_get_active_admin_user; def_get_system_status].

(** The top-level statements of [app/main.py]. *)
Definition main_body : list stmt :=
  [ FromImport "fastapi" ["FastAPI"; "Depends"; "HTTPException"];
    FromImport "fastapi.middleware.cors" ["CORSMiddleware"];
    FromImport "fastapi.staticfiles" ["StaticFiles"];
    FromImport "contextlib" ["asynccontextmanager"];
    FromImport "typing" ["Optional"];
    FromImport "os" ["os"];
    FromImport "dotenv" ["load_dotenv"];
    Run ["load_dotenv"] [];
    FromImport "..routers.auth" ["auth"];
    FromImport "..routers.routes" ["routes"];
    FromImport "..routers.predictions" ["predictions"];
    FromImport "..routers.admin" ["admin"];
    Run ["FastAPI"] ["app"];
    Run ["app"; "CORSMiddleware"] [];
    Run ["app"; "auth"] [];
    Run ["app"; "routes"] [];
    Run ["app"; "predictions"] [];
    Run ["app"; "admin"] [];
    Run ["app"; "StaticFiles"] [];
    Run ["app"] ["health_check"];
    Run ["__name__"] [] ].

(** Importing from [main.py]: [routers/admin.py] is the module above; any
    other module is as the environment has it. *)
Definition importing_from_main (environment : string -> result unit)
  : string -> result unit :=
  fun module =>
    if (module =? "..routers.admin")%string
    then import_module environment body
    else environment module.

Definition import_main (environment : string -> result unit) : result unit :=
  import_module (importing_from_main environment) main_body.

End AdminModule.

(* ================================================================= *)
(** ** Formatting and dict helpers of the Python runtime *)

Module PyFormat.

(** [str(i)] for an [int]. *)
Definition str_int (i : Z) : string :=
  DecimalString.NilZero.string_of_int (Z.to_int i).

(** [f"{i:02d}"]: at least two characters, padded with a zero. *)
Definition format_02d (i : Z) : string :=
  if (0 <=? i) && (i <? 10) then "0" ++ str_int i else str_int i.

(** [range(lo, hi)] *)
Definition range (lo hi : Z) : list Z :=
  map (fun k => lo + Z.of_nat k) (seq 0 (Z.to_nat (hi - lo))).

(** [divmod(a, b)] on [int]: floor division and its remainder. *)
Definition divmod (a b : Z) : Z * Z := (a / b, a mod b).

End PyFormat.

Module PyDict.
Section Items.
Context {V : Type}.

(** [d.get(k)] on the items of a dict. *)
Fixpoint lookup (k : string) (d : list (string * V)) : option V :=
  match d with
  | [] => None
  | (k', v) :: d' => if (k =? k')%string then Some v else lookup k d'
  end.

(** [d[k] = v]: the value of an existing key is replaced where the key
    stands; a new key goes to the end. *)
Fixpoint set_item (d : list (string * V)) (k : string) (v : V)
  : list (string * V) :=
  match d with
  | [] => [(k, v)]
  | (k', v') :: d' =>
      if (k =? k')%string then (k', v) :: d'
      else (k', v') :: set_item d' k v
  end.

(** A dict display [{k1: v1, k2: v2, ...}], and [dict(pairs)]: the items
    are stored from left to right. *)
Definition display (items : list (string * V)) : list (string * V) :=
  fold_left (fun d kv => set_item d (fst kv) (snd kv)) items [].

(** [zip(xs, ys)] *)
Fixpoint zip {A B} (xs : list A) (ys : list B) : list (A * B) :=
  match xs, ys with
  | x :: xs', y :: ys' => (x, y) :: zip xs' ys'
  | _, _ => []
  end.

End Items.
End PyDict.

(* ================================================================= *)
(** ** [backend/routers/routes.py]: the geocoding endpoint *)

Module Geocode.
Import Json.

(** The keyword arguments of one [client.pelias_search(...)] call. *)
Module PeliasCall.
Record t (F : Type) := mk {
  text : string;
  focus_point : list F
}.
Arguments mk {F}.
Arguments text {F}.
Arguments focus_point {F}.
End PeliasCall.

Section Operations.
Context {F : Type} `{Float64 F}.

Variable pelias_search : PeliasCall.t F -> result (pyval F).
Variable str : exn -> string.

(** A decimal literal [n / 10^k] of the source. *)
Definition decimal (n : Z) (k : nat) : F :=
  fdiv (of_Z n) (of_Z (10 ^ Z.of_nat k)).

(** ['key' in container]: a key of a dict, an item of a list equal to the
    string, a substring of a string; other values are not containers. *)
Definition contains (container : pyval F) (key : string) : result bool :=
  match container with
  | PDict d =>
      Ok (match lookup key d with Some _ => true | None => false end)
  | PList l =>
      Ok (existsb (fun v => match v with
                            | PStr s => (s =? key)%string
                            | _ => false
                            end) l)
  | PStr s =>
      Ok (match String.index 0 key s with Some _ => true | None => false end)
  | _ => Raise TypeError
  end.

(** One turn of the loop: the entry appended for [feature], if any. *)
Definition geocode_feature (feature : pyval F)
  : result (option (pyval F)) :=
  geometry <- get feature "geometry" (PDict []) ;;
  present <- contains geometry "coordinates" ;;
  if present : bool then
    properties <- get feature "properties" (PDict []) ;;
    name <- get properties "label" (PStr "") ;;
    geometry <- getitem feature (Key "geometry") ;;
    coordinates <- getitem geometry (Key "coordinates") ;;
    lng <- getitem coordinates (Idx 0) ;;
    geometry <- getitem feature (Key "geometry") ;;
    coordinates <- getitem geometry (Key "coordinates") ;;
    lat <- getitem coordinates (Idx 1) ;;
    properties <- get feature "properties" (PDict []) ;;
    type <- get properties "layer" (PStr "") ;;
    Ok (Some (PDict [("name", name);
                     ("coordinates", PDict [("lng", lng); ("lat", lat)]);
                     ("type", type)]))
  else Ok None.

(** [for x in xs: if ...: acc.append(...)], stopping at the first
    exception. *)
Fixpoint for_collect {A B} (f : A -> result (option B)) (xs : list A)
  : result (list B) :=
  match xs with
  | [] => Ok []
  | x :: xs' =>
      y <- f x ;;
      ys <- for_collect f xs' ;;
      Ok (match y with Some b => b :: ys | None => ys end)
  end.

(** [feature.get('properties', {}).get(key, '')] for a feature whose
    [properties], when present, is a dict. *)
Definition property_or_empty (d : list (string * pyval F)) (key : string)
  : pyval F :=
  match lookup "properties" d with
  | Some (PDict p) =>
      match lookup key p with
      | Some v => v
      | None => PStr ""
      end
  | _ => PStr ""
  end.

(** The features that the loop visits. *)
Definition found_features (result_ : pyval F) : result (list (pyval F)) :=
  found <- get result_ "features" (PList []) ;;
  iter found.

(** The entries appended, given what each turn of the loop produced. *)
Definition kept {A} (outcomes : list (option A)) : list A :=
  flat_map (fun o => match o with Some a => [a] | None => [] end) outcomes.

(** The statements after the call, inside the [try]. *)
Definition format_results (result_ : pyval F) : result (pyval F) :=
  found <- get result_ "features" (PList []) ;;
  items <- iter found ;;
  features <- for_collect geocode_feature items ;;
  Ok (PDict [("results", PList features)]).

Definition pelias_call (query : string) : PeliasCall.t F :=
  {| PeliasCall.text := query;
     PeliasCall.focus_point := [decimal (-739857) 4; decimal 407484 4] |}.

(** The endpoint.  [outbound] is the log of the calls already made to the
    search provider, oldest first. *)
Definition geocode
    (ORS_API_KEY : option string) (query : string)
    (outbound : list (PeliasCall.t F))
  : result (pyval F) * list (PeliasCall.t F) :=
  if Routes.key_missing ORS_API_KEY then
    (Raise (HTTPException 500 "OpenRouteService API key not configured"),
     outbound)
  else
    let call := pelias_call query in
    (try_except
       (result_ <- pelias_search call ;; format_results result_)
       (fun e =>
          Raise (HTTPException 500 ("Error geocoding address: " ++ str e))),
     (outbound ++ [call])%list).

End Operations.
End Geocode.

(* ================================================================= *)
(** ** [backend/routers/predictions.py]: the model-info endpoint *)

Module ModelInfo.
Import Json Predictions.

(** The dict returned by [get_model_info]; [feature_importances] is the
    key added for a model that exposes importances. *)
Record t (F : Type) := mk {
  model_type : string;
  features_used : list string;
  model_created : string;
  model_version : string;
  feature_importances : option (list (string * F))
}.
Arguments mk {F}.
Arguments model_type {F}.
Arguments features_used {F}.
Arguments model_created {F}.
Arguments model_version {F}.
Arguments feature_importances {F}.

(** The dict built by [prepare_features], as its items in order. *)
Definition features_dict {F} (fv : FeatureVector.t F)
  : list (string * pyval F) :=
  [ ("vendor_id", PInt (FeatureVector.vendor_id fv));
    ("passenger_count", PInt (FeatureVector.passenger_count fv));
    ("pickup_longitude", PFloat (FeatureVector.pickup_longitude fv));
    ("pickup_latitude", PFloat (FeatureVector.pickup_latitude fv));
    ("dropoff_longitude", PFloat (FeatureVector.dropoff_longitude fv));
    ("dropoff_latitude", PFloat (FeatureVector.dropoff_latitude fv));
    ("store_and_fwd_flag", PInt (FeatureVector.store_and_fwd_flag fv));
    ("distance_km", PFloat (FeatureVector.distance_km fv));
    ("hour", PInt (FeatureVector.hour fv));
    ("day_of_week", PInt (FeatureVector.day_of_week fv));
    ("month", PInt (FeatureVector.month fv));
    ("is_weekend", PInt (FeatureVector.is_weekend fv));
    ("is_night", PInt (FeatureVector.is_night fv));
    ("is_rush_hour", PInt (FeatureVector.is_rush_hour fv)) ].

Section Operations.
Context {F : Type} `{Float64 F}.

Variable Handle : Type.
Variable model_predict : Handle -> FeatureVector.t F -> result F.
Variable strptime : string -> string -> result Datetime.t.
Variable str : exn -> string.
Variable MODEL_PATH : string.

(** What the endpoint reads from the model: the name of its class, its
    importances when it has the attribute ([.tolist()] applied), and its
    [feature_names_in_], whose read may raise. *)
Variable type_name : Handle -> string.
Variable feature_importances_ : Handle -> option (list F).
Variable feature_names_in_ : Handle -> result (list string).

(** Body of the [try] block. *)
Definition model_info_body (model : Handle) : result (t F) :=
  let model_info :=
    {| model_type := type_name model;
       features_used :=
         [ "vendor_id"; "passenger_count"; "pickup_longitude";
           "pickup_latitude"; "dropoff_longitude"; "dropoff_latitude";
           "store_and_fwd_flag"; "distance_km"; "hour"; "day_of_week";
           "month"; "is_weekend"; "is_night"; "is_rush_hour" ];
       model_created := "2023-01-01T00:00:00Z";
       model_version := "1.0.0";
       feature_importances := None |} in
  match feature_importances_ model with
  | Some importances =>
      names <- feature_names_in_ model ;;
      Ok {| model_type := model_type model_info;
            features_used := features_used model_info;
            model_created := model_created model_info;
            model_version := model_version model_info;
            feature_importances :=
              Some (PyDict.display (PyDict.zip names importances)) |}
  | None => Ok model_info
  end.

(** The [try/except] statement of [get_model_info], run with a given
    handle. *)
Definition info_with (model : Handle) : result (t F) :=
  try_except (model_info_body model)
    (fun e =>
       Raise (HTTPException 500
                ("Error retrieving model information: " ++ str e))).

Definition get_model_info (joblib_load : disk Handle) (s : state Handle)
  : result (t F) * state Handle :=
  let (model, s) := load_model Handle MODEL_PATH joblib_load s in
  match model with
  | None =>
      (Raise (HTTPException 503 "Prediction model is not available"), s)
  | Some model => (info_with model, s)
  end.

(** The two endpoints of the router, served by one process. *)
Inductive request :=
| Predict (trip : TripFeatures.t F)
| Info.

Inductive response :=
| Predicted (r : result (TripPrediction.t F))
| Informed (r : result (t F)).

Definition handle (joblib_load : disk Handle) (req : request)
    (s : state Handle) : response * state Handle :=
  match req with
  | Predict trip =>
      let (r, s') :=
        predict_trip_duration Handle model_predict strptime str MODEL_PATH
          joblib_load trip s in
      (Predicted r, s')
  | Info =>
      let (r, s') := get_model_info joblib_load s in
      (Informed r, s')
  end.

Fixpoint serve_all (reqs : list (disk Handle * request)) (s : state Handle)
  : list response * state Handle :=
  match reqs with
  | [] => ([], s)
  | (fs, req) :: reqs' =>
      let (r, s1) := handle fs req s in
      let (rs, s2) := serve_all reqs' s1 in
      (r :: rs, s2)
  end.

(** The response to [req] once a handle is at hand. *)
Definition respond_with (model : Handle) (req : request) : response :=
  match req with
  | Predict trip =>
      Predicted (answer_with Handle model_predict strptime str model trip)
  | Info => Informed (info_with model)
  end.

End Operations.
End ModelInfo.

(* ================================================================= *)
(** ** [backend/app/utils.py]: formatting, tokens, rate limiting *)

Module UtilsFormat.
Import PyFormat.

(** [format_duration] on an [int] number of seconds ([divmod] and [int()]
    are then exact). *)
Definition format_duration (seconds : Z) : string :=
  let (minutes, seconds) := divmod seconds 60 in
  let (hours, minutes) := divmod minutes 60 in
  if 0 <? hours then
    str_int hours ++ "h " ++ str_int minutes ++ "m"
  else if 0 <? minutes then
    str_int minutes ++ "m " ++ str_int seconds ++ "s"
  else
    str_int seconds ++ "s".

End UtilsFormat.

Module UtilsToken.
Section Operations.

(** Claim values, instants ([datetime]) and the library calls: the sum of
    an instant and a [timedelta], which raises outside the range of
    [datetime], and [jwt.encode].  A [timedelta] is its length in
    microseconds. *)
Variable V : Type.
Variable Instant : Type.
Variable of_instant : Instant -> V.
Variable add_timedelta : Instant -> Z -> result Instant.
Variable jwt_encode : list (string * V) -> string -> string -> result string.
Variable SECRET_KEY : string.

Definition ALGORITHM : string := "HS256".
Definition ACCESS_TOKEN_EXPIRE_MINUTES : Z := 30.

(** [timedelta(minutes=m)] *)
Definition minutes (m : Z) : Z := m * 60 * 1000000.

(** [utcnow] is the value of [datetime.utcnow()] at the call. *)
Definition create_access_token
    (utcnow : Instant) (data : list (string * V)) (expires_delta : option Z)
  : result string :=
  let to_encode := data in
  expire <-
    match expires_delta with
    | Some delta =>
        if negb (delta =? 0) then add_timedelta utcnow delta
        else add_timedelta utcnow (minutes 15)
    | None => add_timedelta utcnow (minutes 15)
    end ;;
  let to_encode := PyDict.set_item to_encode "exp" (of_instant expire) in
  jwt_encode to_encode SECRET_KEY ALGORITHM.

End Operations.
End UtilsToken.

Module RateLimiter.
Section Operations.
Context {F : Type} `{Float64 F}.

(** Python's [<] between two floats. *)
Variable flt : F -> F -> bool.

Record t := mk {
  requests : Z;
  window : Z;
  requests_log : string -> option (list F)
}.

Definition __init__ (requests window : Z) : t :=
  mk requests window (fun _ => None).

(** [log[client_id] = entries] *)
Definition set_log (log : string -> option (list F))
    (client_id : string) (entries : list F) : string -> option (list F) :=
  fun c => if (c =? client_id)%string then Some entries else log c.

(** The test of the list comprehension: [current_time - t < window]. *)
Definition recent (self : t) (current_time t_ : F) : bool :=
  flt (fsub current_time t_) (of_Z (window self)).

(** [current_time] is the value of [datetime.utcnow().timestamp()] at the
    call. *)
Definition is_allowed (current_time : F) (client_id : string) (self : t)
  : bool * t :=
  let log :=
    match requests_log self client_id with
    | None => set_log (requests_log self) client_id []
    | Some _ => requests_log self
    end in
  let entries := match log client_id with Some l => l | None => [] end in
  let kept := filter (recent self current_time) entries in
  let log := set_log log client_id kept in
  if Z.of_nat (List.length kept) <? requests self then
    (true,
     mk (requests self) (window self)
        (set_log log client_id (kept ++ [current_time])%list))
  else
    (false, mk (requests self) (window self) log).

(** The entries kept for a client: none for a client never seen. *)
Definition entries_of (self : t) (client_id : string) : list F :=
  match requests_log self client_id with
  | Some l => l
  | None => []
  end.

(** A sequence of calls [(current_time, client_id)] on one limiter. *)
Fixpoint run (calls : list (F * string)) (self : t) : list bool * t :=
  match calls with
  | [] => ([], self)
  | (now, client) :: calls' =>
      let (b, self1) := is_allowed now client self in
      let (bs, self2) := run calls' self1 in
      (b :: bs, self2)
  end.

(** The calls of one client, and the answers given to them. *)
Definition calls_of (client_id : string) (calls : list (F * string))
  : list (F * string) :=
  filter (fun call => (snd call =? client_id)%string) calls.

Definition answers_to (client_id : string) (calls : list (F * string))
    (answers : list bool) : list bool :=
  map snd
    (filter (fun ca => (snd (fst ca) =? client_id)%string)
            (combine calls answers)).

(** Two limiters with the same settings and the same times for a client. *)
Definition agree (client_id : string) (s1 s2 : t) : Prop :=
  entries_of s1 client_id = entries_of s2 client_id
  /\ requests s1 = requests s2
  /\ window s1 = window s2.

End Operations.
End RateLimiter.

(* ================================================================= *)
(** ** [backend/routers/admin.py]: the endpoints *)

Module Admin.
Import Json PyFormat.

Section Operations.
Context {F : Type} `{Float64 F}.

Definition decimal (n : Z) (k : nat) : F :=
  fdiv (of_Z n) (of_Z (10 ^ Z.of_nat k)).

(** [current_user.get("role") != "admin"] *)
Definition not_admin (current_user : pyval F) : result bool :=
  role <- get current_user "role" PNone ;;
  Ok (match role with
      | PStr r => negb (r =? "admin")%string
      | _ => true
      end).

Definition zone (zone_id : Z) (zone_name : string) (total_trips : Z)
    (rest : list (string * pyval F)) : list (string * pyval F) :=
  [("zone_id", PInt zone_id); ("zone_name", PStr zone_name);
   ("total_trips", PInt total_trips)] ++ rest.

(** The dict display of [load_mock_data]; the third pickup zone is written
    with the key [avg_duration] twice. *)
Definition load_mock_data : option (pyval F) :=
  Some (PDict (PyDict.display
    [ ("total_trips", PInt 10000);
      ("avg_duration_minutes", PFloat (decimal 155 1));
      ("avg_distance_km", PFloat (decimal 82 1));
      ("top_pickup_zones", PList
        [ PDict (PyDict.display (zone 1 "Manhattan" 3500
            [("avg_duration", PFloat (decimal 125 1));
             ("avg_distance", PFloat (decimal 55 1));
             ("avg_speed", PFloat (decimal 264 1))]));
          PDict (PyDict.display (zone 2 "Brooklyn" 2800
            [("avg_duration", PFloat (decimal 182 1));
             ("avg_distance", PFloat (decimal 98 1));
             ("avg_speed", PFloat (decimal 323 1))]));
          PDict (PyDict.display (zone 3 "Queens" 2200
            [("avg_duration", PFloat (decimal 221 1));
             ("avg_duration", PFloat (decimal 142 1));
             ("avg_speed", PFloat (decimal 386 1))])) ]);
      ("top_dropoff_zones", PList
        [ PDict (PyDict.display (zone 1 "Manhattan" 4200
            [("avg_duration", PFloat (decimal 142 1));
             ("avg_distance", PFloat (decimal 61 1));
             ("avg_speed", PFloat (decimal 258 1))]));
          PDict (PyDict.display (zone 4 "JFK Airport" 1800
            [("avg_duration", PFloat (decimal 455 1));
             ("avg_distance", PFloat (decimal 253 1));
             ("avg_speed", PFloat (decimal 334 1))]));
          PDict (PyDict.display (zone 5 "LaGuardia" 1200
            [("avg_duration", PFloat (decimal 327 1));
             ("avg_distance", PFloat (decimal 128 1));
             ("avg_speed", PFloat (decimal 235 1))])) ]);
      ("hourly_pattern", PList
        (map (fun i =>
                PDict (PyDict.display
                  [("timestamp",
                    PStr ("2023-01-01T" ++ format_02d i ++ ":00:00Z"));
                   ("value", PInt (100 + i * 15))]))
             (range 0 24)));
      ("daily_pattern", PList
        (map (fun i =>
                PDict (PyDict.display
                  [("timestamp",
                    PStr ("2023-01-" ++ format_02d (i + 1) ++ "T00:00:00Z"));
                   ("value", PInt (800 + i * 50))]))
             (range 0 7))) ])).

(** The fields that [ZoneAnalytics] declares, none with a default. *)
Definition ZoneAnalytics_fields : list string :=
  ["zone_id"; "zone_name"; "total_trips"; "avg_duration"; "avg_distance";
   "avg_speed"].

(** The declared fields that a dict does not have. *)
Definition missing_fields (fields : list string) (d : list (string * pyval F))
  : list string :=
  filter (fun k => match lookup k d with Some _ => false | None => true end)
         fields.

Definition get_analytics_summary (current_user : pyval F)
  : result (pyval F) :=
  denied <- not_admin current_user ;;
  if denied : bool then
    Raise (HTTPException 403
             "Insufficient permissions to access admin analytics")
  else
    match load_mock_data with
    | Some data =>
        if truthy data then Ok data
        else Raise (HTTPException 503 "Analytics data is not available")
    | None => Raise (HTTPException 503 "Analytics data is not available")
    end.

Definition get_zone_analytics (limit : Z) (current_user : pyval F)
  : result (pyval F) :=
  denied <- not_admin current_user ;;
  if denied : bool then
    Raise (HTTPException 403
             "Insufficient permissions to access zone analytics")
  else
    let zones :=
      map (fun i =>
             PDict (PyDict.display
               [("zone_id", PInt i);
                ("zone_name", PStr ("Zone " ++ str_int i));
                ("total_trips", PInt (1000 - i * 50));
                ("avg_duration", PInt (10 + i * 2));
                ("avg_distance",
                 PFloat (fadd (of_Z 5) (fmul (of_Z i) (decimal 5 1))));
                ("avg_speed", PInt (20 + i * 2))]))
          (range 1 (limit + 1)) in
    Ok (PDict (PyDict.display [("zones", PList zones)])).

Definition get_timeseries_analytics (interval : string)
    (current_user : pyval F) : result (pyval F) :=
  denied <- not_admin current_user ;;
  if denied : bool then
    Raise (HTTPException 403
             "Insufficient permissions to access timeseries analytics")
  else
    let data :=
      if (interval =? "hour")%string then
        map (fun hour =>
               PDict (PyDict.display
                 [("timestamp",
                   PStr ("2023-01-01T" ++ format_02d hour ++ ":00:00Z"));
                  ("value", PInt (100 + hour * 10))]))
            (range 0 24)
      else if (interval =? "day")%string then
        map (fun day =>
               PDict (PyDict.display
                 [("timestamp",
                   PStr ("2023-01-" ++ format_02d (day + 1) ++ "T00:00:00Z"));
                  ("value", PInt (500 + day * 50))]))
            (range 0 30)
      else [] in
    Ok (PDict (PyDict.display
                 [("data", PList data); ("interval", PStr interval)])).

Definition get_active_admin_user (current_user : pyval F)
  : result (pyval F) :=
  denied <- not_admin current_user ;;
  if denied : bool then
    Raise (HTTPException 403 "Admin privileges required")
  else Ok current_user.

End Operations.
End Admin.

(* ================================================================= *)
(** ** More of the concrete environment *)

Module Scenario.
Import Json.

#[local] Set Warnings "-inexact-float".

(** What model-info reads from the sample model: a linear model has a
    class name and no importances. *)
Definition type_name (m : Sample.linear_model float) : string :=
  "LinearRegression".

Definition feature_importances_ (m : Sample.linear_model float)
  : option (list float) := None.

Definition feature_names_in_ (m : Sample.linear_model float)
  : result (list string) := Raise AttributeError.

(** Provider answers for the route endpoint. *)
Definition feature_of (steps : list (pyval float)) : pyval float :=
  PDict
    [("type", PStr "Feature");
     ("properties",
      PDict [("segments",
              PList [PDict [("distance", PFloat 432.9%float);
                            ("duration", PFloat 88.1%float);
                            ("steps", PList steps)]]);
             ("summary",
              PDict [("distance", PFloat 432.9%float);
                     ("duration", PFloat 88.1%float)])]);
     ("geometry",
      PDict [("type", PStr "LineString"); ("coordinates", PList [])])].

Definition answer (features : list (pyval float)) : pyval float :=
  PDict [("type", PStr "FeatureCollection"); ("features", PList features)].

(** A step that carries its duration but no distance. *)
Definition step_without_distance : list (string * pyval float) :=
  [("duration", PInt 30); ("instruction", PStr "Turn left")].

(** Search answers for the geocoding endpoint. *)
Definition place (label : string) (coordinates : list (pyval float))
  : list (string * pyval float) :=
  [("type", PStr "Feature");
   ("geometry",
    PDict [("type", PStr "Point"); ("coordinates", PList coordinates)]);
   ("properties", PDict [("label", PStr label); ("layer", PStr "venue")])].

Definition empire_state : list (string * pyval float) :=
  place "Empire State Building"
    [PFloat (-73.9857)%float; PFloat 40.7484%float].

Definition no_geometry : list (string * pyval float) :=
  [("type", PStr "Feature");
   ("properties", PDict [("label", PStr "Somewhere")])].

Definition short_place : list (string * pyval float) :=
  place "Half a point" [PFloat (-73.9857)%float].

Definition pelias_search (answer : pyval float)
  : Geocode.PeliasCall.t float -> result (pyval float) :=
  fun _ => Ok answer.

(** Users. *)
Definition admin_user : list (string * pyval float) :=
  [("username", PStr "root"); ("role", PStr "admin")].

Definition plain_user : list (string * pyval float) :=
  [("username", PStr "rider")].

(** Tokens: instants and lifetimes in microseconds, a sum that never
    leaves the range, and an encoder that signs nothing. *)
Definition add_timedelta (t delta : Z) : result Z := Ok (t + delta).

Definition jwt_encode (claims : list (string * Z)) (key algorithm : string)
  : result string :=
  Ok (algorithm ++ "."
      ++ concat "," (map (fun kv => fst kv ++ "=" ++ PyFormat.str_int (snd kv))
                         claims)).

(** A limiter of two requests per minute with one request on record. *)
Definition limiter : @RateLimiter.t float :=
  RateLimiter.mk 2 60
    (fun c => if (c =? "10.0.0.1")%string then Some [100%float] else None).

End Scenario.

(* ================================================================= *)
(** * Properties *)

(* ----------------------------------------------------------------- *)
(** ** Geospatial distance *)

Section HaversineReal.
Local Open Scope R_scope.

Lemma sin_half_difference_sq (x y : R) :
  sin ((y - x) / 2) * sin ((y - x) / 2)
  = sin ((x - y) / 2) * sin ((x - y) / 2).
Proof.
  replace ((y - x) / 2) with (- ((x - y) / 2)) by lra.
  rewrite sin_neg. ring.
Qed.

Lemma haversine_sym (lat1 lon1 lat2 lon2 : R) :
  Predictions.haversine_distance lat1 lon1 lat2 lon2
  = Predictions.haversine_distance lat2 lon2 lat1 lon1.
Proof.
  unfold Predictions.haversine_distance, fsq; cbn.
  rewrite (sin_half_difference_sq (lat1 * (PI / 180)) (lat2 * (PI / 180))).
  rewrite (sin_half_difference_sq (lon1 * (PI / 180)) (lon2 * (PI / 180))).
  rewrite (Rmult_comm (cos (lat1 * (PI / 180)))).
  reflexivity.
Qed.

Lemma haversine_refl (lat lon : R) :
  Predictions.haversine_distance lat lon lat lon = 0.
Proof.
  unfold Predictions.haversine_distance, fsq; cbn.
  replace (lat * (PI / 180) - lat * (PI / 180)) with 0 by ring.
  replace (lon * (PI / 180) - lon * (PI / 180)) with 0 by ring.
  replace (0 / 2) with 0 by lra.
  rewrite sin_0.
  replace (0 * 0 + cos (lat * (PI / 180)) * cos (lat * (PI / 180)) * (0 * 0))
    with 0 by ring.
  rewrite sqrt_0, asin_0. ring.
Qed.

(** Over the reals the distance of the predictions module is symmetric in
    its two points and vanishes on equal points. *)
Lemma haversine_real_symmetric_and_zero :
  forall lat1 lon1 lat2 lon2 : R,
    Predictions.haversine_distance lat1 lon1 lat2 lon2
    = Predictions.haversine_distance lat2 lon2 lat1 lon1
    /\ Predictions.haversine_distance lat1 lon1 lat1 lon1 = 0.
Proof.
  intros; split; [apply haversine_sym | apply haversine_refl].
Qed.

End HaversineReal.

(** *** IEEE 754 binary64: the sign carried through the operations *)

Section SpecFloatSigns.
Variables prec emax : Z.

Lemma binary_round_aux_negb s m e l :
  binary_round_aux prec emax (negb s) m e l
  = SFopp (binary_round_aux prec emax s m e l).
Proof.
  unfold binary_round_aux.
  destruct (shr_fexp prec emax m e l) as [mrs e'].
  destruct (shr_fexp prec emax _ e' loc_Exact) as [mrs' e''].
  destruct (shr_m mrs'); [reflexivity | | reflexivity].
  destruct (Z.leb _ _); reflexivity.
Qed.

Lemma binary_round_aux_false m e l :
  match binary_round_aux prec emax false m e l with
  | S754_zero s | S754_infinity s | S754_finite s _ _ => s = false
  | S754_nan => True
  end.
Proof.
  unfold binary_round_aux.
  destruct (shr_fexp prec emax m e l) as [mrs e'].
  destruct (shr_fexp prec emax _ e' loc_Exact) as [mrs' e''].
  destruct (shr_m mrs'); [reflexivity | | exact I].
  destruct (Z.leb _ _); reflexivity.
Qed.

Lemma binary_normalize_opp m e :
  m <> 0 ->
  binary_normalize prec emax (- m) e false
  = SFopp (binary_normalize prec emax m e false).
Proof.
  intros Hm. destruct m as [|p|p]; [congruence| |]; cbn; unfold binary_round;
    destruct (shl_align _ _ _) as [mz ez].
  - apply (binary_round_aux_negb false).
  - apply (binary_round_aux_negb true).
Qed.

(** [y - x] is the opposite of [x - y], except that both are [+0] when
    the exact difference is zero. *)
Lemma SFsub_swap x y :
  SFsub prec emax y x = SFopp (SFsub prec emax x y)
  \/ SFsub prec emax y x = SFsub prec emax x y.
Proof.
  destruct x as [sx|sx| |sx mx ex], y as [sy|sy| |sy my ey]; cbn;
    try (destruct sx; destruct sy; cbn; auto; fail);
    try (destruct sx; cbn; auto; fail);
    try (destruct sy; cbn; auto; fail); auto.
  rewrite (Z.min_comm ey ex).
  set (a := cond_Zopp sx _). set (b := cond_Zopp sy _).
  destruct (Z.eq_dec (a - b) 0) as [Hz|Hnz].
  - right. replace (b - a) with 0 by lia. rewrite Hz. reflexivity.
  - left. replace (b - a) with (- (a - b)) by lia.
    apply binary_normalize_opp. exact Hnz.
Qed.

Lemma SFdiv_opp_l x y :
  SFdiv prec emax (SFopp x) y = SFopp (SFdiv prec emax x y).
Proof.
  destruct x as [sx|sx| |sx mx ex], y as [sy|sy| |sy my ey]; cbn;
    try reflexivity;
    try (destruct sx; destruct sy; reflexivity).
  destruct (SFdiv_core_binary _ _ _ _ _ _) as [[mz ez] lz].
  rewrite <- binary_round_aux_negb. f_equal. destruct sx, sy; reflexivity.
Qed.

Lemma SFmul_opp_l x y :
  SFmul prec emax (SFopp x) y = SFopp (SFmul prec emax x y).
Proof.
  destruct x as [sx|sx| |sx mx ex], y as [sy|sy| |sy my ey]; cbn;
    try reflexivity;
    try (destruct sx; destruct sy; reflexivity).
  rewrite <- binary_round_aux_negb. f_equal. destruct sx, sy; reflexivity.
Qed.

Lemma SFmul_comm x y : SFmul prec emax x y = SFmul prec emax y x.
Proof.
  destruct x as [sx|sx| |sx mx ex], y as [sy|sy| |sy my ey]; cbn;
    try reflexivity;
    try (destruct sx; destruct sy; reflexivity).
  rewrite (Pos.mul_comm mx my), (Z.add_comm ex ey), (xorb_comm sx sy).
  reflexivity.
Qed.

(** A square is never negative: its sign bit, when it has one, is clear. *)
Lemma SFmul_square_sign x :
  match SFmul prec emax x x with
  | S754_zero s | S754_infinity s | S754_finite s _ _ => s = false
  | S754_nan => True
  end.
Proof.
  destruct x as [s|s| |s m e]; cbn; try (destruct s; reflexivity); [exact I|].
  replace (xorb s s) with false by (destruct s; reflexivity).
  apply binary_round_aux_false.
Qed.

Lemma SFopp_involutive x : SFopp (SFopp x) = x.
Proof.
  destruct x as [s|s| |s m e]; cbn; rewrite ?negb_involutive; reflexivity.
Qed.

End SpecFloatSigns.

Module Ieee.
Local Open Scope float_scope.

Lemma sub_swap (x y : float) : y - x = - (x - y) \/ y - x = x - y.
Proof.
  destruct (SFsub_swap prec emax (Prim2SF x) (Prim2SF y)) as [Hs|Hs];
    [left|right]; apply Prim2SF_inj;
    rewrite ?opp_spec, !sub_spec; exact Hs.
Qed.

Lemma div_opp_l (x y : float) : (- x) / y = - (x / y).
Proof.
  apply Prim2SF_inj. rewrite opp_spec, !div_spec, opp_spec.
  apply SFdiv_opp_l.
Qed.

Lemma mul_opp_l (x y : float) : (- x) * y = - (x * y).
Proof.
  apply Prim2SF_inj. rewrite opp_spec, !mul_spec, opp_spec.
  apply SFmul_opp_l.
Qed.

Lemma mul_comm (x y : float) : x * y = y * x.
Proof.
  apply Prim2SF_inj. rewrite !mul_spec. apply SFmul_comm.
Qed.

Lemma opp_involutive (x : float) : - - x = x.
Proof.
  apply Prim2SF_inj. rewrite !opp_spec. apply SFopp_involutive.
Qed.

Lemma mul_opp_opp (x : float) : (- x) * (- x) = x * x.
Proof.
  rewrite mul_opp_l, (mul_comm x (- x)), mul_opp_l. apply opp_involutive.
Qed.

(** A finite value is a zero or a finite number. *)
Lemma is_finite_SF (x : float) :
  is_finite x = true ->
  (exists s, Prim2SF x = S754_zero s)
  \/ (exists s m e, Prim2SF x = S754_finite s m e).
Proof.
  unfold is_finite, is_nan, is_infinity.
  rewrite !eqb_spec, abs_spec.
  change (Prim2SF infinity) with (S754_infinity false).
  destruct (Prim2SF x) as [s|s| |s m e]; cbn; try discriminate; eauto.
  destruct s; cbn; discriminate.
Qed.

Lemma sub_diag (x : float) : is_finite x = true -> x - x = 0.
Proof.
  intros Hx. apply Prim2SF_inj. rewrite sub_spec.
  change (Prim2SF 0) with (S754_zero false).
  destruct (is_finite_SF x Hx) as [[s ->]|(s & m & e & ->)]; cbn.
  - destruct s; reflexivity.
  - rewrite Z.min_id.
    generalize (cond_Zopp s (Z.pos (fst (shl_align m e e)))). intros z.
    replace (z - z)%Z with 0%Z by (symmetry; apply Z.sub_diag).
    reflexivity.
Qed.

Lemma square_mul_zero (c : float) :
  is_finite (c * c) = true -> (c * c) * 0 = 0.
Proof.
  intros Hfin. apply Prim2SF_inj. rewrite mul_spec.
  change (Prim2SF 0) with (S754_zero false).
  pose proof (SFmul_square_sign prec emax (Prim2SF c)) as Hsign.
  fold SF64mul in Hsign. rewrite <- mul_spec in Hsign.
  destruct (is_finite_SF _ Hfin) as [[s Hs]|(s & m & e & Hs)];
    rewrite Hs in Hsign |- *; subst s; reflexivity.
Qed.

(** Python's [==] on a value and itself fails only on NaN. *)
Lemma eqb_refl (x : float) : is_nan x = false -> (x =? x) = true.
Proof.
  unfold is_nan. destruct (x =? x); [reflexivity | discriminate].
Qed.

Lemma eqb_self (x : float) : (x =? x) = negb (is_nan x).
Proof.
  unfold is_nan. symmetry. apply negb_involutive.
Qed.

(** The difference of an infinity or a NaN with itself is NaN. *)
Lemma sub_diag_not_finite (x : float) : is_finite x = false -> x - x = nan.
Proof.
  intros Hx. apply Prim2SF_inj. rewrite sub_spec.
  change (Prim2SF nan) with S754_nan.
  revert Hx. unfold is_finite, is_nan, is_infinity.
  rewrite !eqb_spec, abs_spec.
  change (Prim2SF infinity) with (S754_infinity false).
  destruct (Prim2SF x) as [s|s| |s m e]; cbn.
  - destruct s; discriminate.
  - destruct s; reflexivity.
  - reflexivity.
  - rewrite Z.compare_refl, Pos.compare_cont_refl. destruct s; discriminate.
Qed.

Lemma add_nan_l (y : float) : nan + y = nan.
Proof.
  apply Prim2SF_inj. rewrite add_spec.
  change (Prim2SF nan) with S754_nan. reflexivity.
Qed.

End Ieee.

Section HaversineIeee.
Local Open Scope float_scope.
Variables radians sin cos arcsin : float -> float.

(** What is asked of numpy: its sine is an odd function, and its sine and
    arcsine map [+0] to [+0]. *)
Hypothesis sin_odd : forall x, sin (- x) = - sin x.
Hypothesis sin_zero : sin 0 = 0.
Hypothesis arcsin_zero : arcsin 0 = 0.

Local Abbreviation haversine_distance :=
  (@Predictions.haversine_distance float
     (Float64_ieee radians sin cos arcsin)).

Lemma sin_half_difference_sq_ieee (x y : float) :
  sin ((y - x) / 2) * sin ((y - x) / 2)
  = sin ((x - y) / 2) * sin ((x - y) / 2).
Proof.
  destruct (Ieee.sub_swap x y) as [-> | ->]; [|reflexivity].
  rewrite Ieee.div_opp_l, sin_odd. apply Ieee.mul_opp_opp.
Qed.

Lemma haversine_ieee_sym (lat1 lon1 lat2 lon2 : float) :
  haversine_distance lat1 lon1 lat2 lon2
  = haversine_distance lat2 lon2 lat1 lon1.
Proof.
  unfold Predictions.haversine_distance, fsq; cbn.
  rewrite (sin_half_difference_sq_ieee (radians lat1) (radians lat2)).
  rewrite (sin_half_difference_sq_ieee (radians lon1) (radians lon2)).
  rewrite (Ieee.mul_comm (cos (radians lat1))).
  reflexivity.
Qed.

Lemma haversine_ieee_refl (lat lon : float) :
  is_finite (radians lat) = true ->
  is_finite (radians lon) = true ->
  is_finite (cos (radians lat) * cos (radians lat)) = true ->
  haversine_distance lat lon lat lon = 0.
Proof.
  intros Hlat Hlon Hcos.
  unfold Predictions.haversine_distance, fsq; cbn.
  rewrite (Ieee.sub_diag _ Hlat), (Ieee.sub_diag _ Hlon).
  change (0 / 2) with 0. rewrite sin_zero.
  change (0 * 0) with 0.
  rewrite (Ieee.square_mul_zero _ Hcos).
  change (sqrt (0 + 0)) with 0. rewrite arcsin_zero.
  reflexivity.
Qed.

Lemma haversine_ieee_not_finite (lat lon : float) :
  sin nan = nan ->
  arcsin nan = nan ->
  is_finite (radians lat) = false ->
  haversine_distance lat lon lat lon = nan.
Proof.
  intros Hsin Harcsin Hlat.
  unfold Predictions.haversine_distance, fsq; cbn.
  rewrite (Ieee.sub_diag_not_finite _ Hlat).
  change (nan / 2) with nan. rewrite Hsin.
  change (nan * nan) with nan. rewrite Ieee.add_nan_l.
  change (sqrt nan) with nan. rewrite Harcsin.
  reflexivity.
Qed.

(** C9, as amended: in binary64 arithmetic, with a sine that is odd, the
    two orders of the points give the same distance, so that [==] holds
    between them exactly when the distance is not NaN; for a point whose
    coordinates in radians and whose squared cosine of latitude are
    finite, the distance to itself is [0]; and for a point whose latitude
    in radians is an infinity or NaN, the distance to itself is NaN, which
    [==] equates neither with [0] nor with itself. *)
Theorem haversine_distance_symmetric_and_zero :
  (forall lat1 lon1 lat2 lon2 : float,
      haversine_distance lat1 lon1 lat2 lon2
      = haversine_distance lat2 lon2 lat1 lon1
      /\ (haversine_distance lat1 lon1 lat2 lon2
          =? haversine_distance lat2 lon2 lat1 lon1)
         = negb (is_nan (haversine_distance lat1 lon1 lat2 lon2)))
  /\ (forall lat lon : float,
        is_finite (radians lat) = true ->
        is_finite (radians lon) = true ->
        is_finite (cos (radians lat) * cos (radians lat)) = true ->
        haversine_distance lat lon lat lon = 0
        /\ (haversine_distance lat lon lat lon =? 0) = true)
  /\ (sin nan = nan ->
      arcsin nan = nan ->
      forall lat lon : float,
        is_finite (radians lat) = false ->
        is_nan (haversine_distance lat lon lat lon) = true
        /\ (haversine_distance lat lon lat lon =? 0) = false
        /\ (haversine_distance lat lon lat lon
            =? haversine_distance lat lon lat lon) = false).
Proof.
  split; [|split].
  - intros lat1 lon1 lat2 lon2.
    split; [apply haversine_ieee_sym|].
    rewrite <- (haversine_ieee_sym lat1 lon1 lat2 lon2).
    apply Ieee.eqb_self.
  - intros lat lon Hlat Hlon Hcos.
    rewrite (haversine_ieee_refl lat lon Hlat Hlon Hcos).
    split; reflexivity.
  - intros Hsin Harcsin lat lon Hlat.
    rewrite (haversine_ieee_not_finite lat lon Hsin Harcsin Hlat).
    repeat split; reflexivity.
Qed.

End HaversineIeee.

Section UtilsProps.
Context {F : Type} `{Float64 F}.

(** C10: the copy of the distance function in the utility module reads
    the name [math], which the module never binds, so every call raises
    [NameError] and none returns a distance. *)
Theorem utils_haversine_distance_raises :
  forall lat1 lon1 lat2 lon2 : F,
    Utils.bound "math" Utils.module_globals = false
    /\ Utils.haversine_distance lat1 lon1 lat2 lon2
       = Raise (NameError "math").
Proof.
  intros; split; reflexivity.
Qed.

End UtilsProps.

(* ----------------------------------------------------------------- *)
(** ** Feature builder and prediction service *)

(** A 0/1 flag computed by a test on the hour: turn the test into
    linear facts and let [lia] finish each part. *)
Ltac flag_cases E :=
  rewrite ?orb_true_iff, ?orb_false_iff, ?andb_true_iff, ?andb_false_iff,
    ?Z.leb_le, ?Z.ltb_lt, ?Z.leb_gt, ?Z.ltb_ge in E;
  repeat split; intros; lia.

Section PredictionProps.
Context {F : Type} `{Float64 F}.
Variable Handle : Type.
Variable model_predict : Handle -> Predictions.FeatureVector.t F -> result F.
Variable strptime : string -> string -> result Datetime.t.
Variable str : exn -> string.
Variable MODEL_PATH : string.

Import Predictions.

Local Abbreviation prepare_features := (prepare_features strptime).
Local Abbreviation predict_body := (predict_body Handle model_predict strptime).
Local Abbreviation load_model := (load_model Handle MODEL_PATH).
Local Abbreviation predict_trip_duration :=
  (predict_trip_duration Handle model_predict strptime str MODEL_PATH).
Local Abbreviation serve := (serve Handle model_predict strptime str MODEL_PATH).

Lemma prepare_features_parsed (trip : TripFeatures.t F) (dt : Datetime.t) :
  strptime (TripFeatures.pickup_datetime trip) "%Y-%m-%d %H:%M:%S" = Ok dt ->
  exists fv,
    prepare_features trip = Ok fv
    /\ FeatureVector.hour fv = Datetime.hour dt
    /\ FeatureVector.is_night fv =
         (if ((20 <=? Datetime.hour dt) && (Datetime.hour dt <=? 23))
             || ((0 <=? Datetime.hour dt) && (Datetime.hour dt <? 6))
          then 1 else 0)
    /\ FeatureVector.is_rush_hour fv =
         (if ((7 <=? Datetime.hour dt) && (Datetime.hour dt <=? 10))
             || ((16 <=? Datetime.hour dt) && (Datetime.hour dt <=? 19))
          then 1 else 0)
    /\ FeatureVector.pickup_latitude fv = TripFeatures.pickup_latitude trip
    /\ FeatureVector.pickup_longitude fv = TripFeatures.pickup_longitude trip
    /\ FeatureVector.dropoff_latitude fv = TripFeatures.dropoff_latitude trip
    /\ FeatureVector.dropoff_longitude fv
       = TripFeatures.dropoff_longitude trip.
Proof.
  intros Hparse. unfold Predictions.prepare_features.
  rewrite Hparse. cbn [Py.bind].
  eexists; split; [reflexivity|]. cbn. repeat split; reflexivity.
Qed.

(** C4: when the timestamp parses, [is_night] is 1 exactly for the hours
    20..23 and 0..5, and 0 otherwise; hour 6 gives 0 and hour 5 gives 1. *)
Theorem is_night_iff_hour_in_20_23_or_0_5 :
  forall (trip : TripFeatures.t F) (dt : Datetime.t),
    strptime (TripFeatures.pickup_datetime trip) "%Y-%m-%d %H:%M:%S" = Ok dt ->
    exists fv,
      prepare_features trip = Ok fv
      /\ FeatureVector.hour fv = Datetime.hour dt
      /\ (FeatureVector.is_night fv = 1 \/ FeatureVector.is_night fv = 0)
      /\ (FeatureVector.is_night fv = 1 <->
          (20 <= Datetime.hour dt <= 23 \/ 0 <= Datetime.hour dt < 6))
      /\ (Datetime.hour dt = 6 -> FeatureVector.is_night fv = 0)
      /\ (Datetime.hour dt = 5 -> FeatureVector.is_night fv = 1).
Proof.
  intros trip dt Hparse.
  destruct (prepare_features_parsed trip dt Hparse)
    as (fv & Hfv & Hhour & Hnight & _).
  exists fv. split; [exact Hfv|]. split; [exact Hhour|].
  rewrite Hnight.
  destruct (((20 <=? Datetime.hour dt) && (Datetime.hour dt <=? 23))
            || ((0 <=? Datetime.hour dt) && (Datetime.hour dt <? 6))) eqn:E;
    flag_cases E.
Qed.

(** C5: when the timestamp parses, [is_rush_hour] is 1 exactly for the
    hours 7..10 and 16..19, bounds included, and 0 otherwise; hours 10 and
    19 give 1 and hour 11 gives 0. *)
Theorem is_rush_hour_iff_hour_in_7_10_or_16_19 :
  forall (trip : TripFeatures.t F) (dt : Datetime.t),
    strptime (TripFeatures.pickup_datetime trip) "%Y-%m-%d %H:%M:%S" = Ok dt ->
    exists fv,
      prepare_features trip = Ok fv
      /\ FeatureVector.hour fv = Datetime.hour dt
      /\ (FeatureVector.is_rush_hour fv = 1
          \/ FeatureVector.is_rush_hour fv = 0)
      /\ (FeatureVector.is_rush_hour fv = 1 <->
          (7 <= Datetime.hour dt <= 10 \/ 16 <= Datetime.hour dt <= 19))
      /\ (Datetime.hour dt = 10 -> FeatureVector.is_rush_hour fv = 1)
      /\ (Datetime.hour dt = 19 -> FeatureVector.is_rush_hour fv = 1)
      /\ (Datetime.hour dt = 11 -> FeatureVector.is_rush_hour fv = 0).
Proof.
  intros trip dt Hparse.
  destruct (prepare_features_parsed trip dt Hparse)
    as (fv & Hfv & Hhour & _ & Hrush & _).
  exists fv. split; [exact Hfv|]. split; [exact Hhour|].
  rewrite Hrush.
  destruct (((7 <=? Datetime.hour dt) && (Datetime.hour dt <=? 10))
            || ((16 <=? Datetime.hour dt) && (Datetime.hour dt <=? 19))) eqn:E;
    flag_cases E.
Qed.

Lemma predict_body_ok (model : Handle) (trip : TripFeatures.t F)
    (r : TripPrediction.t F) :
  predict_body model trip = Ok r ->
  exists fv,
    prepare_features trip = Ok fv
    /\ model_predict model fv = Ok (TripPrediction.trip_duration_seconds r)
    /\ TripPrediction.trip_duration_minutes r
       = fdiv (TripPrediction.trip_duration_seconds r) (of_Z 60)
    /\ TripPrediction.confidence r = fdiv (of_Z 9) (of_Z 10).
Proof.
  unfold Predictions.predict_body.
  destruct (prepare_features trip) as [fv|e]; cbn [Py.bind]; [|discriminate].
  destruct (model_predict model fv) as [p|e] eqn:Hp; cbn [Py.bind];
    [|discriminate].
  intros [= <-]. exists fv. cbn. repeat split; try reflexivity. exact Hp.
Qed.

Lemma answer_with_ok (model : Handle) (trip : TripFeatures.t F)
    (r : TripPrediction.t F) :
  answer_with Handle model_predict strptime str model trip = Ok r ->
  predict_body model trip = Ok r.
Proof.
  unfold answer_with.
  destruct (predict_body model trip); cbn; [tauto | discriminate].
Qed.

Lemma load_model_loaded (fs : disk Handle) (s : state Handle) (h : Handle) :
  _model s = Some h -> load_model fs s = (Some h, s).
Proof.
  intros Hm. unfold Predictions.load_model. rewrite Hm. reflexivity.
Qed.

Lemma load_model_first_use (fs : disk Handle) (h : Handle) :
  fs MODEL_PATH = Ok h ->
  load_model fs initial = (Some h, mk_state (Some h) [MODEL_PATH]).
Proof.
  intros Hfs. unfold Predictions.load_model. cbn. rewrite Hfs. reflexivity.
Qed.

(** A failed load leaves [_model] at [None]: the next request tries the
    load again. *)
Lemma load_model_failed (fs : disk Handle) (s : state Handle) (e : exn) :
  _model s = None ->
  fs MODEL_PATH = Raise e ->
  load_model fs s = (None, mk_state None (joblib_loads s ++ [MODEL_PATH])%list).
Proof.
  intros Hm Hfs. unfold Predictions.load_model. rewrite Hm, Hfs. reflexivity.
Qed.

Lemma load_model_handle (fs : disk Handle) (s s' : state Handle) (h : Handle) :
  load_model fs s = (Some h, s') -> _model s' = Some h.
Proof.
  unfold Predictions.load_model.
  destruct (_model s) as [m|] eqn:Hm.
  - intros [= <- <-]. exact Hm.
  - destruct (fs MODEL_PATH); intros [= <- <-]; reflexivity.
Qed.

Lemma predict_trip_duration_loaded
    (fs : disk Handle) (trip : TripFeatures.t F)
    (s : state Handle) (h : Handle) :
  _model s = Some h ->
  predict_trip_duration fs trip s
  = (answer_with Handle model_predict strptime str h trip, s).
Proof.
  intros Hm. unfold Predictions.predict_trip_duration.
  rewrite (load_model_loaded fs s h Hm). reflexivity.
Qed.

Lemma serve_loaded
    (reqs : list (disk Handle * TripFeatures.t F))
    (s : state Handle) (h : Handle) :
  _model s = Some h ->
  serve reqs s
  = (map (fun req =>
            answer_with Handle model_predict strptime str h (snd req)) reqs,
     s).
Proof.
  intros Hm. induction reqs as [|[fs trip] reqs IH]; cbn [Predictions.serve].
  - reflexivity.
  - rewrite (predict_trip_duration_loaded fs trip s h Hm), IH. reflexivity.
Qed.

(** C6: in every prediction that the endpoint returns, the seconds are the
    value inferred by the loaded model for the features of the trip, and
    the minutes are those seconds divided by 60. *)
Theorem minutes_is_seconds_div_60 :
  forall (fs : disk Handle) (trip : TripFeatures.t F)
         (s s' : state Handle) (r : TripPrediction.t F),
    predict_trip_duration fs trip s = (Ok r, s') ->
    TripPrediction.trip_duration_minutes r
    = fdiv (TripPrediction.trip_duration_seconds r) (of_Z 60)
    /\ exists model fv,
         _model s' = Some model
         /\ prepare_features trip = Ok fv
         /\ model_predict model fv
            = Ok (TripPrediction.trip_duration_seconds r).
Proof.
  intros fs trip s s' r.
  unfold Predictions.predict_trip_duration.
  destruct (load_model fs s) as [[model|] s1] eqn:Hload; [|discriminate].
  intros [= Hr <-].
  destruct (predict_body_ok model trip r (answer_with_ok model trip r Hr))
    as (fv & Hfv & Hp & Hmin & _).
  split; [exact Hmin|].
  exists model, fv. split; [|split; assumption].
  exact (load_model_handle fs s s1 model Hload).
Qed.

(** C7: nothing is loaded when the module is imported; when the artifact
    loads at the first request, that request stores the handle after one
    [joblib.load]; every later request, whatever the file system holds by
    then, is answered with that same handle and leaves the state, load log
    included, as it was. *)
Theorem model_handle_is_lazy_singleton :
  forall (fs0 : disk Handle) (h : Handle) (trip0 : TripFeatures.t F),
    fs0 MODEL_PATH = Ok h ->
    _model (@initial Handle) = None
    /\ joblib_loads (@initial Handle) = []
    /\ predict_trip_duration fs0 trip0 initial
       = (answer_with Handle model_predict strptime str h trip0,
          mk_state (Some h) [MODEL_PATH])
    /\ (forall fs, load_model fs (mk_state (Some h) [MODEL_PATH])
                   = (Some h, mk_state (Some h) [MODEL_PATH]))
    /\ (forall reqs,
          serve reqs (mk_state (Some h) [MODEL_PATH])
          = (map (fun req =>
                    answer_with Handle model_predict strptime str h (snd req))
                 reqs,
             mk_state (Some h) [MODEL_PATH])).
Proof.
  intros fs0 h trip0 Hfs.
  split; [reflexivity|]. split; [reflexivity|]. split; [|split].
  - unfold Predictions.predict_trip_duration.
    rewrite (load_model_first_use fs0 h Hfs). reflexivity.
  - intros fs. apply load_model_loaded. reflexivity.
  - intros reqs. apply serve_loaded. reflexivity.
Qed.

End PredictionProps.

Section CoordinateProps.
Context {F : Type} `{Float64 F}.
Variable Handle : Type.
Variable model_predict : Handle -> Predictions.FeatureVector.t F -> result F.
Variable strptime : string -> string -> result Datetime.t.
Variable str : exn -> string.
Variable MODEL_PATH : string.
Variable format_float : F -> string.

Import Predictions.

Lemma validate_coordinates_spec (lat lng : F) :
  if Utils.in_range lat lng
  then Utils.validate_coordinates format_float lat lng = Ok tt
  else exists detail,
         Utils.validate_coordinates format_float lat lng
         = Raise (HTTPException 400 detail).
Proof.
  unfold Utils.in_range, Utils.validate_coordinates.
  destruct (fle (of_Z (-90)) lat && fle lat (of_Z 90)); cbn.
  - destruct (fle (of_Z (-180)) lng && fle lng (of_Z 180)); cbn.
    + reflexivity.
    + eexists; reflexivity.
  - eexists; reflexivity.
Qed.

(** C2, as the code has it: the prediction endpoint answers a trip from
    its timestamp, the loaded model and the inferred value alone, whatever
    the four coordinates are; they reach the feature vector unchanged.  The
    range check exists only in the helper [validate_coordinates], which
    answers 400, a client error, exactly when a coordinate is out of
    range. *)
Theorem prediction_applies_no_coordinate_check :
  forall (fs : disk Handle) (trip : TripFeatures.t F) (s : state Handle)
         (model : Handle) (dt : Datetime.t),
    fst (load_model Handle MODEL_PATH fs s) = Some model ->
    strptime (TripFeatures.pickup_datetime trip) "%Y-%m-%d %H:%M:%S" = Ok dt ->
    (exists fv,
       prepare_features strptime trip = Ok fv
       /\ FeatureVector.pickup_latitude fv = TripFeatures.pickup_latitude trip
       /\ FeatureVector.pickup_longitude fv
          = TripFeatures.pickup_longitude trip
       /\ FeatureVector.dropoff_latitude fv
          = TripFeatures.dropoff_latitude trip
       /\ FeatureVector.dropoff_longitude fv
          = TripFeatures.dropoff_longitude trip
       /\ forall p,
            model_predict model fv = Ok p ->
            fst (predict_trip_duration Handle model_predict strptime str
                   MODEL_PATH fs trip s)
            = Ok (TripPrediction.mk p (fdiv p (of_Z 60))
                    (fdiv (of_Z 9) (of_Z 10))))
    /\ (forall lat lng,
          (Utils.in_range lat lng = true ->
           Utils.validate_coordinates format_float lat lng = Ok tt)
          /\ (Utils.in_range lat lng = false ->
              exists detail,
                Utils.validate_coordinates format_float lat lng
                = Raise (HTTPException 400 detail)
                /\ client_error 400 = true)).
Proof.
  intros fs trip s model dt Hload Hparse. split.
  - destruct (prepare_features_parsed strptime trip dt Hparse)
      as (fv & Hfv & _ & _ & _ & Hplat & Hplon & Hdlat & Hdlon).
    exists fv. repeat (split; [assumption|]).
    intros p Hp. unfold Predictions.predict_trip_duration.
    destruct (load_model Handle MODEL_PATH fs s) as [m s1].
    cbn in Hload. subst m. cbn.
    unfold Predictions.predict_body. rewrite Hfv. cbn. rewrite Hp.
    reflexivity.
  - intros lat lng. pose proof (validate_coordinates_spec lat lng) as Hv.
    split; intros Hr; rewrite Hr in Hv.
    + exact Hv.
    + destruct Hv as [detail Hd]. exists detail. split; [exact Hd|reflexivity].
Qed.

End CoordinateProps.

(* ----------------------------------------------------------------- *)
(** ** Route adapter *)

(** Peel the first call of a sequence that ended in [Ok]. *)
Ltac bind_ok H :=
  match type of H with
  | Py.bind ?m _ = Ok _ =>
      let E := fresh "E" in
      destruct m eqn:E; cbn [Py.bind] in H; [|discriminate H]
  end.

Tactic Notation "peel" hyp(H) "as" ident(x) ident(E) :=
  match type of H with
  | Py.bind ?m _ = Ok _ =>
      destruct m as [x|] eqn:E; cbn [Py.bind] in H; [|discriminate H]
  end.

Section ResultProps.
Context {A B : Type}.
Variable f : A -> result B.

Lemma for_append_Forall2 (xs : list A) (ys : list B) :
  for_append f xs = Ok ys -> Forall2 (fun x y => f x = Ok y) xs ys.
Proof.
  revert ys. induction xs as [|x xs IH]; intros ys Hrun; cbn in Hrun.
  - injection Hrun as <-. constructor.
  - bind_ok Hrun. bind_ok Hrun. injection Hrun as <-.
    constructor; [assumption | apply IH; reflexivity].
Qed.

Lemma Forall2_weaken (P Q : A -> B -> Prop) (xs : list A) (ys : list B) :
  (forall x y, P x y -> Q x y) -> Forall2 P xs ys -> Forall2 Q xs ys.
Proof.
  intros HPQ Hall. induction Hall; constructor; auto.
Qed.

End ResultProps.

Section RouteProps.
Context {F : Type} `{Float64 F}.
Variable directions : Routes.DirectionsCall.t F -> result (Json.pyval F).
Variable str : exn -> string.
Variable float_validator : Json.pyval F -> option F.
Variable str_validator : Json.pyval F -> option string.
Variable list_int_validator : Json.pyval F -> option (list Z).
Variable dict_validator
  : Json.pyval F -> option (list (string * Json.pyval F)).

Import Json Routes.

Local Abbreviation reshape_step :=
  (reshape_step float_validator str_validator list_int_validator).
Local Abbreviation reshape_leg :=
  (reshape_leg float_validator str_validator list_int_validator
     dict_validator).
Local Abbreviation format_response :=
  (format_response float_validator str_validator list_int_validator
     dict_validator).
Local Abbreviation get_optimized_route :=
  (get_optimized_route directions str float_validator str_validator
     list_int_validator dict_validator).
Local Abbreviation step_well_formed :=
  (step_well_formed float_validator str_validator list_int_validator).
Local Abbreviation leg_well_formed :=
  (leg_well_formed float_validator str_validator list_int_validator
     dict_validator).
Local Abbreviation route_well_formed :=
  (route_well_formed float_validator str_validator list_int_validator
     dict_validator).

(** C3: without a key, every request is answered with the 500
    "not configured" error, and the log of calls to the directions
    provider is returned as it was received: no call is made. *)
Theorem missing_key_fails_without_provider_call :
  forall (ORS_API_KEY : option string) (route_request : RouteRequest.t F)
         (outbound : list (DirectionsCall.t F)),
    key_missing ORS_API_KEY = true ->
    get_optimized_route ORS_API_KEY route_request outbound
    = (Raise (HTTPException 500 "OpenRouteService API key not configured"),
       outbound)
    /\ server_error 500 = true.
Proof.
  intros key req outbound Hkey.
  unfold Routes.get_optimized_route. rewrite Hkey. split; reflexivity.
Qed.

(** C1, what the code does: with a key configured and a provider answer
    whose feature list is empty, the 404 raised inside the [try] block is
    caught by its own [except Exception] clause, and the request is
    answered with status 500; no detail makes the answer a 404. *)
Theorem empty_feature_list_is_answered_500 :
  forall (ORS_API_KEY : option string) (route_request : RouteRequest.t F)
         (outbound : list (DirectionsCall.t F)) (route : pyval F),
    key_missing ORS_API_KEY = false ->
    directions (directions_call route_request) = Ok route ->
    getitem route (Key "features") = Ok (PList []) ->
    get_optimized_route ORS_API_KEY route_request outbound
    = (Raise (HTTPException 500
                ("Error calculating route: "
                 ++ str (HTTPException 404
                           "No route found between the specified points"))),
       (outbound ++ [directions_call route_request])%list)
    /\ forall detail,
         fst (get_optimized_route ORS_API_KEY route_request outbound)
         <> Raise (HTTPException 404 detail).
Proof.
  intros key req outbound route Hkey Hdir Hfeatures.
  assert (Hrun :
    get_optimized_route key req outbound
    = (Raise (HTTPException 500
                ("Error calculating route: "
                 ++ str (HTTPException 404
                           "No route found between the specified points"))),
       (outbound ++ [directions_call req])%list)).
  { unfold Routes.get_optimized_route. rewrite Hkey, Hdir. cbn [Py.bind].
    unfold Routes.format_response. rewrite Hfeatures. reflexivity. }
  split; [exact Hrun|].
  intros detail. rewrite Hrun. cbn. intros Habs. discriminate Habs.
Qed.

Section Defaults.
(** pydantic returns an empty [str] and an empty [List[int]] as they are. *)
Hypothesis str_validator_empty : str_validator (PStr "") = Some "".
Hypothesis list_int_validator_empty : list_int_validator (PList []) = Some [].
Hypothesis dict_validator_empty : dict_validator (PDict []) = Some [].

Lemma reshape_step_total
    (d : list (string * pyval F)) (distance duration : pyval F) (x t : F) :
  lookup "distance" d = Some distance ->
  lookup "duration" d = Some duration ->
  float_validator distance = Some x ->
  float_validator duration = Some t ->
  (forall v, lookup "instruction" d = Some v -> str_validator v <> None) ->
  (forall v, lookup "name" d = Some v -> str_validator v <> None) ->
  (forall v, lookup "way_points" d = Some v ->
             list_int_validator v <> None) ->
  exists out,
    reshape_step (PDict d) = Ok out
    /\ RouteLegStep.distance out = x
    /\ RouteLegStep.duration out = t
    /\ defaults_applied (PDict d) out.
Proof.
  intros Hd Ht Hx Hy Hi Hn Hw.
  unfold Routes.reshape_step, defaults_applied. cbn [getitem get].
  rewrite Hd, Ht. cbn [Py.bind].
  destruct (lookup "instruction" d) as [vi|] eqn:Ei;
    destruct (lookup "name" d) as [vn|] eqn:En;
    destruct (lookup "way_points" d) as [vw|] eqn:Ew;
    cbn [Py.bind]; unfold RouteLegStep_init; rewrite Hx, Hy;
    rewrite ?str_validator_empty, ?list_int_validator_empty;
    try (specialize (Hi vi eq_refl);
         destruct (str_validator vi) as [i|]; [|congruence]);
    try (specialize (Hn vn eq_refl);
         destruct (str_validator vn) as [n|]; [|congruence]);
    try (specialize (Hw vw eq_refl);
         destruct (list_int_validator vw) as [w|]; [|congruence]);
    (eexists; split; [reflexivity|]; cbn;
     split; [reflexivity|]; split; [reflexivity|];
     exists d; repeat split; intros; (reflexivity || congruence)).
Qed.

Lemma reshape_step_ok (step : pyval F) (out : RouteLegStep.t F) :
  reshape_step step = Ok out -> defaults_applied step out.
Proof.
  intros Hrun.
  destruct step as [| | | | |l|d]; try (cbn in Hrun; discriminate Hrun).
  exists d. split; [reflexivity|].
  unfold Routes.reshape_step in Hrun. cbn [getitem get] in Hrun.
  destruct (lookup "distance" d) as [vd|]; cbn [Py.bind] in Hrun;
    [|discriminate Hrun].
  destruct (lookup "duration" d) as [vt|]; cbn [Py.bind] in Hrun;
    [|discriminate Hrun].
  unfold RouteLegStep_init in Hrun.
  destruct (lookup "instruction" d) as [vi|];
    destruct (lookup "name" d) as [vn|];
    destruct (lookup "way_points" d) as [vw|];
    cbn [Py.bind] in Hrun;
    rewrite ?str_validator_empty, ?list_int_validator_empty in Hrun;
    destruct (float_validator vd); try discriminate Hrun;
    destruct (float_validator vt); try discriminate Hrun;
    repeat match type of Hrun with
           | context [match ?v with Some _ => _ | None => _ end] =>
               destruct v; try discriminate Hrun
           end;
    injection Hrun as <-; cbn;
    repeat split; intros; (reflexivity || congruence).
Qed.

Lemma reshape_leg_ok (leg : pyval F) (out : RouteLeg.t F) :
  reshape_leg leg = Ok out ->
  exists items,
    leg_steps leg = Ok items
    /\ Forall2 (fun step o => reshape_step step = Ok o /\ defaults_applied step o)
               items (RouteLeg.steps out).
Proof.
  intros Hrun. unfold Routes.reshape_leg in Hrun. unfold leg_steps.
  peel Hrun as v Ev. peel Hrun as items Eitems.
  peel Hrun as steps Esteps.
  peel Hrun as summary Esummary. peel Hrun as way_points Eway.
  cbn [Py.bind]. exists items. split; [exact Eitems|].
  unfold RouteLeg_init in Hrun.
  destruct (dict_validator summary); try discriminate Hrun.
  destruct (list_int_validator way_points); try discriminate Hrun.
  injection Hrun as <-. cbn.
  eapply Forall2_weaken; [|apply for_append_Forall2; exact Esteps].
  cbn. intros step o Hstep. split; [exact Hstep | apply reshape_step_ok, Hstep].
Qed.

Lemma format_response_ok (route : pyval F) (r : Route.t F) :
  format_response route = Ok r ->
  exists legs,
    route_legs route = Ok legs
    /\ Forall2 (fun leg out => reshape_leg leg = Ok out)
               legs (Route.segments r).
Proof.
  intros Hrun. unfold Routes.format_response in Hrun. unfold route_legs.
  peel Hrun as features Efeatures.
  destruct (truthy features); [|discriminate Hrun].
  cbn [Py.bind] in Hrun.
  peel Hrun as feature Efeature. peel Hrun as properties Eproperties.
  peel Hrun as legs Elegs. peel Hrun as items Eitems.
  peel Hrun as segments Esegments.
  cbn [Py.bind]. rewrite Efeature. cbn [Py.bind].
  rewrite Eproperties. cbn [Py.bind]. rewrite Elegs. cbn [Py.bind].
  exists items. split; [exact Eitems|].
  repeat bind_ok Hrun.
  unfold Route_init in Hrun.
  repeat match type of Hrun with
         | context [match ?v with Some _ => _ | None => _ end] =>
             destruct v; try discriminate Hrun
         end.
  injection Hrun as <-. cbn.
  apply for_append_Forall2. exact Esegments.
Qed.

(** The inverses of the payload tests. *)
Lemma required_inv {B} (validator : pyval F -> option B)
    (d : list (string * pyval F)) (k : string) :
  required validator d k = true ->
  exists v b, lookup k d = Some v /\ validator v = Some b.
Proof.
  unfold required, accepted.
  destruct (lookup k d) as [v|]; [|discriminate].
  destruct (validator v) as [b|] eqn:Hv; [|discriminate].
  intros _. exists v, b. split; [reflexivity | exact Hv].
Qed.

Lemma optional_inv {B} (validator : pyval F -> option B)
    (d : list (string * pyval F)) (k : string) :
  optional validator d k = true ->
  forall v, lookup k d = Some v -> validator v <> None.
Proof.
  unfold optional, accepted. intros Hok v Hv. rewrite Hv in Hok.
  destruct (validator v); [discriminate | discriminate Hok].
Qed.

Lemma for_append_total {A B} (f : A -> result B) (xs : list A) :
  Forall (fun x => exists y, f x = Ok y) xs ->
  exists ys, for_append f xs = Ok ys.
Proof.
  induction 1 as [|x xs [y Hy] _ [ys Hys]]; cbn.
  - eexists; reflexivity.
  - rewrite Hy. cbn. rewrite Hys. eexists; reflexivity.
Qed.

Lemma reshape_step_well_formed (step : pyval F) :
  step_well_formed step = true ->
  exists out, reshape_step step = Ok out.
Proof.
  destruct step as [| | | | | |d]; try discriminate.
  cbn [Routes.step_well_formed]. rewrite !andb_true_iff.
  intros [[[[Hd Ht] Hi] Hn] Hw].
  destruct (required_inv _ _ _ Hd) as (vd & x & Hvd & Hx).
  destruct (required_inv _ _ _ Ht) as (vt & t & Hvt & Hy).
  destruct (reshape_step_total d vd vt x t Hvd Hvt Hx Hy
              (optional_inv _ _ _ Hi) (optional_inv _ _ _ Hn)
              (optional_inv _ _ _ Hw))
    as (out & Hout & _).
  exists out. exact Hout.
Qed.

Lemma reshape_leg_well_formed (leg : pyval F) :
  leg_well_formed leg = true ->
  exists out, reshape_leg leg = Ok out.
Proof.
  destruct leg as [| | | | | |d]; try discriminate.
  cbn [Routes.leg_well_formed].
  destruct (lookup "steps" d) as [[| | | | |items|]|] eqn:Hsteps;
    try discriminate.
  rewrite !andb_true_iff. intros [[Hitems Hs] Hw].
  destruct (for_append_total reshape_step items) as [steps Hrun].
  { apply Forall_forall. intros step Hin.
    apply reshape_step_well_formed.
    exact (proj1 (forallb_forall _ _) Hitems step Hin). }
  unfold Routes.reshape_leg. cbn [getitem get]. rewrite Hsteps.
  cbn [Py.bind iter]. rewrite Hrun. cbn [Py.bind].
  unfold RouteLeg_init.
  pose proof (optional_inv _ _ _ Hs) as Hs'.
  pose proof (optional_inv _ _ _ Hw) as Hw'.
  destruct (lookup "summary" d) as [vs|]; cbn [Py.bind];
    [specialize (Hs' vs eq_refl);
     destruct (dict_validator vs) as [s|]; [|congruence]
    |rewrite dict_validator_empty];
    (destruct (lookup "way_points" d) as [vw|]; cbn [Py.bind];
     [specialize (Hw' vw eq_refl);
      destruct (list_int_validator vw) as [w|]; [|congruence]
     |rewrite list_int_validator_empty]);
    eexists; reflexivity.
Qed.

Lemma format_response_well_formed (route : pyval F) :
  route_well_formed route = true ->
  exists r, format_response route = Ok r.
Proof.
  destruct route as [| | | | | |top]; try discriminate.
  cbn [Routes.route_well_formed].
  destruct (lookup "features" top)
    as [[| | | | |[|[| | | | | |feature] rest]|]|] eqn:Hfeatures;
    try discriminate.
  destruct (lookup "properties" feature)
    as [[| | | | | |properties]|] eqn:Hproperties; try discriminate.
  destruct (lookup "geometry" feature) as [geometry|] eqn:Hgeometry;
    try discriminate.
  destruct (lookup "segments" properties)
    as [[| | | | |legs|]|] eqn:Hsegments; try discriminate.
  destruct (lookup "summary" properties)
    as [[| | | | | |summary]|] eqn:Hsummary; try discriminate.
  rewrite !andb_true_iff. intros [[[Hlegs Hd] Ht] Hg].
  destruct (required_inv _ _ _ Hd) as (vd & x & Hvd & Hx).
  destruct (required_inv _ _ _ Ht) as (vt & t & Hvt & Hy).
  destruct (for_append_total reshape_leg legs) as [segments Hrun].
  { apply Forall_forall. intros leg Hin.
    apply reshape_leg_well_formed.
    exact (proj1 (forallb_forall _ _) Hlegs leg Hin). }
  unfold accepted in Hg.
  destruct (dict_validator geometry) as [g|] eqn:Hgeo; [|discriminate Hg].
  unfold Routes.format_response. cbn [getitem]. rewrite Hfeatures.
  cbn [Py.bind truthy getitem].
  assert (H0 : list_index (PDict feature :: rest) 0 = Some (PDict feature))
    by (unfold list_index; cbn [List.length];
        destruct (0 <? Z.of_nat (S (List.length rest))) eqn:E;
        [reflexivity | apply Z.ltb_ge in E; lia]).
  rewrite H0. cbn [Py.bind getitem]. rewrite Hproperties.
  cbn [Py.bind getitem]. rewrite Hsegments. cbn [Py.bind iter].
  rewrite Hrun. cbn [Py.bind getitem]. rewrite Hsummary.
  cbn [Py.bind getitem]. rewrite Hvd, Hvt. cbn [Py.bind getitem].
  rewrite Hgeometry. cbn [Py.bind]. unfold Route_init.
  rewrite Hx, Hy, Hgeo. eexists; reflexivity.
Qed.

Lemma route_steps_reshaped (route : pyval F) (r : Route.t F) :
  format_response route = Ok r ->
  exists legs,
    route_legs route = Ok legs
    /\ Forall2
         (fun leg out =>
            exists items,
              leg_steps leg = Ok items
              /\ Forall2
                   (fun step o =>
                      reshape_step step = Ok o /\ defaults_applied step o)
                   items (RouteLeg.steps out))
         legs (Route.segments r).
Proof.
  intros Hfmt.
  destruct (format_response_ok route r Hfmt) as (legs & Hlegs & Hall).
  exists legs. split; [exact Hlegs|].
  eapply Forall2_weaken; [|exact Hall].
  cbn. intros leg out Hleg. apply reshape_leg_ok, Hleg.
Qed.

(** C8: a provider step with a valid distance and duration, and with each
    optional key either absent or valid, is reshaped without error, and the
    reshaped step has [instruction = ""], [name = ""] and
    [way_points = []] for the keys that are absent; in every route that the
    endpoint returns, the steps are the reshaped provider steps of the
    first feature, segment by segment and in order, each with these
    defaults; and the endpoint does return a route, after one provider
    call, for every provider answer whose first feature is well formed,
    whichever optional keys its steps lack. *)
Theorem missing_step_fields_take_defaults :
  (forall (d : list (string * pyval F)) (distance duration : pyval F)
          (x t : F),
      lookup "distance" d = Some distance ->
      lookup "duration" d = Some duration ->
      float_validator distance = Some x ->
      float_validator duration = Some t ->
      (forall v, lookup "instruction" d = Some v -> str_validator v <> None) ->
      (forall v, lookup "name" d = Some v -> str_validator v <> None) ->
      (forall v, lookup "way_points" d = Some v ->
                 list_int_validator v <> None) ->
      exists out,
        reshape_step (PDict d) = Ok out
        /\ RouteLegStep.distance out = x
        /\ RouteLegStep.duration out = t
        /\ (lookup "instruction" d = None -> RouteLegStep.instruction out = "")
        /\ (lookup "name" d = None -> RouteLegStep.name out = "")
        /\ (lookup "way_points" d = None -> RouteLegStep.way_points out = []))
  /\ (forall (ORS_API_KEY : option string) (route_request : RouteRequest.t F)
             (outbound : list (DirectionsCall.t F)) (r : Route.t F),
        fst (get_optimized_route ORS_API_KEY route_request outbound) = Ok r ->
        exists route legs,
          directions (directions_call route_request) = Ok route
          /\ route_legs route = Ok legs
          /\ Forall2
               (fun leg out =>
                  exists items,
                    leg_steps leg = Ok items
                    /\ Forall2
                         (fun step o =>
                            reshape_step step = Ok o
                            /\ defaults_applied step o)
                         items (RouteLeg.steps out))
               legs (Route.segments r))
  /\ (forall (ORS_API_KEY : option string) (route_request : RouteRequest.t F)
             (outbound : list (DirectionsCall.t F)) (route : pyval F),
        key_missing ORS_API_KEY = false ->
        directions (directions_call route_request) = Ok route ->
        route_well_formed route = true ->
        exists r legs,
          get_optimized_route ORS_API_KEY route_request outbound
          = (Ok r, (outbound ++ [directions_call route_request])%list)
          /\ route_legs route = Ok legs
          /\ Forall2
               (fun leg out =>
                  exists items,
                    leg_steps leg = Ok items
                    /\ Forall2
                         (fun step o =>
                            reshape_step step = Ok o
                            /\ defaults_applied step o)
                         items (RouteLeg.steps out))
               legs (Route.segments r)).
Proof.
  split; [|split].
  - intros d distance duration x t Hd Ht Hx Hy Hi Hn Hw.
    destruct (reshape_step_total d distance duration x t Hd Ht Hx Hy Hi Hn Hw)
      as (out & Hout & Hdist & Hdur & d' & Heq & Hdefaults).
    injection Heq as <-.
    exists out. repeat (split; [assumption|]). exact Hdefaults.
  - intros key req outbound r Hrun.
    unfold Routes.get_optimized_route in Hrun.
    destruct (key_missing key); [discriminate Hrun|].
    cbn [fst] in Hrun.
    destruct (directions (directions_call req)) as [route|e] eqn:Hdir;
      [|discriminate Hrun].
    cbn [Py.bind] in Hrun.
    destruct (format_response route) as [r'|e] eqn:Hfmt; [|discriminate Hrun].
    cbn in Hrun. injection Hrun as <-.
    destruct (route_steps_reshaped route r' Hfmt) as (legs & Hlegs & Hall).
    exists route, legs. split; [reflexivity|]. split; assumption.
  - intros key req outbound route Hkey Hdir Hwf.
    destruct (format_response_well_formed route Hwf) as [r Hfmt].
    destruct (route_steps_reshaped route r Hfmt) as (legs & Hlegs & Hall).
    exists r, legs. split; [|split; assumption].
    unfold Routes.get_optimized_route. rewrite Hkey, Hdir. cbn [Py.bind].
    rewrite Hfmt. reflexivity.
Qed.

End Defaults.

End RouteProps.

(* ----------------------------------------------------------------- *)
(** ** The properties on concrete requests *)

#[local] Set Warnings "-inexact-float".

Section Concrete.
Import Predictions.
Local Existing Instance Sample.numpy.

Local Abbreviation fmt := "%Y-%m-%d %H:%M:%S"%string.
Local Abbreviation predict :=
  (predict_trip_duration (Sample.linear_model float) Sample.model_predict
     Sample.strptime Sample.str Sample.MODEL_PATH).
Local Abbreviation loaded :=
  (mk_state (Some Sample.model) [Sample.MODEL_PATH]).

(** A pickup at 05:30 is at night. *)
Lemma is_night_at_0530 :
  Sample.strptime "2023-01-01 05:30:00" fmt
  = Ok (Datetime.mk 2023 1 1 5 30 0)
  /\ exists fv,
       prepare_features Sample.strptime (Sample.trip "2023-01-01 05:30:00")
       = Ok fv
       /\ FeatureVector.is_night fv = 1%Z.
Proof.
  split; [reflexivity|].
  destruct (is_night_iff_hour_in_20_23_or_0_5 (F := float) Sample.strptime
              (Sample.trip "2023-01-01 05:30:00")
              (Datetime.mk 2023 1 1 5 30 0) eq_refl)
    as (fv & Hfv & _ & _ & _ & _ & H5).
  exists fv. split; [exact Hfv | apply H5; reflexivity].
Defined.

(** A pickup at 19:05 is in the rush hour. *)
Lemma is_rush_hour_at_1905 :
  Sample.strptime "2023-01-02 19:05:00" fmt
  = Ok (Datetime.mk 2023 1 2 19 5 0)
  /\ exists fv,
       prepare_features Sample.strptime (Sample.trip "2023-01-02 19:05:00")
       = Ok fv
       /\ FeatureVector.is_rush_hour fv = 1%Z.
Proof.
  split; [reflexivity|].
  destruct (is_rush_hour_iff_hour_in_7_10_or_16_19 (F := float) Sample.strptime
              (Sample.trip "2023-01-02 19:05:00")
              (Datetime.mk 2023 1 2 19 5 0) eq_refl)
    as (fv & Hfv & _ & _ & _ & _ & H19 & _).
  exists fv. split; [exact Hfv | apply H19; reflexivity].
Defined.

(** The first request of a process whose disk holds the artifact. *)
Lemma minutes_of_a_served_trip :
  exists r s',
    predict (Sample.disk_with Sample.model)
      (Sample.trip "2023-01-01 12:00:00") initial
    = (Ok r, s')
    /\ TripPrediction.trip_duration_minutes r
       = (TripPrediction.trip_duration_seconds r / 60)%float.
Proof.
  eexists. eexists. split; [reflexivity|].
  refine (proj1 (minutes_is_seconds_div_60 (F := float)
                   (Sample.linear_model float) Sample.model_predict
                   Sample.strptime Sample.str Sample.MODEL_PATH
                   (Sample.disk_with Sample.model)
                   (Sample.trip "2023-01-01 12:00:00") initial loaded _ _)).
  reflexivity.
Defined.

(** After a first request that loaded the artifact, two requests that find
    the artifact gone from the disk are served with the handle in memory,
    and the load log still has its single entry. *)
Lemma handle_survives_artifact_removal :
  Sample.disk_with Sample.model Sample.MODEL_PATH = Ok Sample.model
  /\ snd (predict (Sample.disk_with Sample.model)
            (Sample.trip "2023-01-01 12:00:00") initial)
     = loaded
  /\ serve (Sample.linear_model float) Sample.model_predict Sample.strptime
       Sample.str Sample.MODEL_PATH
       [(Sample.empty_disk, Sample.trip "2023-01-01 05:30:00");
        (Sample.empty_disk, Sample.trip "2023-01-02 19:05:00")] loaded
     = ([answer_with (Sample.linear_model float) Sample.model_predict
           Sample.strptime Sample.str Sample.model
           (Sample.trip "2023-01-01 05:30:00");
         answer_with (Sample.linear_model float) Sample.model_predict
           Sample.strptime Sample.str Sample.model
           (Sample.trip "2023-01-02 19:05:00")],
        loaded).
Proof.
  destruct (model_handle_is_lazy_singleton (F := float) (Sample.linear_model float)
              Sample.model_predict Sample.strptime Sample.str
              Sample.MODEL_PATH (Sample.disk_with Sample.model) Sample.model
              (Sample.trip "2023-01-01 12:00:00") eq_refl)
    as (_ & _ & Hfirst & _ & Hlater).
  split; [reflexivity|]. split.
  - rewrite Hfirst. reflexivity.
  - apply Hlater.
Defined.

(** C2, refuted as stated: a pickup latitude of 100 degrees is out of
    range ([validate_coordinates] answers 400 for it), the request passes
    the declared field constraints, and the endpoint returns a prediction
    for it. *)
Lemma latitude_100_is_predicted :
  Utils.in_range (TripFeatures.pickup_latitude Sample.trip_lat_100)
                 (TripFeatures.pickup_longitude Sample.trip_lat_100) = false
  /\ TripFeatures.field_constraints Sample.trip_lat_100 = true
  /\ exists r,
       predict (Sample.disk_with Sample.model) Sample.trip_lat_100 initial
       = (Ok r, loaded).
Proof.
  split; [|split].
  - reflexivity.
  - reflexivity.
  - eexists. reflexivity.
Qed.

(** The same request through the amended statement. *)
Lemma latitude_100_unchecked :
  fst (load_model (Sample.linear_model float) Sample.MODEL_PATH
         (Sample.disk_with Sample.model) initial) = Some Sample.model
  /\ Sample.strptime (TripFeatures.pickup_datetime Sample.trip_lat_100) fmt
     = Ok (Datetime.mk 2023 1 1 12 0 0)
  /\ exists fv,
       prepare_features Sample.strptime Sample.trip_lat_100 = Ok fv
       /\ FeatureVector.pickup_latitude fv = 100%float.
Proof.
  split; [reflexivity|]. split; [reflexivity|].
  destruct (prediction_applies_no_coordinate_check (F := float)
              (Sample.linear_model float) Sample.model_predict Sample.strptime
              Sample.str Sample.MODEL_PATH Sample.format_float
              (Sample.disk_with Sample.model) Sample.trip_lat_100 initial
              Sample.model (Datetime.mk 2023 1 1 12 0 0) eq_refl eq_refl)
    as ((fv & Hfv & Hlat & _) & _).
  exists fv. split; [exact Hfv | exact Hlat].
Defined.

(** The sample sine is odd: the sign of its argument goes through the
    outer product and is squared away inside. *)
Lemma sample_sin_odd (x : float) :
  Sample.sin (- x)%float = (- Sample.sin x)%float.
Proof.
  unfold Sample.sin. rewrite Ieee.mul_opp_opp. apply Ieee.mul_opp_l.
Qed.

(** C9, refuted as stated: for the point of infinite latitude the distance
    to itself is NaN, so that [distance(A, A) == 0] is false, and so is
    [distance(A, B) == distance(B, A)] with [B = A]. *)
Lemma distance_at_infinite_latitude_is_nan :
  Sample.radians infinity = infinity
  /\ (haversine_distance infinity 0%float infinity 0%float =? 0)%float = false
  /\ (haversine_distance infinity 0%float infinity 0%float
      =? haversine_distance infinity 0%float infinity 0%float)%float = false.
Proof.
  split; [reflexivity|].
  pose proof (haversine_ieee_not_finite Sample.radians Sample.sin Sample.cos
                Sample.arcsin infinity 0%float eq_refl eq_refl eq_refl)
    as Hnan.
  change (haversine_distance infinity 0%float infinity 0%float = nan) in Hnan.
  rewrite Hnan. split; reflexivity.
Qed.

(** Two points of Manhattan, in both orders, and one of them twice; and
    the point of infinite latitude. *)
Lemma distance_between_two_points :
  Sample.sin 0 = 0%float
  /\ Sample.arcsin 0 = 0%float
  /\ is_finite (Sample.radians 40.7484) = true
  /\ is_finite (Sample.radians (-73.9857)) = true
  /\ haversine_distance 40.7484%float (-73.9857)%float
                        40.7517%float (-73.9881)%float
     = haversine_distance 40.7517%float (-73.9881)%float
                          40.7484%float (-73.9857)%float
  /\ haversine_distance 40.7484%float (-73.9857)%float
                        40.7484%float (-73.9857)%float
     = 0%float
  /\ is_nan (haversine_distance infinity 0%float infinity 0%float) = true.
Proof.
  destruct (haversine_distance_symmetric_and_zero
              Sample.radians Sample.sin Sample.cos Sample.arcsin
              sample_sin_odd eq_refl eq_refl) as (Hsym & Hzero & Hnan).
  do 4 (split; [reflexivity|]). split; [|split].
  - exact (proj1 (Hsym 40.7484 (-73.9857) 40.7517 (-73.9881))%float).
  - exact (proj1 (Hzero 40.7484 (-73.9857) eq_refl eq_refl eq_refl)%float).
  - exact (proj1 (Hnan eq_refl eq_refl infinity 0%float eq_refl)).
Defined.

Import Json Routes.

Local Abbreviation optimize answer :=
  (get_optimized_route (Sample.directions answer) Sample.str
     Sample.float_validator Sample.str_validator Sample.list_int_validator
     Sample.dict_validator).

(** With no key in the environment nothing is sent, even though the
    provider would have answered with a route. *)
Lemma unset_key_sends_nothing :
  key_missing None = true
  /\ optimize Sample.one_route None Sample.route_request []
     = (Raise (HTTPException 500 "OpenRouteService API key not configured"),
        []).
Proof.
  split; [reflexivity|].
  exact (proj1 (missing_key_fails_without_provider_call (F := float)
                  (Sample.directions Sample.one_route) Sample.str
                  Sample.float_validator Sample.str_validator
                  Sample.list_int_validator Sample.dict_validator
                  None Sample.route_request [] eq_refl)).
Defined.

(** A provider answer without any route is turned into a 500; the text
    of the 404 is lost, [str] of an [HTTPException] raised with keyword
    arguments being empty. *)
Lemma no_route_is_answered_500 :
  key_missing (Some "key") = false
  /\ getitem Sample.no_route (Key "features") = Ok (PList [])
  /\ fst (optimize Sample.no_route (Some "key") Sample.route_request [])
     = Raise (HTTPException 500 "Error calculating route: ").
Proof.
  split; [reflexivity|]. split; [reflexivity|].
  rewrite (proj1 (empty_feature_list_is_answered_500 (F := float)
                    (Sample.directions Sample.no_route) Sample.str
                    Sample.float_validator Sample.str_validator
                    Sample.list_int_validator Sample.dict_validator
                    (Some "key") Sample.route_request [] Sample.no_route
                    eq_refl eq_refl eq_refl)).
  reflexivity.
Defined.

(** A provider step that carries only its distance and duration, alone
    and as the second step of a route that the endpoint returns. *)
Lemma bare_step_gets_defaults :
  Sample.str_validator (@PStr float "") = Some ""
  /\ Sample.list_int_validator (@PList float []) = Some []
  /\ Sample.dict_validator (@PDict float []) = Some []
  /\ (exists out,
        reshape_step Sample.float_validator Sample.str_validator
          Sample.list_int_validator Sample.bare_step = Ok out
        /\ RouteLegStep.instruction out = ""
        /\ RouteLegStep.name out = ""
        /\ RouteLegStep.way_points out = [])
  /\ exists r,
       optimize Sample.one_route (Some "key") Sample.route_request []
       = (Ok r, [directions_call Sample.route_request])
       /\ map (fun leg => map (fun step => (RouteLegStep.instruction step,
                                            RouteLegStep.name step,
                                            RouteLegStep.way_points step))
                              (RouteLeg.steps leg))
              (Route.segments r)
          = [[("Head north", "5th Avenue", [0; 4]); ("", "", [])]].
Proof.
  split; [reflexivity|]. split; [reflexivity|]. split; [reflexivity|].
  destruct (missing_step_fields_take_defaults (F := float)
              (Sample.directions Sample.one_route) Sample.str
              Sample.float_validator Sample.str_validator
              Sample.list_int_validator Sample.dict_validator
              eq_refl eq_refl eq_refl)
    as (Hstep & _ & Hroute).
  split.
  - destruct (Hstep
                [("distance", PFloat 120.5%float); ("duration", PInt 30)]
                (PFloat 120.5%float) (PInt 30) 120.5%float 30%float
                eq_refl eq_refl ltac:(reflexivity) ltac:(reflexivity)
                ltac:(intros v Hv; discriminate Hv)
                ltac:(intros v Hv; discriminate Hv)
                ltac:(intros v Hv; discriminate Hv))
      as (out & Hout & _ & _ & Hi & Hn & Hw).
    exists out. split; [exact Hout|].
    split; [apply Hi; reflexivity|].
    split; [apply Hn; reflexivity | apply Hw; reflexivity].
  - destruct (Hroute (Some "key") Sample.route_request [] Sample.one_route
                eq_refl eq_refl eq_refl)
      as (r & legs & Hrun & _).
    exists r. split; [exact Hrun|].
    cbv in Hrun. injection Hrun as <-. reflexivity.
Defined.

End Concrete.

(* ================================================================= *)
(** * Further properties of the code *)

(* ----------------------------------------------------------------- *)
(** ** Importing the admin router and the application *)

Section ImportProps.
Import PyModule AdminModule.

(** Every import of the prologue either fails or binds its names. *)
Ltac import_cases environment :=
  repeat match goal with
         | |- context [environment ?m] =>
             destruct (environment m) as [[]|?]; cbn;
             [|eexists; reflexivity]
         end.

Lemma admin_body_raises (environment : string -> result unit) :
  exists e, import_module environment body = Raise e.
Proof.
  unfold import_module, body, prologue. cbn.
  import_cases environment. eexists; reflexivity.
Qed.

(** X1: importing [routers/admin.py] never completes.  When every module
    it imports is available, the statement that defines
    [get_system_status] raises [NameError] for [get_active_admin_user],
    which is read as a default value before its own [def] has run; with
    the two definitions in the other order the import completes. *)
Theorem admin_import_raises :
  (forall environment : string -> result unit,
      exists e, import_module environment body = Raise e)
  /\ import_module (fun _ => Ok tt) body
     = Raise (NameError "get_active_admin_user")
  /\ import_module (fun _ => Ok tt) body_helper_first = Ok tt.
Proof.
  split; [exact admin_body_raises | split; reflexivity].
Qed.

Lemma main_body_needs_admin (importing : string -> result unit) (e : exn) :
  importing "..routers.admin" = Raise e ->
  exists e', import_module importing main_body = Raise e'.
Proof.
  intros Hadmin. unfold import_module, main_body. cbn.
  rewrite Hadmin. import_cases importing. eexists; reflexivity.
Qed.

(** X2: importing [app/main.py] never completes, whatever the other
    modules do: it imports the admin router before it creates [app]. *)
Theorem main_import_raises :
  forall environment : string -> result unit,
    exists e, import_main environment = Raise e.
Proof.
  intros environment.
  destruct (admin_body_raises environment) as [e He].
  apply (main_body_needs_admin _ e).
  unfold importing_from_main. cbn. exact He.
Qed.

End ImportProps.

(* ----------------------------------------------------------------- *)
(** ** Prediction router: flags, errors, the shared handle *)

Section PredictionMore.
Context {F : Type} `{Float64 F}.
Variable Handle : Type.
Variable model_predict : Handle -> Predictions.FeatureVector.t F -> result F.
Variable strptime : string -> string -> result Datetime.t.
Variable str : exn -> string.
Variable MODEL_PATH : string.
Variable type_name : Handle -> string.
Variable feature_importances_ : Handle -> option (list F).
Variable feature_names_in_ : Handle -> result (list string).

Import Predictions.

Local Abbreviation fmt := "%Y-%m-%d %H:%M:%S"%string.
Local Abbreviation prepare_features := (prepare_features strptime).
Local Abbreviation load_model := (load_model Handle MODEL_PATH).
Local Abbreviation predict_trip_duration :=
  (predict_trip_duration Handle model_predict strptime str MODEL_PATH).
Local Abbreviation serve :=
  (serve Handle model_predict strptime str MODEL_PATH).
Local Abbreviation get_model_info :=
  (ModelInfo.get_model_info Handle str MODEL_PATH type_name
     feature_importances_ feature_names_in_).
Local Abbreviation serve_all :=
  (ModelInfo.serve_all Handle model_predict strptime str MODEL_PATH
     type_name feature_importances_ feature_names_in_).
Local Abbreviation respond_with :=
  (ModelInfo.respond_with Handle model_predict strptime str type_name
     feature_importances_ feature_names_in_).

(** X3: in every feature vector the flags [is_night] and [is_rush_hour]
    are 0 or 1 and never both 1; the hours 6 and 11 to 15 set neither. *)
Theorem night_and_rush_hour_exclusive :
  forall (trip : TripFeatures.t F) (fv : FeatureVector.t F),
    prepare_features trip = Ok fv ->
    (FeatureVector.is_night fv = 0 \/ FeatureVector.is_night fv = 1)
    /\ (FeatureVector.is_rush_hour fv = 0
        \/ FeatureVector.is_rush_hour fv = 1)
    /\ FeatureVector.is_night fv + FeatureVector.is_rush_hour fv <= 1
    /\ (FeatureVector.hour fv = 6 \/ 11 <= FeatureVector.hour fv <= 15 ->
        FeatureVector.is_night fv = 0 /\ FeatureVector.is_rush_hour fv = 0).
Proof.
  intros trip fv. unfold Predictions.prepare_features.
  destruct (strptime _ _) as [dt|e]; cbn [Py.bind]; [|discriminate].
  intros [= <-]. cbn.
  set (hour := Datetime.hour dt).
  destruct (((20 <=? hour) && (hour <=? 23)) || ((0 <=? hour) && (hour <? 6)))
    eqn:En;
    destruct (((7 <=? hour) && (hour <=? 10))
              || ((16 <=? hour) && (hour <=? 19))) eqn:Er;
    rewrite ?orb_true_iff, ?orb_false_iff, ?andb_true_iff, ?andb_false_iff,
      ?Z.leb_le, ?Z.ltb_lt, ?Z.leb_gt, ?Z.ltb_ge in En, Er;
    repeat split; intros; lia.
Qed.

(** X4: a timestamp that [strptime] refuses is answered 422, a client
    error, with the message of the exception; the model is loaded all the
    same and stays in the state. *)
Theorem unparseable_timestamp_is_422 :
  forall (fs : disk Handle) (trip : TripFeatures.t F) (s : state Handle)
         (model : Handle) (e : exn),
    fst (load_model fs s) = Some model ->
    strptime (TripFeatures.pickup_datetime trip) fmt = Raise e ->
    predict_trip_duration fs trip s
    = (Raise (HTTPException 422 ("Error processing prediction: " ++ str e)),
       snd (load_model fs s))
    /\ _model (snd (load_model fs s)) = Some model
    /\ client_error 422 = true.
Proof.
  intros fs trip s model e Hload Hparse.
  unfold Predictions.predict_trip_duration.
  destruct (load_model fs s) as [m s1] eqn:Hl. cbn in Hload. subst m.
  split; [|split; [|reflexivity]].
  - cbn. unfold Predictions.predict_body, Predictions.prepare_features.
    rewrite Hparse. reflexivity.
  - cbn. exact (load_model_handle Handle MODEL_PATH fs s s1 model Hl).
Qed.

(** Requests served while the artifact cannot be loaded. *)
Lemma serve_without_artifact
    (reqs : list (disk Handle * TripFeatures.t F)) (s : state Handle) :
  _model s = None ->
  Forall (fun req => exists e, fst req MODEL_PATH = Raise e) reqs ->
  serve reqs s
  = (map (fun _ =>
            Raise (HTTPException 503 "Prediction model is not available"))
         reqs,
     mk_state None
       (joblib_loads s ++ map (fun _ => MODEL_PATH) reqs)%list).
Proof.
  intros Hm Hall. revert s Hm.
  induction Hall as [|[fs trip] reqs [e He] _ IH]; intros s Hm.
  - cbn. rewrite app_nil_r. destruct s; cbn in *; subst; reflexivity.
  - cbn [Predictions.serve]. unfold Predictions.predict_trip_duration.
    cbn in He.
    rewrite (load_model_failed Handle MODEL_PATH fs s e Hm He).
    rewrite IH by reflexivity. cbn. rewrite <- app_assoc. reflexivity.
Qed.

(** X5: while the artifact cannot be loaded, every request is answered 503
    and every request tries the load again: after [n] such requests on a
    fresh process the load log has [n] entries and no handle is stored. *)
Theorem missing_artifact_is_503_and_retried :
  forall reqs : list (disk Handle * TripFeatures.t F),
    Forall (fun req => exists e, fst req MODEL_PATH = Raise e) reqs ->
    fst (serve reqs initial)
    = map (fun _ =>
             Raise (HTTPException 503 "Prediction model is not available"))
          reqs
    /\ _model (snd (serve reqs initial)) = None
    /\ List.length (joblib_loads (snd (serve reqs initial)))
       = List.length reqs
    /\ server_error 503 = true.
Proof.
  intros reqs Hall.
  rewrite (serve_without_artifact reqs initial eq_refl Hall). cbn.
  repeat split. apply length_map.
Qed.

Lemma serve_app (xs ys : list (disk Handle * TripFeatures.t F))
    (s : state Handle) :
  serve (xs ++ ys)%list s
  = ((fst (serve xs s) ++ fst (serve ys (snd (serve xs s))))%list,
     snd (serve ys (snd (serve xs s)))).
Proof.
  revert s. induction xs as [|[fs trip] xs IH]; intros s.
  - cbn. destruct (serve ys s); reflexivity.
  - cbn [Predictions.serve app].
    destruct (predict_trip_duration fs trip s) as [r s1].
    rewrite IH. destruct (serve xs s1) as [rs s2]. reflexivity.
Qed.

Lemma serve_first_load
    (fs : disk Handle) (trip : TripFeatures.t F)
    (later : list (disk Handle * TripFeatures.t F))
    (s : state Handle) (model : Handle) :
  _model s = None ->
  fs MODEL_PATH = Ok model ->
  serve ((fs, trip) :: later) s
  = (map (fun req =>
            answer_with Handle model_predict strptime str model (snd req))
         ((fs, trip) :: later),
     mk_state (Some model) (joblib_loads s ++ [MODEL_PATH])%list).
Proof.
  intros Hm Hfs. cbn [Predictions.serve map snd].
  unfold Predictions.predict_trip_duration, Predictions.load_model.
  rewrite Hm, Hfs.
  rewrite (serve_loaded Handle model_predict strptime str MODEL_PATH later
             (mk_state (Some model) (joblib_loads s ++ [MODEL_PATH])%list)
             model eq_refl).
  reflexivity.
Qed.

(** X6: a process recovers from a missing artifact: after any number of
    requests that could not load it, the first request that finds it loads
    it once, and from then on every request is served with that handle and
    the load log stops growing. *)
Theorem service_recovers_when_artifact_appears :
  forall (failed later : list (disk Handle * TripFeatures.t F))
         (fs : disk Handle) (trip : TripFeatures.t F) (model : Handle),
    Forall (fun req => exists e, fst req MODEL_PATH = Raise e) failed ->
    fs MODEL_PATH = Ok model ->
    serve (failed ++ (fs, trip) :: later)%list initial
    = ((map (fun _ =>
               Raise (HTTPException 503 "Prediction model is not available"))
            failed
        ++ map (fun req =>
                  answer_with Handle model_predict strptime str model
                    (snd req))
               ((fs, trip) :: later))%list,
       mk_state (Some model)
         (map (fun _ => MODEL_PATH) failed ++ [MODEL_PATH])%list).
Proof.
  intros failed later fs trip model Hall Hfs.
  rewrite serve_app.
  rewrite (serve_without_artifact failed initial eq_refl Hall). cbn [fst snd].
  rewrite (serve_first_load fs trip later
             (mk_state None
                (joblib_loads initial ++ map (fun _ => MODEL_PATH) failed)%list)
             model eq_refl Hfs).
  reflexivity.
Qed.

Lemma get_model_info_loaded (fs : disk Handle) (s : state Handle)
    (model : Handle) :
  _model s = Some model ->
  get_model_info fs s
  = (ModelInfo.info_with Handle str type_name feature_importances_
       feature_names_in_ model, s).
Proof.
  intros Hm. unfold ModelInfo.get_model_info.
  rewrite (load_model_loaded Handle MODEL_PATH fs s model Hm). reflexivity.
Qed.

Lemma serve_all_loaded
    (reqs : list (disk Handle * ModelInfo.request)) (s : state Handle)
    (model : Handle) :
  _model s = Some model ->
  serve_all reqs s = (map (fun req => respond_with model (snd req)) reqs, s).
Proof.
  intros Hm. induction reqs as [|[fs [trip|]] reqs IH];
    cbn [ModelInfo.serve_all ModelInfo.handle map snd].
  - reflexivity.
  - rewrite (predict_trip_duration_loaded Handle model_predict strptime str
               MODEL_PATH fs trip s model Hm), IH. reflexivity.
  - rewrite (get_model_info_loaded fs s model Hm), IH. reflexivity.
Qed.

(** X7: the prediction and the model-info endpoint share one handle:
    whichever is requested first loads the artifact, once, and every later
    request to either endpoint is answered with that handle without
    another load. *)
Theorem endpoints_share_the_handle :
  forall (fs0 : disk Handle) (req0 : ModelInfo.request)
         (later : list (disk Handle * ModelInfo.request)) (model : Handle),
    fs0 MODEL_PATH = Ok model ->
    serve_all ((fs0, req0) :: later) initial
    = (map (fun req => respond_with model (snd req)) ((fs0, req0) :: later),
       mk_state (Some model) [MODEL_PATH]).
Proof.
  intros fs0 req0 later model Hfs.
  cbn [ModelInfo.serve_all map snd].
  assert (Hfirst :
    ModelInfo.handle Handle model_predict strptime str MODEL_PATH type_name
      feature_importances_ feature_names_in_ fs0 req0 initial
    = (respond_with model req0, mk_state (Some model) [MODEL_PATH])).
  { destruct req0 as [trip|]; cbn [ModelInfo.handle ModelInfo.respond_with].
    - unfold Predictions.predict_trip_duration.
      rewrite (load_model_first_use Handle MODEL_PATH fs0 model Hfs).
      reflexivity.
    - unfold ModelInfo.get_model_info.
      rewrite (load_model_first_use Handle MODEL_PATH fs0 model Hfs).
      reflexivity. }
  rewrite Hfirst.
  rewrite (serve_all_loaded later (mk_state (Some model) [MODEL_PATH]) model
             eq_refl).
  reflexivity.
Qed.

(** X8: the names that model-info lists under [features_used] are the keys
    of the dict that [prepare_features] builds for any trip, in the same
    order: fourteen distinct names. *)
Theorem features_used_are_the_feature_keys :
  forall (model : Handle) (info : ModelInfo.t F) (fv : FeatureVector.t F),
    ModelInfo.model_info_body Handle type_name feature_importances_
      feature_names_in_ model = Ok info ->
    ModelInfo.features_used info = map fst (ModelInfo.features_dict fv)
    /\ List.length (ModelInfo.features_used info) = 14%nat
    /\ NoDup (ModelInfo.features_used info).
Proof.
  intros model info fv Hinfo.
  assert (Hused : ModelInfo.features_used info
                  = map fst (ModelInfo.features_dict fv)).
  { unfold ModelInfo.model_info_body in Hinfo.
    destruct (feature_importances_ model) as [importances|].
    - destruct (feature_names_in_ model) as [names|e]; cbn in Hinfo;
        [|discriminate]. injection Hinfo as <-. reflexivity.
    - injection Hinfo as <-. reflexivity. }
  rewrite Hused. cbn. split; [reflexivity|]. split; [reflexivity|].
  repeat (constructor;
          [cbn; intros Hin;
           repeat (destruct Hin as [Hin|Hin]; [discriminate Hin|]);
           exact Hin|]).
  constructor.
Qed.

End PredictionMore.

(* ----------------------------------------------------------------- *)
(** ** Route adapter: statuses, the first feature, required keys *)

Section RouteMore.
Context {F : Type} `{Float64 F}.
Variable directions : Routes.DirectionsCall.t F -> result (Json.pyval F).
Variable str : exn -> string.
Variable float_validator : Json.pyval F -> option F.
Variable str_validator : Json.pyval F -> option string.
Variable list_int_validator : Json.pyval F -> option (list Z).
Variable dict_validator
  : Json.pyval F -> option (list (string * Json.pyval F)).

Import Json Routes.

Local Abbreviation reshape_step :=
  (reshape_step float_validator str_validator list_int_validator).
Local Abbreviation reshape_leg :=
  (reshape_leg float_validator str_validator list_int_validator
     dict_validator).
Local Abbreviation format_response :=
  (format_response float_validator str_validator list_int_validator
     dict_validator).
Local Abbreviation get_optimized_route :=
  (get_optimized_route directions str float_validator str_validator
     list_int_validator dict_validator).

Lemma route_endpoint_outcome
    (ORS_API_KEY : option string) (route_request : RouteRequest.t F)
    (outbound : list (DirectionsCall.t F)) :
  (exists r,
      fst (get_optimized_route ORS_API_KEY route_request outbound) = Ok r)
  \/ (exists detail,
        fst (get_optimized_route ORS_API_KEY route_request outbound)
        = Raise (HTTPException 500 detail)).
Proof.
  unfold Routes.get_optimized_route.
  destruct (key_missing ORS_API_KEY); cbn [fst].
  - right; eexists; reflexivity.
  - destruct (directions (directions_call route_request)) as [route|e];
      cbn [Py.bind try_except].
    + destruct (format_response route) as [r|e]; cbn;
        [left | right]; eexists; reflexivity.
    + right; eexists; reflexivity.
Qed.

(** X9: whatever the key, the request and the provider do, the endpoint
    either returns a route or raises status 500: a missing key, a provider
    failure, a payload of the wrong shape and an empty feature list are not
    told apart by their status.  With a key it calls the provider exactly
    once, with the two points as [lng, lat] pairs. *)
Theorem route_endpoint_raises_only_500 :
  forall (ORS_API_KEY : option string) (route_request : RouteRequest.t F)
         (outbound : list (DirectionsCall.t F)),
    ((exists r,
        fst (get_optimized_route ORS_API_KEY route_request outbound) = Ok r)
     \/ (exists detail,
           fst (get_optimized_route ORS_API_KEY route_request outbound)
           = Raise (HTTPException 500 detail)))
    /\ (key_missing ORS_API_KEY = false ->
        exists call,
          snd (get_optimized_route ORS_API_KEY route_request outbound)
          = (outbound ++ [call])%list
          /\ DirectionsCall.coordinates call
             = [ [ Coordinate.lng (RouteRequest.start route_request);
                   Coordinate.lat (RouteRequest.start route_request) ];
                 [ Coordinate.lng (RouteRequest.end_ route_request);
                   Coordinate.lat (RouteRequest.end_ route_request) ] ]).
Proof.
  intros key req outbound.
  split; [apply route_endpoint_outcome|].
  intros Hkey. unfold Routes.get_optimized_route. rewrite Hkey. cbn [snd].
  eexists. split; reflexivity.
Qed.

(** X10: only the first feature counts: two provider answers whose feature
    lists start with the same feature give the same response, whatever
    follows it. *)
Theorem later_features_are_ignored :
  forall (route1 route2 feature : pyval F) (rest1 rest2 : list (pyval F)),
    getitem route1 (Key "features") = Ok (PList (feature :: rest1)) ->
    getitem route2 (Key "features") = Ok (PList (feature :: rest2)) ->
    format_response route1 = format_response route2.
Proof.
  intros route1 route2 feature rest1 rest2 H1 H2.
  unfold Routes.format_response. rewrite H1, H2. reflexivity.
Qed.

Lemma for_append_raises {A B} (f : A -> result B) (xs : list A) (x : A)
    (e : exn) :
  In x xs -> f x = Raise e -> exists e', for_append f xs = Raise e'.
Proof.
  intros Hin Hx. induction xs as [|y xs IH]; [contradiction|].
  cbn. destruct Hin as [-> | Hin].
  - rewrite Hx. eexists; reflexivity.
  - destruct (f y) as [b|e0]; cbn; [|eexists; reflexivity].
    destruct (IH Hin) as [e' ->]. eexists; reflexivity.
Qed.

Lemma reshape_step_needs_both (d : list (string * pyval F)) :
  lookup "distance" d = None \/ lookup "duration" d = None ->
  exists k, reshape_step (PDict d) = Raise (KeyError (Key k)).
Proof.
  intros Hmissing. unfold Routes.reshape_step. cbn [getitem].
  destruct (lookup "distance" d) as [vd|]; cbn [Py.bind].
  - destruct Hmissing as [Hd|Ht]; [discriminate|]. rewrite Ht.
    eexists; reflexivity.
  - eexists; reflexivity.
Qed.

(** X11: [distance] and [duration] have no default: one step without one
    of them, anywhere in the first feature, turns the whole request into a
    500, even though every other step is complete. *)
Theorem step_without_distance_fails_the_request :
  forall (ORS_API_KEY : option string) (route_request : RouteRequest.t F)
         (outbound : list (DirectionsCall.t F))
         (route leg : pyval F) (legs items : list (pyval F))
         (d : list (string * pyval F)),
    key_missing ORS_API_KEY = false ->
    directions (directions_call route_request) = Ok route ->
    route_legs route = Ok legs ->
    In leg legs ->
    leg_steps leg = Ok items ->
    In (PDict d) items ->
    lookup "distance" d = None \/ lookup "duration" d = None ->
    exists detail,
      fst (get_optimized_route ORS_API_KEY route_request outbound)
      = Raise (HTTPException 500 detail).
Proof.
  intros key req outbound route leg legs items d Hkey Hdir Hlegs Hleg Hitems
    Hstep Hmissing.
  destruct (route_endpoint_outcome key req outbound) as [[r Hr]|Hraise];
    [|exact Hraise].
  exfalso. revert Hr. unfold Routes.get_optimized_route.
  rewrite Hkey, Hdir. cbn [fst Py.bind].
  assert (Hfail : exists e, format_response route = Raise e).
  { destruct (reshape_step_needs_both d Hmissing) as [k Hk].
    destruct (for_append_raises reshape_step items (PDict d) _ Hstep Hk)
      as [e1 He1].
    assert (Hlegfail : exists e, reshape_leg leg = Raise e).
    { unfold Routes.reshape_leg. unfold leg_steps in Hitems.
      destruct (getitem leg (Key "steps")) as [v|e0]; cbn [Py.bind] in *;
        [|discriminate].
      rewrite Hitems. cbn [Py.bind]. rewrite He1. eexists; reflexivity. }
    destruct Hlegfail as [e2 He2].
    destruct (for_append_raises reshape_leg legs leg _ Hleg He2) as [e3 He3].
    unfold Routes.format_response. unfold route_legs in Hlegs.
    destruct (getitem route (Key "features")) as [features|e0];
      cbn [Py.bind] in *; [|discriminate].
    destruct (truthy features); [|eexists; reflexivity].
    cbn [Py.bind].
    destruct (getitem features (Idx 0)) as [feature|e0];
      cbn [Py.bind] in *; [|discriminate].
    destruct (getitem feature (Key "properties")) as [properties|e0];
      cbn [Py.bind] in *; [|discriminate].
    destruct (getitem properties (Key "segments")) as [legsv|e0];
      cbn [Py.bind] in *; [|discriminate].
    rewrite Hlegs. cbn [Py.bind]. rewrite He3. eexists; reflexivity. }
  destruct Hfail as [e ->]. cbn. discriminate.
Qed.

End RouteMore.

(* ----------------------------------------------------------------- *)
(** ** Geocoding endpoint *)

Section GeocodeProps.
Context {F : Type} `{Float64 F}.
Variable pelias_search : Geocode.PeliasCall.t F -> result (Json.pyval F).
Variable str : exn -> string.

Import Json Geocode.

Local Abbreviation geocode := (geocode pelias_search str).

Lemma for_collect_spec {A B} (f : A -> result (option B)) (xs : list A)
    (ys : list B) :
  for_collect f xs = Ok ys ->
  exists outcomes,
    Forall2 (fun x o => f x = Ok o) xs outcomes /\ ys = kept outcomes.
Proof.
  revert ys. induction xs as [|x xs IH]; intros ys Hrun; cbn in Hrun.
  - injection Hrun as <-. exists []. split; [constructor | reflexivity].
  - destruct (f x) as [o|e] eqn:Hx; cbn [Py.bind] in Hrun; [|discriminate].
    destruct (for_collect f xs) as [zs|e]; cbn [Py.bind] in Hrun;
      [|discriminate].
    injection Hrun as <-.
    destruct (IH zs eq_refl) as (os & Hall & ->).
    exists (o :: os). split; [constructor; assumption|].
    destruct o; reflexivity.
Qed.

Lemma for_collect_raises {A B} (f : A -> result (option B)) (xs : list A)
    (x : A) (e : exn) :
  In x xs -> f x = Raise e -> exists e', for_collect f xs = Raise e'.
Proof.
  intros Hin Hx. induction xs as [|y xs IH]; [contradiction|].
  cbn. destruct Hin as [-> | Hin].
  - rewrite Hx. eexists; reflexivity.
  - destruct (f y) as [b|e0]; cbn; [|eexists; reflexivity].
    destruct (IH Hin) as [e' ->]. eexists; reflexivity.
Qed.

Lemma kept_length {A} (outcomes : list (option A)) :
  (List.length (kept outcomes) <= List.length outcomes)%nat.
Proof.
  unfold kept. induction outcomes as [|[a|] os IH]; cbn; lia.
Qed.

Lemma list_index_1 {A} (a b : A) (l : list A) :
  list_index (a :: b :: l) 1 = Some b.
Proof.
  unfold list_index. cbn [List.length].
  replace (1 <? 0) with false by reflexivity.
  replace ((0 <=? 1) && (1 <? Z.of_nat (S (S (List.length l))))) with true.
  - reflexivity.
  - symmetry. apply andb_true_iff. split; [reflexivity|].
    apply Z.ltb_lt. lia.
Qed.

Lemma geocode_outcome (ORS_API_KEY : option string) (query : string)
    (outbound : list (PeliasCall.t F)) :
  (exists out, fst (geocode ORS_API_KEY query outbound) = Ok out)
  \/ (exists detail,
        fst (geocode ORS_API_KEY query outbound)
        = Raise (HTTPException 500 detail)).
Proof.
  unfold Geocode.geocode.
  destruct (Routes.key_missing ORS_API_KEY); cbn [fst].
  - right; eexists; reflexivity.
  - destruct (pelias_search (pelias_call query)) as [result_|e];
      cbn [Py.bind try_except].
    + destruct (format_results result_) as [r|e]; cbn;
        [left | right]; eexists; reflexivity.
    + right; eexists; reflexivity.
Qed.

(** X12: the geocoding endpoint raises no status but 500; without a key
    it answers "not configured" and sends nothing; with a key it sends
    exactly one search, for the query as given. *)
Theorem geocode_calls_and_statuses :
  forall (ORS_API_KEY : option string) (query : string)
         (outbound : list (PeliasCall.t F)),
    ((exists out, fst (geocode ORS_API_KEY query outbound) = Ok out)
     \/ (exists detail,
           fst (geocode ORS_API_KEY query outbound)
           = Raise (HTTPException 500 detail)))
    /\ (Routes.key_missing ORS_API_KEY = true ->
        geocode ORS_API_KEY query outbound
        = (Raise (HTTPException 500
                    "OpenRouteService API key not configured"),
           outbound))
    /\ (Routes.key_missing ORS_API_KEY = false ->
        exists call,
          snd (geocode ORS_API_KEY query outbound) = (outbound ++ [call])%list
          /\ PeliasCall.text call = query).
Proof.
  intros key query outbound.
  split; [apply geocode_outcome|].
  unfold Geocode.geocode.
  split; intros Hkey; rewrite Hkey; [reflexivity|].
  cbn [snd]. eexists. split; reflexivity.
Qed.

(** X13: a search answer that is a dict without the key [features], or
    with an empty list under it, gives an empty result list and no error
    (the route endpoint answers 500 to both). *)
Theorem geocode_without_features_is_empty :
  forall (ORS_API_KEY : option string) (query : string)
         (outbound : list (PeliasCall.t F)) (d : list (string * pyval F)),
    Routes.key_missing ORS_API_KEY = false ->
    pelias_search (pelias_call query) = Ok (PDict d) ->
    lookup "features" d = None \/ lookup "features" d = Some (PList []) ->
    fst (geocode ORS_API_KEY query outbound)
    = Ok (PDict [("results", PList [])]).
Proof.
  intros key query outbound d Hkey Hsearch Hfeatures.
  unfold Geocode.geocode. rewrite Hkey, Hsearch. cbn [fst Py.bind].
  unfold format_results. cbn [get].
  destruct Hfeatures as [-> | ->]; reflexivity.
Qed.

(** X14: a feature without [geometry], or whose geometry has no
    [coordinates], is skipped in silence; a feature whose coordinates
    start with two items gives the entry [{name, coordinates: {lng, lat},
    type}] with the first item as [lng] and the second as [lat]; and every
    answer of the endpoint lists, in the order of the provider, the
    entries of the features that were kept. *)
Theorem geocode_keeps_features_with_coordinates :
  (forall d : list (string * pyval F),
      lookup "geometry" d = None
      \/ (exists g, lookup "geometry" d = Some (PDict g)
                    /\ lookup "coordinates" g = None) ->
      geocode_feature (PDict d) = Ok None)
  /\ (forall (d g : list (string * pyval F)) (lng lat : pyval F)
             (more : list (pyval F)),
        lookup "geometry" d = Some (PDict g) ->
        lookup "coordinates" g = Some (PList (lng :: lat :: more)) ->
        (lookup "properties" d = None
         \/ exists p, lookup "properties" d = Some (PDict p)) ->
        geocode_feature (PDict d)
        = Ok (Some (PDict
                [("name", property_or_empty d "label");
                 ("coordinates", PDict [("lng", lng); ("lat", lat)]);
                 ("type", property_or_empty d "layer")])))
  /\ (forall (ORS_API_KEY : option string) (query : string)
             (outbound : list (PeliasCall.t F)) (out : pyval F),
        fst (geocode ORS_API_KEY query outbound) = Ok out ->
        exists result_ features outcomes,
          pelias_search (pelias_call query) = Ok result_
          /\ found_features result_ = Ok features
          /\ Forall2 (fun feature o => geocode_feature feature = Ok o)
                     features outcomes
          /\ out = PDict [("results", PList (kept outcomes))]
          /\ (List.length (kept outcomes) <= List.length features)%nat).
Proof.
  split; [|split].
  - intros d [Hg | (g & Hg & Hc)]; unfold geocode_feature; cbn [get];
      rewrite Hg; cbn; [reflexivity|]. rewrite Hc. reflexivity.
  - intros d g lng lat more Hg Hc Hp.
    unfold geocode_feature, property_or_empty. cbn [get getitem].
    assert (H0 : list_index (lng :: lat :: more) 0 = Some lng)
      by reflexivity.
    destruct Hp as [Hp | [p Hp]]; rewrite Hp;
      repeat (cbn [Py.bind get getitem contains];
              rewrite ?Hg, ?Hc, ?Hp, ?H0, ?list_index_1);
      [reflexivity|].
    destruct (lookup "label" p); destruct (lookup "layer" p); reflexivity.
  - intros key query outbound out Hrun.
    unfold Geocode.geocode in Hrun.
    destruct (Routes.key_missing key); [discriminate Hrun|].
    cbn [fst] in Hrun.
    destruct (pelias_search (pelias_call query)) as [result_|e] eqn:Hsearch;
      [|discriminate Hrun].
    cbn [Py.bind] in Hrun.
    destruct (format_results result_) as [out'|e] eqn:Hfmt;
      [|discriminate Hrun].
    cbn in Hrun. injection Hrun as <-.
    unfold format_results in Hfmt. unfold found_features.
    destruct (get result_ "features" (PList [])) as [found|e] eqn:Hget;
      cbn [Py.bind] in *; [|discriminate].
    destruct (iter found) as [items|e] eqn:Hiter; cbn [Py.bind] in *;
      [|discriminate].
    destruct (for_collect geocode_feature items) as [entries|e] eqn:Hcollect;
      cbn [Py.bind] in *; [|discriminate].
    injection Hfmt as <-.
    destruct (for_collect_spec _ _ _ Hcollect) as (outcomes & Hall & ->).
    exists result_, items, outcomes.
    split; [reflexivity|].
    split; [rewrite Hget; cbn [Py.bind]; exact Hiter|].
    split; [exact Hall|]. split; [reflexivity|].
    rewrite (Forall2_length Hall). apply kept_length.
Qed.

(** X15: a feature whose [coordinates] is a list of fewer than two items
    is not skipped: it makes the whole search fail with a 500, whatever
    the other features are. *)
Theorem short_coordinates_fail_the_search :
  forall (ORS_API_KEY : option string) (query : string)
         (outbound : list (PeliasCall.t F))
         (result_ : pyval F) (features : list (pyval F))
         (d g : list (string * pyval F)) (coordinates : list (pyval F)),
    Routes.key_missing ORS_API_KEY = false ->
    pelias_search (pelias_call query) = Ok result_ ->
    found_features result_ = Ok features ->
    In (PDict d) features ->
    lookup "geometry" d = Some (PDict g) ->
    lookup "coordinates" g = Some (PList coordinates) ->
    (List.length coordinates < 2)%nat ->
    exists detail,
      fst (geocode ORS_API_KEY query outbound)
      = Raise (HTTPException 500 detail).
Proof.
  intros key query outbound result_ features d g coordinates
    Hkey Hsearch Hfound Hin Hg Hc Hshort.
  assert (Hfeature : exists e, geocode_feature (PDict d) = Raise e).
  { unfold geocode_feature. cbn [get getitem].
    rewrite Hg. cbn. rewrite Hc. cbn.
    destruct (lookup "properties" d) as [properties|]; cbn.
    - destruct (get properties "label" (PStr "")) as [name|e]; cbn;
        [|eexists; reflexivity].
      destruct coordinates as [|c0 [|c1 cs]]; cbn in *;
        try (eexists; reflexivity). lia.
    - destruct coordinates as [|c0 [|c1 cs]]; cbn in *;
        try (eexists; reflexivity). lia. }
  destruct Hfeature as [e He].
  destruct (for_collect_raises geocode_feature features (PDict d) e Hin He)
    as [e' He'].
  unfold Geocode.geocode. rewrite Hkey, Hsearch. cbn [fst Py.bind].
  unfold format_results. unfold found_features in Hfound.
  destruct (get result_ "features" (PList [])) as [found|e0];
    cbn [Py.bind] in *; [|discriminate].
  rewrite Hfound. cbn [Py.bind]. rewrite He'. cbn. eexists; reflexivity.
Qed.

End GeocodeProps.

(* ----------------------------------------------------------------- *)
(** ** Utilities: coordinates, durations *)

Section CoordinatesIeee.
Local Open Scope float_scope.
Variables radians sin cos arcsin : float -> float.
Variable format_float : float -> string.

Local Abbreviation validate_coordinates :=
  (@Utils.validate_coordinates float (Float64_ieee radians sin cos arcsin)
     format_float).

(** A value between two finite values is finite: neither NaN nor an
    infinity passes both comparisons. *)
Lemma between_finite_is_finite (lo hi x : float) :
  is_finite lo = true -> is_finite hi = true ->
  (lo <=? x) = true -> (x <=? hi) = true ->
  is_finite x = true.
Proof.
  intros Hlo Hhi. rewrite !leb_spec.
  destruct (Ieee.is_finite_SF lo Hlo) as [[sl ->]|(sl & ml & el & ->)];
    destruct (Ieee.is_finite_SF hi Hhi) as [[sh ->]|(sh & mh & eh & ->)];
    unfold is_finite, is_nan, is_infinity;
    rewrite !eqb_spec, abs_spec;
    change (Prim2SF infinity) with (S754_infinity false);
    destruct (Prim2SF x) as [s|s| |s m e]; cbn;
    try discriminate; try reflexivity;
    try (destruct s; cbn; try discriminate;
         try (destruct sl; discriminate); try (destruct sh; discriminate));
    intros _ _.
  all: try reflexivity.
  all: rewrite Z.compare_refl, Pos.compare_cont_refl; reflexivity.
Qed.

(** X16: in binary64 arithmetic, a pair that [validate_coordinates]
    accepts has two finite coordinates: NaN and the infinities are answered
    400 like any value out of range. *)
Theorem accepted_coordinates_are_finite :
  forall lat lng : float,
    (validate_coordinates lat lng = Ok tt ->
     is_finite lat = true /\ is_finite lng = true)
    /\ (is_finite lat = false \/ is_finite lng = false ->
        exists detail,
          validate_coordinates lat lng = Raise (HTTPException 400 detail)).
Proof.
  intros lat lng.
  assert (Hok : validate_coordinates lat lng = Ok tt ->
                is_finite lat = true /\ is_finite lng = true).
  { unfold Utils.validate_coordinates. cbn [fle of_Z Float64_ieee].
    destruct ((float_of_Z (-90) <=? lat)) eqn:H1; cbn [andb negb];
      [|intros Hv; discriminate Hv].
    destruct (lat <=? float_of_Z 90) eqn:H2; cbn [andb negb];
      [|intros Hv; discriminate Hv].
    destruct ((float_of_Z (-180) <=? lng)) eqn:H3; cbn [andb negb];
      [|intros Hv; discriminate Hv].
    destruct (lng <=? float_of_Z 180) eqn:H4; cbn [andb negb];
      [|intros Hv; discriminate Hv].
    intros _. split.
    - exact (between_finite_is_finite (float_of_Z (-90)) (float_of_Z 90)
               lat eq_refl eq_refl H1 H2).
    - exact (between_finite_is_finite (float_of_Z (-180)) (float_of_Z 180)
               lng eq_refl eq_refl H3 H4). }
  split; [exact Hok|].
  intros Hinf.
  destruct (validate_coordinates lat lng) as [[]|e] eqn:Hv.
  - destruct (Hok eq_refl) as [Hlat Hlng].
    destruct Hinf as [Hinf|Hinf]; congruence.
  - revert Hv. unfold Utils.validate_coordinates.
    destruct (negb _); [intros [= <-]; eexists; reflexivity|].
    destruct (negb _); [intros [= <-]; eexists; reflexivity|].
    discriminate.
Qed.

End CoordinatesIeee.

Section DurationProps.
Import PyFormat UtilsFormat.

Lemma divmod_hours (seconds : Z) :
  seconds / 60 / 60 = seconds / 3600
  /\ 0 <= (seconds / 60) mod 60 < 60
  /\ 0 <= seconds mod 60 < 60
  /\ seconds = 3600 * (seconds / 3600) + 60 * ((seconds / 60) mod 60)
               + seconds mod 60.
Proof.
  assert (H1 : seconds / 60 / 60 = seconds / 3600)
    by (rewrite Z.div_div by lia; reflexivity).
  pose proof (Z.mod_pos_bound (seconds / 60) 60 ltac:(lia)).
  pose proof (Z.mod_pos_bound seconds 60 ltac:(lia)).
  pose proof (Z.div_mod seconds 60 ltac:(lia)).
  pose proof (Z.div_mod (seconds / 60) 60 ltac:(lia)).
  repeat split; try lia.
Qed.

(** X17: for a whole number of seconds that is not negative,
    [format_duration] shows seconds alone below a minute, minutes and
    seconds below an hour, and hours and minutes from an hour on: the
    seconds are dropped there, so that all the durations of one minute
    read the same. *)
Theorem format_duration_by_magnitude :
  forall seconds : Z,
    (0 <= seconds < 60 ->
     format_duration seconds = str_int seconds ++ "s")
    /\ (60 <= seconds < 3600 ->
        format_duration seconds
        = str_int (seconds / 60) ++ "m " ++ str_int (seconds mod 60) ++ "s")
    /\ (3600 <= seconds ->
        format_duration seconds
        = str_int (seconds / 3600) ++ "h "
          ++ str_int ((seconds / 60) mod 60) ++ "m"
        /\ format_duration seconds
           = format_duration (seconds - seconds mod 60)).
Proof.
  intros seconds.
  destruct (divmod_hours seconds) as (Hh & Hm & Hs & Hsum).
  unfold format_duration, divmod. rewrite Hh.
  split; [|split]; intros Hrange.
  - replace (seconds / 3600) with 0 by (symmetry; apply Z.div_small; lia).
    replace (seconds / 60) with 0 by (symmetry; apply Z.div_small; lia).
    cbn. rewrite Z.mod_small by lia. reflexivity.
  - replace (seconds / 3600) with 0 by (symmetry; apply Z.div_small; lia).
    assert (0 < seconds / 60 < 60).
    { split; [apply Z.div_str_pos; lia | apply Z.div_lt_upper_bound; lia]. }
    rewrite (Z.mod_small (seconds / 60)) by lia.
    cbn [Z.ltb Z.compare]. destruct (0 <? seconds / 60) eqn:E;
      [reflexivity | apply Z.ltb_ge in E; lia].
  - assert (0 < seconds / 3600) by (apply Z.div_str_pos; lia).
    destruct (0 <? seconds / 3600) eqn:E; [|apply Z.ltb_ge in E; lia].
    split; [reflexivity|].
    destruct (divmod_hours (seconds - seconds mod 60))
      as (Hh' & _ & _ & _).
    rewrite Hh'.
    assert (Hdiv : (seconds - seconds mod 60) / 60 = seconds / 60).
    { pose proof (Z.div_mod seconds 60 ltac:(lia)).
      replace (seconds - seconds mod 60) with (seconds / 60 * 60) by lia.
      apply Z.div_mul. lia. }
    assert (Hdiv' : (seconds - seconds mod 60) / 3600 = seconds / 3600).
    { rewrite <- !Z.div_div with (b := 60) (c := 60) by lia.
      rewrite Hdiv. reflexivity. }
    rewrite Hdiv, Hdiv', E. reflexivity.
Qed.

(** X18: a negative whole number of seconds is not shown as negative: it
    is formatted as its remainder modulo one hour, never with an hour
    part. *)
Theorem format_duration_negative_wraps :
  forall seconds : Z,
    seconds < 0 ->
    format_duration seconds = format_duration (seconds mod 3600)
    /\ 0 <= seconds mod 3600 < 3600.
Proof.
  intros seconds Hneg.
  pose proof (Z.mod_pos_bound seconds 3600 ltac:(lia)) as Hbound.
  split; [|exact Hbound].
  destruct (divmod_hours seconds) as (Hh & Hm & Hs & Hsum).
  destruct (divmod_hours (seconds mod 3600)) as (Hh' & Hm' & Hs' & Hsum').
  assert (Ht : seconds mod 3600
               = 60 * ((seconds / 60) mod 60) + seconds mod 60).
  { pose proof (Z.div_mod seconds 3600 ltac:(lia)). lia. }
  assert (Htd : seconds mod 3600 / 60 = (seconds / 60) mod 60).
  { rewrite Ht. rewrite Z.add_comm, Z.mul_comm, Z.div_add by lia.
    rewrite (Z.div_small (seconds mod 60)) by lia. lia. }
  assert (Htm : (seconds mod 3600) mod 60 = seconds mod 60).
  { rewrite Ht. rewrite Z.add_comm, Z.mul_comm, Z.mod_add by lia.
    apply Z.mod_small. lia. }
  unfold format_duration, divmod.
  rewrite Hh, Hh', Htd, Htm.
  rewrite (Z.mod_small ((seconds / 60) mod 60)) by lia.
  replace (seconds mod 3600 / 3600) with 0
    by (symmetry; apply Z.div_small; lia).
  destruct (0 <? seconds / 3600) eqn:E.
  - apply Z.ltb_lt in E. nia.
  - reflexivity.
Qed.

End DurationProps.

(* ----------------------------------------------------------------- *)
(** ** Rate limiter *)

Section RateLimiterProps.
Context {F : Type} `{Float64 F}.
Variable flt : F -> F -> bool.

Import RateLimiter.

Local Abbreviation is_allowed := (is_allowed flt).
Local Abbreviation run := (run flt).
Local Abbreviation recent := (recent flt).

(** What one call does: it prunes the entries of its client, answers by
    the number left, and records the time only when it allows. *)
Lemma is_allowed_spec (now : F) (client : string) (self : t) :
  let kept := filter (recent self now) (entries_of self client) in
  let allowed := Z.of_nat (List.length kept) <? requests self in
  fst (is_allowed now client self) = allowed
  /\ entries_of (snd (is_allowed now client self)) client
     = (if allowed then kept ++ [now] else kept)%list
  /\ (forall c, c <> client ->
        entries_of (snd (is_allowed now client self)) c = entries_of self c)
  /\ requests (snd (is_allowed now client self)) = requests self
  /\ window (snd (is_allowed now client self)) = window self.
Proof.
  cbn zeta. unfold RateLimiter.is_allowed, entries_of.
  assert (Hentries :
    match
      match requests_log self client with
      | Some _ => requests_log self
      | None => set_log (requests_log self) client []
      end client
    with
    | Some l => l
    | None => []
    end
    = match requests_log self client with Some l => l | None => [] end).
  { destruct (requests_log self client) as [l|] eqn:Hl.
    - rewrite Hl. reflexivity.
    - unfold set_log. rewrite String.eqb_refl. reflexivity. }
  rewrite Hentries.
  set (kept := filter _ _).
  destruct (Z.of_nat (List.length kept) <? requests self); cbn;
    unfold set_log; rewrite ?String.eqb_refl;
    (repeat split; try reflexivity;
     intros c Hc; apply String.eqb_neq in Hc; rewrite ?Hc;
     destruct (requests_log self client); [reflexivity|];
     rewrite ?Hc; reflexivity).
Qed.

Lemma filter_length_le {A} (f : A -> bool) (l : list A) :
  (List.length (filter f l) <= List.length l)%nat.
Proof.
  induction l as [|a l IH]; cbn; [lia|]. destruct (f a); cbn; lia.
Qed.

Lemma is_allowed_bound (now : F) (client : string) (self : t) :
  (forall c,
      Z.of_nat (List.length (entries_of self c)) <= Z.max 0 (requests self)) ->
  forall c,
    Z.of_nat (List.length (entries_of (snd (is_allowed now client self)) c))
    <= Z.max 0 (requests (snd (is_allowed now client self))).
Proof.
  intros Hinv c.
  destruct (is_allowed_spec now client self) as (_ & Hsame & Hother & Hr & _).
  rewrite Hr.
  destruct (String.eqb_spec c client) as [->|Hc].
  - rewrite Hsame.
    pose proof (filter_length_le (recent self now) (entries_of self client)).
    specialize (Hinv client).
    destruct (Z.of_nat _ <? requests self) eqn:E.
    + apply Z.ltb_lt in E. rewrite length_app. cbn. lia.
    + lia.
  - rewrite (Hother c Hc). apply Hinv.
Qed.

(** X19: a limiter never keeps more than [requests] times for a client:
    after any sequence of calls on a new limiter, every client has at most
    [max(0, requests)] recorded times, and the two settings are unchanged. *)
Theorem rate_limiter_log_is_bounded :
  forall (max_requests window_ : Z) (calls : list (F * string))
         (client : string),
    let self := snd (run calls (__init__ max_requests window_)) in
    Z.of_nat (List.length (entries_of self client)) <= Z.max 0 max_requests
    /\ requests self = max_requests
    /\ window self = window_.
Proof.
  intros max_requests window_ calls client.
  assert (Hgen : forall self,
    (forall c, Z.of_nat (List.length (entries_of self c))
               <= Z.max 0 (requests self)) ->
    (forall c, Z.of_nat (List.length (entries_of (snd (run calls self)) c))
               <= Z.max 0 (requests (snd (run calls self))))
    /\ requests (snd (run calls self)) = requests self
    /\ window (snd (run calls self)) = window self).
  { induction calls as [|[now c0] calls IH]; intros self Hinv.
    - cbn. auto.
    - cbn [RateLimiter.run].
      destruct (is_allowed_spec now c0 self) as (_ & _ & _ & Hr & Hw).
      pose proof (is_allowed_bound now c0 self Hinv) as Hinv'.
      destruct (is_allowed now c0 self) as [b self1]. cbn [snd] in *.
      destruct (IH self1 Hinv') as (Hb & Hr' & Hw').
      destruct (run calls self1) as [bs self2]. cbn [snd] in *.
      split; [exact Hb|]. split; congruence. }
  cbn zeta.
  destruct (Hgen (__init__ max_requests window_)) as (Hb & Hr & Hw).
  { intros c. cbn. lia. }
  cbn in Hr, Hw. split; [|split; assumption].
  specialize (Hb client). rewrite Hr in Hb. exact Hb.
Qed.

(** Limiters that agree on a client treat that client alike. *)
Lemma is_allowed_agree (now : F) (client : string) (s1 s2 : t) :
  agree client s1 s2 ->
  fst (is_allowed now client s1) = fst (is_allowed now client s2)
  /\ agree client (snd (is_allowed now client s1))
                  (snd (is_allowed now client s2)).
Proof.
  intros (He & Hr & Hw).
  destruct (is_allowed_spec now client s1) as (Hb1 & Hs1 & _ & Hr1 & Hw1).
  destruct (is_allowed_spec now client s2) as (Hb2 & Hs2 & _ & Hr2 & Hw2).
  assert (Hrecent : recent s1 now = recent s2 now).
  { unfold RateLimiter.recent. rewrite Hw. reflexivity. }
  rewrite Hb1, Hb2, He, Hr, Hrecent. split; [reflexivity|].
  unfold agree. rewrite Hs1, Hs2, He, Hr, Hrecent, Hr1, Hr2, Hw1, Hw2.
  auto.
Qed.

Lemma is_allowed_other (now : F) (client other : string) (self : t) :
  other <> client ->
  agree client (snd (is_allowed now other self)) self.
Proof.
  intros Hneq.
  destruct (is_allowed_spec now other self) as (_ & _ & Hother & Hr & Hw).
  unfold agree. rewrite (Hother client) by congruence. auto.
Qed.

(** X20: clients are limited independently: the answers that a client
    gets in any interleaving of calls are the answers it would get if the
    calls of the other clients had not been made. *)
Theorem clients_are_limited_independently :
  forall (client : string) (calls : list (F * string)) (self : t),
    answers_to client calls (fst (run calls self))
    = fst (run (calls_of client calls) self).
Proof.
  intros client calls.
  assert (Hgen : forall s1 s2,
    agree client s1 s2 ->
    answers_to client calls (fst (run calls s1))
    = fst (run (calls_of client calls) s2)).
  { induction calls as [|[now c] calls IH]; intros s1 s2 Hagree.
    - reflexivity.
    - unfold answers_to, calls_of in *. cbn [RateLimiter.run filter snd].
      destruct (is_allowed now c s1) as [b1 s1'] eqn:H1.
      destruct (run calls s1') as [bs1 s1''] eqn:Hrun1.
      cbn [fst combine filter snd map].
      destruct (String.eqb_spec c client) as [->|Hc].
      + cbn [RateLimiter.run].
        destruct (is_allowed now client s2) as [b2 s2'] eqn:H2.
        destruct (is_allowed_agree now client s1 s2 Hagree) as [Hb Hagree'].
        rewrite H1, H2 in Hb, Hagree'. cbn [fst snd] in Hb, Hagree'.
        specialize (IH s1' s2' Hagree'). rewrite Hrun1 in IH. cbn [fst] in IH.
        destruct (run (filter _ calls) s2') as [bs2 s2'']. cbn [fst] in *.
        cbn [map snd]. rewrite Hb, IH. reflexivity.
      + assert (Hagree' : agree client s1' s2).
        { pose proof (is_allowed_other now client c s1 Hc) as Ho.
          rewrite H1 in Ho. cbn [snd] in Ho.
          destruct Ho as (He & Hr & Hw). destruct Hagree as (He' & Hr' & Hw').
          unfold agree. split; [|split]; congruence. }
        specialize (IH s1' s2 Hagree'). rewrite Hrun1 in IH. exact IH. }
  intros self. apply Hgen. unfold agree. auto.
Qed.

Lemma filter_all {A} (f : A -> bool) (l : list A) :
  Forall (fun a => f a = true) l -> filter f l = l.
Proof.
  induction 1 as [|a l Ha _ IH]; cbn; [reflexivity|].
  rewrite Ha, IH. reflexivity.
Qed.

Lemma filter_none {A} (f : A -> bool) (l : list A) :
  Forall (fun a => f a = false) l -> filter f l = [].
Proof.
  induction 1 as [|a l Ha _ IH]; cbn; [reflexivity|].
  rewrite Ha, IH. reflexivity.
Qed.

Lemma run_burst (client : string) (ts : list F) (self : t) :
  ForallOrdPairs
    (fun t1 t2 => flt (fsub t2 t1) (of_Z (window self)) = true) ts ->
  Forall (fun now =>
            Forall (fun t1 => flt (fsub now t1) (of_Z (window self)) = true)
                   (entries_of self client)) ts ->
  fst (run (map (fun now => (now, client)) ts) self)
  = map (fun i =>
           Z.of_nat (List.length (entries_of self client) + i) <? requests self)
        (seq 0 (List.length ts)).
Proof.
  revert self. induction ts as [|now ts IH]; intros self Hpairs Hold.
  - reflexivity.
  - cbn [map RateLimiter.run List.length seq].
    inversion Hpairs as [|? ? Hnow Hpairs']; subst.
    inversion Hold as [|? ? Hold_now Hold']; subst.
    destruct (is_allowed_spec now client self) as (Hb & Hs & _ & Hr & Hw).
    cbn zeta in Hb, Hs.
    rewrite (filter_all (recent self now) (entries_of self client)) in Hb, Hs
      by exact Hold_now.
    destruct (is_allowed now client self) as [b self1]. cbn [fst snd] in *.
    specialize (IH self1). rewrite Hw, Hr in IH.
    destruct (run (map _ ts) self1) as [bs self2]. cbn [fst] in *.
    rewrite Nat.add_0_r, <- Hb. f_equal.
    rewrite <- seq_shift, map_map. clear Hb.
    destruct (Z.of_nat (List.length (entries_of self client)) <? requests self)
      eqn:Hb.
    + rewrite Hs in IH. rewrite IH.
      * apply map_ext. intros i. rewrite length_app. cbn.
        do 2 f_equal. lia.
      * exact Hpairs'.
      * clear - Hnow Hold'. induction ts as [|t' ts IHts]; constructor.
        -- inversion Hnow; subst. inversion Hold'; subst.
           apply Forall_app. split; [assumption|]. constructor; auto.
        -- inversion Hnow; subst. inversion Hold'; subst. auto.
    + rewrite Hs in IH. rewrite IH by assumption.
      apply Z.ltb_ge in Hb.
      apply map_ext. intros i.
      transitivity false; [|symmetry]; apply Z.ltb_ge; lia.
Qed.

(** X21: a burst is cut at the limit: when a client calls a new limiter
    at times that all lie within the window of one another, exactly the
    first [requests] calls are allowed and every later one is refused. *)
Theorem burst_is_cut_at_the_limit :
  forall (max_requests window_ : Z) (client : string) (ts : list F),
    ForallOrdPairs
      (fun t1 t2 => flt (fsub t2 t1) (of_Z window_) = true) ts ->
    fst (run (map (fun now => (now, client)) ts)
             (__init__ max_requests window_))
    = map (fun i => Z.of_nat i <? max_requests) (seq 0 (List.length ts)).
Proof.
  intros max_requests window_ client ts Hpairs.
  rewrite run_burst.
  - reflexivity.
  - exact Hpairs.
  - apply Forall_forall. intros now _. constructor.
Qed.

(** X22: a refused call leaves no trace, and expiry frees the client: a
    refused call records no time (the client's entries are the unexpired
    ones it had), and once every recorded time of a client has expired a
    limiter with a positive limit allows the call and keeps only its
    time. *)
Theorem refusal_and_expiry :
  forall (now : F) (client : string) (self : t),
    (fst (is_allowed now client self) = false ->
     entries_of (snd (is_allowed now client self)) client
     = filter (recent self now) (entries_of self client))
    /\ (0 < requests self ->
        Forall (fun t1 => recent self now t1 = false)
               (entries_of self client) ->
        fst (is_allowed now client self) = true
        /\ entries_of (snd (is_allowed now client self)) client = [now]).
Proof.
  intros now client self.
  destruct (is_allowed_spec now client self) as (Hb & Hs & _).
  cbn zeta in Hb, Hs. split.
  - intros Hrefused. rewrite Hb in Hrefused. rewrite Hs, Hrefused.
    reflexivity.
  - intros Hpos Hexpired.
    rewrite (filter_none _ _ Hexpired) in Hb, Hs. cbn in Hb, Hs.
    assert (Hlt : (0 <? requests self) = true) by (apply Z.ltb_lt; lia).
    rewrite Hlt in Hb, Hs. split; assumption.
Qed.

End RateLimiterProps.

(* ----------------------------------------------------------------- *)
(** ** Access tokens *)

Section TokenProps.
Variable V : Type.
Variable Instant : Type.
Variable of_instant : Instant -> V.
Variable add_timedelta : Instant -> Z -> result Instant.
Variable jwt_encode : list (string * V) -> string -> string -> result string.
Variable SECRET_KEY : string.

Import UtilsToken.

Local Abbreviation create_access_token :=
  (create_access_token V Instant of_instant add_timedelta jwt_encode
     SECRET_KEY).

Lemma set_item_lookup_same (d : list (string * V)) (k : string) (v : V) :
  PyDict.lookup k (PyDict.set_item d k v) = Some v.
Proof.
  induction d as [|[k' v'] d IH]; cbn.
  - rewrite String.eqb_refl. reflexivity.
  - destruct (String.eqb_spec k k') as [->|Hk]; cbn.
    + rewrite String.eqb_refl. reflexivity.
    + apply String.eqb_neq in Hk. rewrite Hk. exact IH.
Qed.

Lemma set_item_lookup_other (d : list (string * V)) (k k0 : string) (v : V) :
  k0 <> k ->
  PyDict.lookup k0 (PyDict.set_item d k v) = PyDict.lookup k0 d.
Proof.
  intros Hneq. induction d as [|[k' v'] d IH]; cbn.
  - apply String.eqb_neq in Hneq. rewrite Hneq. reflexivity.
  - destruct (String.eqb_spec k k') as [->|Hk]; cbn.
    + apply String.eqb_neq in Hneq. rewrite Hneq. reflexivity.
    + destruct (k0 =? k')%string; [reflexivity | exact IH].
Qed.

(** X23: the expiry claim of a token: a missing lifetime and a lifetime of
    zero both give fifteen minutes; the encoded claims carry the expiry
    under [exp], whatever [exp] the caller's data had, and every other
    claim of the data unchanged. *)
Theorem token_claims_carry_the_expiry :
  forall (utcnow expire : Instant) (data : list (string * V))
         (expires_delta : option Z),
    add_timedelta utcnow
      (match expires_delta with
       | Some delta => if delta =? 0 then minutes 15 else delta
       | None => minutes 15
       end) = Ok expire ->
    exists claims,
      create_access_token utcnow data expires_delta
      = jwt_encode claims SECRET_KEY "HS256"
      /\ PyDict.lookup "exp" claims = Some (of_instant expire)
      /\ forall k, k <> "exp"%string ->
           PyDict.lookup k claims = PyDict.lookup k data.
Proof.
  intros utcnow expire data expires_delta Hexpire.
  exists (PyDict.set_item data "exp" (of_instant expire)).
  split; [|split].
  - unfold UtilsToken.create_access_token.
    destruct expires_delta as [delta|]; [destruct (delta =? 0)|];
      cbn [negb]; rewrite Hexpire; reflexivity.
  - apply set_item_lookup_same.
  - intros k Hk. apply set_item_lookup_other. exact Hk.
Qed.

End TokenProps.

(* ----------------------------------------------------------------- *)
(** ** The bodies of the administration endpoints *)

Section AdminProps.
Context {F : Type} `{Float64 F}.

Import Json PyFormat Admin.

Lemma not_admin_spec (d : list (string * pyval F)) :
  (lookup "role" d = Some (PStr "admin") ->
   not_admin (PDict d) = Ok false)
  /\ (lookup "role" d <> Some (PStr "admin") ->
      not_admin (PDict d) = Ok true).
Proof.
  unfold not_admin, get. split.
  - intros ->. reflexivity.
  - intros Hrole. destruct (lookup "role" d) as [[| | | |r| |]|];
      try reflexivity.
    cbn. destruct (String.eqb_spec r "admin") as [->|]; [|reflexivity].
    contradiction Hrole. reflexivity.
Qed.

(** X24: the role gate of the administration endpoints: each body answers
    403 unless the user's [role] is exactly the string [admin] (a user
    without a role included), and with that role none of them fails. *)
Theorem admin_bodies_require_the_admin_role :
  forall (d : list (string * pyval F)) (limit : Z) (interval : string),
    (lookup "role" d <> Some (PStr "admin") ->
     get_analytics_summary (PDict d)
     = Raise (HTTPException 403
                "Insufficient permissions to access admin analytics")
     /\ get_zone_analytics limit (PDict d)
        = Raise (HTTPException 403
                   "Insufficient permissions to access zone analytics")
     /\ get_timeseries_analytics interval (PDict d)
        = Raise (HTTPException 403
                   "Insufficient permissions to access timeseries analytics")
     /\ get_active_admin_user (PDict d)
        = Raise (HTTPException 403 "Admin privileges required"))
    /\ (lookup "role" d = Some (PStr "admin") ->
        (exists data, get_analytics_summary (PDict d) = Ok data)
        /\ (exists zones, get_zone_analytics limit (PDict d) = Ok zones)
        /\ (exists series,
              get_timeseries_analytics interval (PDict d) = Ok series)
        /\ get_active_admin_user (PDict d) = Ok (PDict d)).
Proof.
  intros d limit interval.
  destruct (not_admin_spec d) as [Hadmin Hother].
  unfold get_analytics_summary, get_zone_analytics, get_timeseries_analytics,
    get_active_admin_user.
  split; intros Hrole.
  - rewrite (Hother Hrole). cbn. repeat split; reflexivity.
  - rewrite (Hadmin Hrole). cbn [bind].
    repeat split; try (eexists; reflexivity).
Qed.

Lemma nth_error_range (lo hi i : Z) :
  lo <= i < hi ->
  nth_error (range lo hi) (Z.to_nat (i - lo)) = Some i.
Proof.
  intros Hi. unfold range.
  rewrite nth_error_map, nth_error_seq.
  destruct (Nat.ltb_spec (Z.to_nat (i - lo)) (Z.to_nat (hi - lo))); [|lia].
  cbn. f_equal. lia.
Qed.

(** X25: the zones of the zone report: for an administrator the body
    returns [limit] zones (none for a limit below one, with no upper
    bound), and zone [i] reports [1000 - 50 i] trips, a negative number
    from zone 21 on. *)
Theorem zone_report_has_limit_zones :
  forall (d : list (string * pyval F)) (limit : Z),
    lookup "role" d = Some (PStr "admin") ->
    exists zones,
      get_zone_analytics limit (PDict d)
      = Ok (PDict [("zones", PList zones)])
      /\ List.length zones = Z.to_nat limit
      /\ forall i, 1 <= i <= limit ->
           exists z,
             nth_error zones (Z.to_nat (i - 1)) = Some (PDict z)
             /\ lookup "zone_id" z = Some (PInt i)
             /\ lookup "total_trips" z = Some (PInt (1000 - i * 50))
             /\ (20 < i -> 1000 - i * 50 < 0).
Proof.
  intros d limit Hrole.
  destruct (not_admin_spec d) as [Hadmin _].
  unfold get_zone_analytics. rewrite (Hadmin Hrole). cbn [bind].
  eexists. split; [reflexivity|]. split.
  - rewrite length_map. unfold range. rewrite length_map, length_seq.
    f_equal. lia.
  - intros i Hi. rewrite nth_error_map, nth_error_range by lia.
    cbn [option_map]. eexists. split; [reflexivity|].
    repeat split; try reflexivity. lia.
Qed.

(** X26: the summary data does not fit its response model: for an
    administrator the body returns three pickup zones, and the third
    (Queens) has no [avg_distance], a required field of [ZoneAnalytics];
    its [avg_duration], written twice in the source, is the second value,
    14.2. *)
Theorem summary_third_pickup_zone_lacks_avg_distance :
  forall (d : list (string * pyval F)),
    lookup "role" d = Some (PStr "admin") ->
    exists top z1 z2 z3,
      get_analytics_summary (PDict d) = Ok (PDict top)
      /\ lookup "top_pickup_zones" top
         = Some (PList [PDict z1; PDict z2; PDict z3])
      /\ missing_fields ZoneAnalytics_fields z1 = []
      /\ missing_fields ZoneAnalytics_fields z2 = []
      /\ missing_fields ZoneAnalytics_fields z3 = ["avg_distance"%string]
      /\ lookup "zone_name" z3 = Some (PStr "Queens")
      /\ lookup "avg_duration" z3 = Some (PFloat (decimal 142 1)).
Proof.
  intros d Hrole.
  destruct (not_admin_spec d) as [Hadmin _].
  unfold get_analytics_summary. rewrite (Hadmin Hrole). cbn [bind].
  do 4 eexists. split; [reflexivity|].
  split; [reflexivity|]. repeat split; reflexivity.
Qed.

End AdminProps.

(* ----------------------------------------------------------------- *)
(** ** The further properties at concrete inputs *)

Section ConcreteMore.
Import Json Predictions.
Local Existing Instance Sample.numpy.
#[local] Set Warnings "-inexact-float".

Local Abbreviation fmt := "%Y-%m-%d %H:%M:%S"%string.
Local Abbreviation noon := (Sample.trip "2023-01-01 12:00:00").
Local Abbreviation unavailable :=
  (Raise (HTTPException 503 "Prediction model is not available")).

(** A pickup at noon is neither at night nor in the rush hour. *)
Lemma noon_sets_neither_flag :
  exists fv,
    prepare_features Sample.strptime noon = Ok fv
    /\ FeatureVector.is_night fv = 0
    /\ FeatureVector.is_rush_hour fv = 0.
Proof.
  eexists. split; [reflexivity|].
  refine (proj2 (proj2 (proj2
            (night_and_rush_hour_exclusive (F := float) Sample.strptime
               noon _ eq_refl))) _).
  right. split; vm_compute; discriminate.
Defined.

(** A pickup time in words is answered 422. *)
Lemma pickup_in_words_is_422 :
  fst (predict_trip_duration (Sample.linear_model float) Sample.model_predict
         Sample.strptime Sample.str Sample.MODEL_PATH
         (Sample.disk_with Sample.model) (Sample.trip "noon") initial)
  = Raise (HTTPException 422
             "Error processing prediction: time data 'noon' does not match format '%Y-%m-%d %H:%M:%S'").
Proof.
  rewrite (proj1 (unparseable_timestamp_is_422 (F := float)
                    (Sample.linear_model float) Sample.model_predict
                    Sample.strptime Sample.str Sample.MODEL_PATH
                    (Sample.disk_with Sample.model) (Sample.trip "noon")
                    initial Sample.model
                    (ValueError
                       "time data 'noon' does not match format '%Y-%m-%d %H:%M:%S'")
                    eq_refl eq_refl)).
  reflexivity.
Defined.

(** Two requests on a disk without the artifact: two 503s, two loads. *)
Lemma two_requests_without_artifact :
  fst (serve (Sample.linear_model float) Sample.model_predict
         Sample.strptime Sample.str Sample.MODEL_PATH
         [(Sample.empty_disk, noon); (Sample.empty_disk, noon)] initial)
  = [unavailable; unavailable].
Proof.
  refine (proj1 (missing_artifact_is_503_and_retried (F := float)
                   (Sample.linear_model float) Sample.model_predict
                   Sample.strptime Sample.str Sample.MODEL_PATH
                   [(Sample.empty_disk, noon); (Sample.empty_disk, noon)] _)).
  repeat constructor; eexists; reflexivity.
Defined.

(** The artifact appears after one failed request. *)
Lemma artifact_appears_after_one_request :
  snd (serve (Sample.linear_model float) Sample.model_predict
         Sample.strptime Sample.str Sample.MODEL_PATH
         [(Sample.empty_disk, noon); (Sample.disk_with Sample.model, noon);
          (Sample.empty_disk, noon)] initial)
  = mk_state (Some Sample.model) [Sample.MODEL_PATH; Sample.MODEL_PATH].
Proof.
  rewrite (service_recovers_when_artifact_appears (F := float)
             (Sample.linear_model float) Sample.model_predict
             Sample.strptime Sample.str Sample.MODEL_PATH
             [(Sample.empty_disk, noon)] [(Sample.empty_disk, noon)]
             (Sample.disk_with Sample.model) noon Sample.model).
  - reflexivity.
  - repeat constructor; eexists; reflexivity.
  - reflexivity.
Defined.

(** Model-info first, then a prediction on a disk that lost the
    artifact: one load. *)
Lemma info_then_prediction_loads_once :
  snd (ModelInfo.serve_all (Sample.linear_model float) Sample.model_predict
         Sample.strptime Sample.str Sample.MODEL_PATH Scenario.type_name
         Scenario.feature_importances_ Scenario.feature_names_in_
         [(Sample.disk_with Sample.model, ModelInfo.Info);
          (Sample.empty_disk, ModelInfo.Predict noon)] initial)
  = mk_state (Some Sample.model) [Sample.MODEL_PATH].
Proof.
  rewrite (endpoints_share_the_handle (F := float)
             (Sample.linear_model float) Sample.model_predict
             Sample.strptime Sample.str Sample.MODEL_PATH Scenario.type_name
             Scenario.feature_importances_ Scenario.feature_names_in_
             (Sample.disk_with Sample.model) ModelInfo.Info
             [(Sample.empty_disk, ModelInfo.Predict noon)] Sample.model
             eq_refl).
  reflexivity.
Defined.

(** The model information of the sample model lists fourteen features. *)
Lemma sample_model_lists_fourteen_features :
  exists info,
    ModelInfo.model_info_body (Sample.linear_model float) Scenario.type_name
      Scenario.feature_importances_ Scenario.feature_names_in_ Sample.model
    = Ok info
    /\ List.length (ModelInfo.features_used info) = 14%nat.
Proof.
  eexists. split; [reflexivity|].
  destruct (prepare_features Sample.strptime noon) as [fv|e] eqn:Hfv;
    [|discriminate Hfv].
  exact (proj1 (proj2
           (features_used_are_the_feature_keys
              (Sample.linear_model float) Scenario.type_name
              Scenario.feature_importances_ Scenario.feature_names_in_
              Sample.model _ fv eq_refl))).
Defined.

Local Abbreviation get_optimized_route directions :=
  (Routes.get_optimized_route directions Sample.str Sample.float_validator
     Sample.str_validator Sample.list_int_validator Sample.dict_validator).
Local Abbreviation format_response :=
  (Routes.format_response Sample.float_validator Sample.str_validator
     Sample.list_int_validator Sample.dict_validator).
Local Abbreviation geocode answer :=
  (Geocode.geocode (Scenario.pelias_search answer) Sample.str).

(** A request with a key reaches the provider once, longitude first. *)
Lemma keyed_request_reaches_the_provider :
  exists call,
    snd (get_optimized_route (Sample.directions Sample.one_route)
           (Some "key") Sample.route_request [])
    = [call]
    /\ Routes.DirectionsCall.coordinates call
       = [ [(-73.9857)%float; 40.7484%float];
           [(-73.9881)%float; 40.7517%float] ].
Proof.
  exact (proj2 (route_endpoint_raises_only_500 (F := float)
                  (Sample.directions Sample.one_route) Sample.str
                  Sample.float_validator Sample.str_validator
                  Sample.list_int_validator Sample.dict_validator
                  (Some "key") Sample.route_request [])
               eq_refl).
Defined.

(** A second feature does not change the response. *)
Lemma second_feature_is_ignored :
  format_response (Scenario.answer [Scenario.feature_of [Sample.full_step]])
  = format_response
      (Scenario.answer [Scenario.feature_of [Sample.full_step]; PNone]).
Proof.
  exact (later_features_are_ignored (F := float)
           Sample.float_validator Sample.str_validator
           Sample.list_int_validator Sample.dict_validator
           (Scenario.answer [Scenario.feature_of [Sample.full_step]])
           (Scenario.answer [Scenario.feature_of [Sample.full_step]; PNone])
           (Scenario.feature_of [Sample.full_step]) [] [PNone]
           eq_refl eq_refl).
Defined.

(** A route whose second step has no distance is answered 500. *)
Lemma second_step_without_distance_is_500 :
  exists detail,
    fst (get_optimized_route
           (Sample.directions
              (Scenario.answer
                 [Scenario.feature_of
                    [Sample.full_step; PDict Scenario.step_without_distance]]))
           (Some "key") Sample.route_request [])
    = Raise (HTTPException 500 detail).
Proof.
  eapply (step_without_distance_fails_the_request (F := float)
            _ Sample.str Sample.float_validator Sample.str_validator
            Sample.list_int_validator Sample.dict_validator
            (Some "key") Sample.route_request [] _ _ _ _
            Scenario.step_without_distance).
  - reflexivity.
  - reflexivity.
  - reflexivity.
  - left. reflexivity.
  - reflexivity.
  - right. left. reflexivity.
  - left. reflexivity.
Defined.

(** Without a key the search sends nothing. *)
Lemma search_without_key_sends_nothing :
  geocode (PDict []) None "Empire State Building" []
  = (Raise (HTTPException 500 "OpenRouteService API key not configured"),
     []).
Proof.
  exact (proj1 (proj2 (geocode_calls_and_statuses (F := float)
                         (Scenario.pelias_search (PDict [])) Sample.str
                         None "Empire State Building" []))
               eq_refl).
Defined.

(** A search answer without [features] gives no results and no error. *)
Lemma answer_without_features_gives_no_results :
  fst (geocode (PDict [("type", PStr "FeatureCollection")])
         (Some "key") "Nowhere" [])
  = Ok (PDict [("results", PList [])]).
Proof.
  exact (geocode_without_features_is_empty (F := float)
           (Scenario.pelias_search (PDict [("type", PStr "FeatureCollection")]))
           Sample.str (Some "key") "Nowhere" []
           [("type", PStr "FeatureCollection")]
           eq_refl eq_refl (or_introl eq_refl)).
Defined.

(** A feature without geometry is skipped; a point gives its entry. *)
Lemma point_is_kept_and_bare_feature_skipped :
  Geocode.geocode_feature (PDict Scenario.no_geometry) = Ok None
  /\ Geocode.geocode_feature (PDict Scenario.empire_state)
     = Ok (Some (PDict
             [("name", PStr "Empire State Building");
              ("coordinates",
               PDict [("lng", PFloat (-73.9857)%float);
                      ("lat", PFloat 40.7484%float)]);
              ("type", PStr "venue")])).
Proof.
  destruct (geocode_keeps_features_with_coordinates (F := float)
              (Scenario.pelias_search (PDict [])) Sample.str)
    as (Hskip & Hkeep & _).
  split.
  - apply Hskip. left. reflexivity.
  - exact (Hkeep Scenario.empire_state _ _ _ [] eq_refl eq_refl
             (or_intror (ex_intro _ _ eq_refl))).
Defined.

(** One place with half a point fails the search for all. *)
Lemma half_a_point_fails_the_search :
  exists detail,
    fst (geocode
           (PDict [("features",
                    PList [PDict Scenario.empire_state;
                           PDict Scenario.short_place])])
           (Some "key") "Empire State Building" [])
    = Raise (HTTPException 500 detail).
Proof.
  eapply (short_coordinates_fail_the_search (F := float)
            _ Sample.str (Some "key") "Empire State Building" []
            _ _ Scenario.short_place).
  - reflexivity.
  - reflexivity.
  - reflexivity.
  - right. left. reflexivity.
  - reflexivity.
  - reflexivity.
  - cbn. lia.
Defined.

Local Abbreviation validate_coordinates :=
  (Utils.validate_coordinates (H := Sample.numpy) Sample.format_float).

(** The Empire State Building passes; a NaN latitude is answered 400. *)
Lemma finite_point_and_nan_latitude :
  (is_finite 40.7484%float = true /\ is_finite (-73.9857)%float = true)
  /\ exists detail,
       validate_coordinates nan 0%float = Raise (HTTPException 400 detail).
Proof.
  split.
  - exact (proj1 (accepted_coordinates_are_finite Sample.radians Sample.sin
                    Sample.cos Sample.arcsin Sample.format_float
                    40.7484%float (-73.9857)%float)
                 eq_refl).
  - exact (proj2 (accepted_coordinates_are_finite Sample.radians Sample.sin
                    Sample.cos Sample.arcsin Sample.format_float
                    nan 0%float)
                 (or_introl eq_refl)).
Defined.

(** 3725 seconds read as one hour and two minutes, like 3720. *)
Lemma an_hour_two_minutes_and_five_seconds :
  UtilsFormat.format_duration 3725 = "1h 2m"%string
  /\ UtilsFormat.format_duration 3725 = UtilsFormat.format_duration 3720.
Proof.
  exact (proj2 (proj2 (format_duration_by_magnitude 3725)) ltac:(lia)).
Defined.

(** Half a minute before zero reads as 59 minutes and 30 seconds. *)
Lemma minus_thirty_seconds :
  UtilsFormat.format_duration (-30) = "59m 30s"%string.
Proof.
  exact (proj1 (format_duration_negative_wraps (-30) ltac:(lia))).
Defined.

(** Three calls within a second on a limit of two per minute. *)
Lemma third_call_in_a_second_is_refused :
  fst (RateLimiter.run PrimFloat.ltb
         [(100%float, "10.0.0.1"%string); (100.5%float, "10.0.0.1"%string);
          (101%float, "10.0.0.1"%string)]
         (RateLimiter.__init__ 2 60))
  = [true; true; false].
Proof.
  refine (burst_is_cut_at_the_limit (F := float) PrimFloat.ltb 2 60
            "10.0.0.1" [100%float; 100.5%float; 101%float] _).
  repeat constructor.
Defined.

(** A client whose only request is 100 seconds old is allowed again. *)
Lemma old_request_has_expired :
  fst (RateLimiter.is_allowed PrimFloat.ltb 200%float "10.0.0.1"
         Scenario.limiter) = true
  /\ RateLimiter.entries_of
       (snd (RateLimiter.is_allowed PrimFloat.ltb 200%float "10.0.0.1"
               Scenario.limiter)) "10.0.0.1"
     = [200%float].
Proof.
  refine (proj2 (refusal_and_expiry (F := float) PrimFloat.ltb 200%float
                   "10.0.0.1" Scenario.limiter) _ _).
  - cbn. lia.
  - repeat constructor.
Defined.

(** A lifetime of zero gives fifteen minutes and replaces the [exp] of
    the data. *)
Lemma zero_lifetime_token :
  exists claims,
    UtilsToken.create_access_token Z Z (fun t => t) Scenario.add_timedelta
      Scenario.jwt_encode "secret" 0 [("exp", 1); ("sub", 7)] (Some 0)
    = Scenario.jwt_encode claims "secret" "HS256"
    /\ PyDict.lookup "exp" claims = Some 900000000
    /\ PyDict.lookup "sub" claims = Some 7.
Proof.
  destruct (token_claims_carry_the_expiry Z Z (fun t => t)
              Scenario.add_timedelta Scenario.jwt_encode "secret"
              0 900000000 [("exp", 1); ("sub", 7)] (Some 0) eq_refl)
    as (claims & Hrun & Hexp & Hother).
  exists claims. split; [exact Hrun|]. split; [exact Hexp|].
  rewrite Hother by discriminate. reflexivity.
Defined.

(** A user without a role is not an administrator. *)
Lemma user_without_role_is_refused :
  Admin.get_active_admin_user (PDict Scenario.plain_user)
  = Raise (HTTPException 403 "Admin privileges required").
Proof.
  refine (proj2 (proj2 (proj2
            (proj1 (admin_bodies_require_the_admin_role (F := float)
                      Scenario.plain_user 10 "hour") _)))).
  discriminate.
Defined.

(** With a limit of 25, zone 21 reports minus fifty trips. *)
Lemma zone_21_reports_negative_trips :
  exists zones z,
    Admin.get_zone_analytics 25 (PDict Scenario.admin_user)
    = Ok (PDict [("zones", PList zones)])
    /\ nth_error zones 20 = Some (PDict z)
    /\ lookup "total_trips" z = Some (PInt (-50)).
Proof.
  destruct (zone_report_has_limit_zones (F := float) Scenario.admin_user 25
              eq_refl)
    as (zones & Hrun & _ & Hzone).
  destruct (Hzone 21 ltac:(lia)) as (z & Hnth & _ & Htrips & _).
  exists zones, z. split; [exact Hrun|]. split; [exact Hnth | exact Htrips].
Defined.

(** The summary for the sample administrator. *)
Lemma summary_for_the_administrator :
  exists top z1 z2 z3,
    Admin.get_analytics_summary (PDict Scenario.admin_user) = Ok (PDict top)
    /\ lookup "top_pickup_zones" top
       = Some (PList [PDict z1; PDict z2; PDict z3])
    /\ Admin.missing_fields Admin.ZoneAnalytics_fields z3
       = ["avg_distance"%string].
Proof.
  destruct (summary_third_pickup_zone_lacks_avg_distance (F := float)
              Scenario.admin_user eq_refl)
    as (top & z1 & z2 & z3 & Hrun & Hzones & _ & _ & Hmissing & _).
  exists top, z1, z2, z3. split; [exact Hrun|].
  split; [exact Hzones | exact Hmissing].
Defined.

End ConcreteMore.
